(** * AI Receptionist backend: appointment scheduling engine

    A shallow embedding of [assistantbackend.py]: the date/time parser of
    [AppointmentPlugin], the business-hours gate, the conflict query, the
    alternative-slot search, the booking, cancellation, order, question and
    message handlers, the after-hours resolver, the plugin manager and the
    webhook, together with the properties the specification states about
    them and further properties read off the code.

    Conventions of the embedding.
    - Python [str] is [string]; [None]-able values are [option].
    - [datetime], [date] and [time] are records of calendar fields, as in
      Python; [strptime] and [strftime] work on them.
    - The scheduler adds minutes to datetimes and compares them, so past
      the parser it carries a datetime as the number of minutes since
      0001-01-01T00:00 (a Monday), a [Z]: [Py.minutes_of].  All datetimes
      it handles come from [%H:%M]-style parses, integer minute durations
      and 30-minute steps, so they have zero seconds.  [isoformat()]
      renders such values in a fixed-width layout whose text order is the
      chronological order, hence the SQL text comparisons are comparisons
      of these numbers.  The range of datetime (years 1 to 9999) is
      modelled where the alternative search steps through days and slots
      ([date_add], [datetime_add]); the end [start + duration] of a single
      request is taken to lie within it.
    - The SQLite file is a record of tables; every statement executed on it
      is also appended to a log, so that "no query was made" can be said.
    - A handler is a function in a state-and-exception monad over that
      record; a Python exception that leaves the handler is [Raise]. *)

From Stdlib Require Import ZArith List String Ascii Bool Lia Sorted.
From stdpp Require Import gmap strings.
Import ListNotations.

Local Open Scope string_scope.
Local Open Scope Z_scope.
Local Open Scope list_scope.

(** ** Python library functions used by the program *)

Module Py.

(** [str.isspace] on one ASCII character: tab..carriage return, the four
    separators 0x1c..0x1f, and the space. *)
Definition is_space (c : ascii) : bool :=
  let n := N_of_ascii c in
  ((9 <=? n) && (n <=? 13) || (28 <=? n) && (n <=? 32))%N.

Definition is_digit (c : ascii) : bool :=
  let n := N_of_ascii c in ((48 <=? n) && (n <=? 57))%N.

Definition lower_char (c : ascii) : ascii :=
  let n := N_of_ascii c in
  if ((65 <=? n) && (n <=? 90))%N then ascii_of_N (n + 32) else c.

Definition upper_char (c : ascii) : ascii :=
  let n := N_of_ascii c in
  if ((97 <=? n) && (n <=? 122))%N then ascii_of_N (n - 32) else c.

(** [str.lower()] *)
Fixpoint lower (s : string) : string :=
  match s with
  | EmptyString => EmptyString
  | String c s' => String (lower_char c) (lower s')
  end.

(** [str.title()] on a single lower-case word. *)
Definition title (s : string) : string :=
  match s with
  | EmptyString => EmptyString
  | String c s' => String (upper_char c) (lower s')
  end.

Fixpoint lstrip (s : string) : string :=
  match s with
  | String c s' => if is_space c then lstrip s' else s
  | EmptyString => EmptyString
  end.

Fixpoint rstrip (s : string) : string :=
  match s with
  | EmptyString => EmptyString
  | String c s' =>
      match rstrip s' with
      | EmptyString => if is_space c then EmptyString else String c EmptyString
      | r => String c r
      end
  end.

(** [str.lstrip('0')] *)
Fixpoint lstrip_zeros (s : string) : string :=
  match s with
  | String c s' => if Ascii.eqb c "0" then lstrip_zeros s' else s
  | EmptyString => EmptyString
  end.

(** [str.strip()] *)
Definition strip (s : string) : string := rstrip (lstrip s).

(** [str.split(sep)] for a one-character separator: always at least one
    piece, empty pieces are kept. *)
Fixpoint split (sep : ascii) (s : string) : list string :=
  match s with
  | EmptyString => [EmptyString]
  | String c s' =>
      if Ascii.eqb c sep then EmptyString :: split sep s'
      else match split sep s' with
           | p :: ps => String c p :: ps
           | [] => [String c EmptyString]
           end
  end.

(** [sep.join(parts)] *)
Fixpoint join (sep : string) (parts : list string) : string :=
  match parts with
  | [] => ""
  | [p] => p
  | p :: ps => p +:+ sep +:+ join sep ps
  end.

(** [str(x)] for an optional string: [None] prints as the word None. *)
Definition str (x : option string) : string :=
  match x with Some s => s | None => "None" end.

(** Truthiness of an optional string: [None] and [''] are falsy. *)
Definition truthy (x : option string) : bool :=
  match x with
  | Some (String _ _) => true
  | _ => false
  end.

(** *** Decimal rendering *)

Definition digit_char (d : Z) : ascii := ascii_of_N (48 + Z.to_N d).

(** the last [n] decimal digits of [v], most significant first *)
Fixpoint zfill (n : nat) (v : Z) : string :=
  match n with
  | O => ""
  | S n' => zfill n' (v / 10) +:+ String (digit_char (v mod 10)) ""
  end.

Definition digit_val (c : ascii) : Z := Z.of_N (N_of_ascii c) - 48.

(** [int(s)] for a string made of decimal digits, after the stripping of
    surrounding blanks that [int] performs. *)
Fixpoint int_digits (acc : Z) (s : string) : Z :=
  match s with
  | EmptyString => acc
  | String c s' => int_digits (10 * acc + digit_val c) s'
  end.

Definition int (s : string) : Z := int_digits 0 (strip s).

(** [str(n)] for an integer *)
Fixpoint nat_digits (fuel : nat) (n : Z) (acc : string) : string :=
  match fuel with
  | O => acc
  | S fuel' =>
      let acc' := String (digit_char (n mod 10)) acc in
      if n / 10 =? 0 then acc' else nat_digits fuel' (n / 10) acc'
  end.

Definition str_int (n : Z) : string :=
  if n <? 0 then String "-" (nat_digits (S (Z.to_nat (Z.log2 (- n)))) (- n) "")
  else nat_digits (S (Z.to_nat (Z.log2 n))) n "".

(** *** The proleptic Gregorian calendar of [datetime] *)

Definition is_leap (y : Z) : bool :=
  (y mod 4 =? 0) && (negb (y mod 100 =? 0) || (y mod 400 =? 0)).

Definition days_in_month (y m : Z) : Z :=
  if m =? 2 then (if is_leap y then 29 else 28)
  else if (m =? 4) || (m =? 6) || (m =? 9) || (m =? 11) then 30
  else 31.

(** number of days in year [y] before the first of month [S n] *)
Fixpoint days_before_month_nat (y : Z) (n : nat) : Z :=
  match n with
  | O => 0
  | S n' => days_before_month_nat y n' + days_in_month y (Z.of_nat n)
  end.

Definition days_before_month (y m : Z) : Z :=
  days_before_month_nat y (Z.to_nat (m - 1)).

(** number of days before January 1st of year [y] *)
Definition days_before_year (y : Z) : Z :=
  let y' := y - 1 in y' * 365 + y' / 4 - y' / 100 + y' / 400.

(** [date(y, m, d).toordinal()]: 0001-01-01 is day 1. *)
Definition ymd2ord (y m d : Z) : Z :=
  days_before_year y + days_before_month y m + d.

Definition valid_date (y m d : Z) : bool :=
  (1 <=? y) && (y <=? 9999) && (1 <=? m) && (m <=? 12)
  && (1 <=? d) && (d <=? days_in_month y m).

(** [_ord2ymd]: the date of ordinal [n], by 400-, 100-, 4- and 1-year
    cycles. *)
Definition ord2ymd (n : Z) : Z * Z * Z :=
  let n := n - 1 in
  let n400 := n / 146097 in let n := n mod 146097 in
  let n100 := n / 36524 in let n := n mod 36524 in
  let n4 := n / 1461 in let n := n mod 1461 in
  let n1 := n / 365 in let n := n mod 365 in
  let year := n400 * 400 + 1 + n100 * 100 + n4 * 4 + n1 in
  if (n1 =? 4) || (n100 =? 4) then (year - 1, 12, 31)
  else
    let leapyear := (n1 =? 3) && (negb (n4 =? 24) || (n100 =? 3)) in
    let dim m := if (m =? 2) && leapyear then 29 else days_in_month 1 m in
    let dbm m := days_before_month 1 m
                 + (if (2 <? m) && leapyear then 1 else 0) in
    let month := Z.shiftr (n + 50) 5 in
    let preceding := dbm month in
    if n <? preceding
    then (year, month - 1, n - (preceding - dim (month - 1)) + 1)
    else (year, month, n - preceding + 1).

Record date := mk_date { year : Z; month : Z; day : Z }.
Record time := mk_time { hour : Z; minute : Z; second : Z; microsecond : Z }.
Record datetime := mk_datetime { dt_date : date; dt_time : time }.

(** [datetime.combine] *)
Definition combine (d : date) (t : time) : datetime := mk_datetime d t.

Definition toordinal (d : date) : Z := ymd2ord (year d) (month d) (day d).

(** [date.weekday()]: Monday is 0. *)
Definition weekday (d : date) : Z := (toordinal d + 6) mod 7.

(** Order of [time] objects: by microsecond of the day. *)
Definition time_us (t : time) : Z :=
  ((hour t * 60 + minute t) * 60 + second t) * 1000000 + microsecond t.

Definition time_minutes (t : time) : Z := hour t * 60 + minute t.

(** Minutes from 0001-01-01T00:00 to a datetime (its seconds dropped). *)
Definition minutes_of (d : datetime) : Z :=
  (toordinal (dt_date d) - 1) * 1440 + time_minutes (dt_time d).

Definition datetime_of_minutes (t : Z) : datetime :=
  let '(y, m, d) := ord2ymd (t / 1440 + 1) in
  let r := t mod 1440 in
  mk_datetime (mk_date y m d) (mk_time (r / 60) (r mod 60) 0 0).

(** *** Locale tables (the C locale) *)

Definition day_names : list string :=
  ["Monday"; "Tuesday"; "Wednesday"; "Thursday"; "Friday"; "Saturday";
   "Sunday"].

Definition month_names : list string :=
  ["January"; "February"; "March"; "April"; "May"; "June"; "July";
   "August"; "September"; "October"; "November"; "December"].

Definition abbr (s : string) : string := substring 0 3 s.

Definition day_name (wd : Z) : string := nth (Z.to_nat wd) day_names "".
Definition month_name (m : Z) : string :=
  nth (Z.to_nat (m - 1)) month_names "".

(** *** [strftime]

    The C library does the formatting; the model follows CPython on
    glibc: the two-digit fields are zero-filled and [%Y] is the year as it
    stands, so that 999 prints as [999], not [0999]. *)

Definition hour12 (h : Z) : Z := if h mod 12 =? 0 then 12 else h mod 12.

Definition directive_text (c : ascii) (d : datetime) : string :=
  let dd := dt_date d in let tt := dt_time d in
  if Ascii.eqb c "Y" then str_int (year dd)
  else if Ascii.eqb c "m" then zfill 2 (month dd)
  else if Ascii.eqb c "d" then zfill 2 (day dd)
  else if Ascii.eqb c "B" then month_name (month dd)
  else if Ascii.eqb c "b" then abbr (month_name (month dd))
  else if Ascii.eqb c "A" then day_name (weekday dd)
  else if Ascii.eqb c "H" then zfill 2 (hour tt)
  else if Ascii.eqb c "I" then zfill 2 (hour12 (hour tt))
  else if Ascii.eqb c "M" then zfill 2 (minute tt)
  else if Ascii.eqb c "p" then (if hour tt <? 12 then "AM" else "PM")
  else String "%" (String c "").

Fixpoint strftime (fmt : string) (d : datetime) : string :=
  match fmt with
  | String "%" (String c rest) => directive_text c d +:+ strftime rest d
  | String c rest => String c (strftime rest d)
  | EmptyString => EmptyString
  end.

(** *** [strptime]

    [_strptime] turns the format into a regular expression (one group of
    ordered alternatives per directive, [\s+] for a run of blanks,
    IGNORECASE), takes the first match of the backtracking matcher, and
    fails when characters remain after it. *)

Inductive cclass :=
| CChar (c : ascii)        (* that character, in either case *)
| CRange (lo hi : ascii)   (* [lo-hi] *)
| CDigit.                  (* \d *)

Definition cclass_mem (k : cclass) (a : ascii) : bool :=
  match k with
  | CChar c => Ascii.eqb (lower_char c) (lower_char a)
  | CRange lo hi => ((N_of_ascii lo <=? N_of_ascii a)
                     && (N_of_ascii a <=? N_of_ascii hi))%N
  | CDigit => is_digit a
  end.

Inductive directive := dY | dm | dd | dB | db | dH | dI | dM | dp.

Inductive tok :=
| TLit (c : ascii)
| TSpace
| TDir (d : directive).

Definition word (s : string) : list cclass :=
  map CChar (list_ascii_of_string s).

(** The alternatives of each directive, in the order of the regex. *)
Definition dir_alts (d : directive) : list (list cclass) :=
  match d with
  | dY => [[CDigit; CDigit; CDigit; CDigit]]
  | dm => [[CChar "1"; CRange "0" "2"]; [CChar "0"; CRange "1" "9"];
           [CRange "1" "9"]]
  | dd => [[CChar "3"; CRange "0" "1"]; [CRange "1" "2"; CDigit];
           [CChar "0"; CRange "1" "9"]; [CRange "1" "9"];
           [CChar " "; CRange "1" "9"]]
  | dB => map word ["september"; "february"; "november"; "december";
                    "january"; "october"; "august"; "march"; "april";
                    "june"; "july"; "may"]
  | db => map word ["jan"; "feb"; "mar"; "apr"; "may"; "jun"; "jul"; "aug";
                    "sep"; "oct"; "nov"; "dec"]
  | dH => [[CChar "2"; CRange "0" "3"]; [CRange "0" "1"; CDigit]; [CDigit]]
  | dI => [[CChar "1"; CRange "0" "2"]; [CChar "0"; CRange "1" "9"];
           [CRange "1" "9"]]
  | dM => [[CRange "0" "5"; CDigit]; [CDigit]]
  | dp => map word ["am"; "pm"]
  end.

Definition directive_of (c : ascii) : option directive :=
  if Ascii.eqb c "Y" then Some dY else if Ascii.eqb c "m" then Some dm
  else if Ascii.eqb c "d" then Some dd else if Ascii.eqb c "B" then Some dB
  else if Ascii.eqb c "b" then Some db else if Ascii.eqb c "H" then Some dH
  else if Ascii.eqb c "I" then Some dI else if Ascii.eqb c "M" then Some dM
  else if Ascii.eqb c "p" then Some dp else None.

(** The format as a token list; [None] for a directive outside the ones
    modelled.  [sp] tells that the previous character was a blank. *)
Fixpoint compile_from (sp : bool) (fmt : string) : option (list tok) :=
  match fmt with
  | EmptyString => Some []
  | String "%" (String c rest) =>
      match directive_of c, compile_from false rest with
      | Some d, Some ts => Some (TDir d :: ts)
      | _, _ => None
      end
  | String c rest =>
      if is_space c then
        match compile_from true rest with
        | Some ts => Some (if sp then ts else TSpace :: ts)
        | None => None
        end
      else
        match compile_from false rest with
        | Some ts => Some (TLit c :: ts)
        | None => None
        end
  end.

Definition compile (fmt : string) : option (list tok) := compile_from false fmt.

(** One alternative against the front of [s]: the matched text and the
    rest. *)
Fixpoint match_alt (cs : list cclass) (s : string) : option (string * string) :=
  match cs with
  | [] => Some (EmptyString, s)
  | k :: cs' =>
      match s with
      | EmptyString => None
      | String a s' =>
          if cclass_mem k a then
            match match_alt cs' s' with
            | Some (m, r) => Some (String a m, r)
            | None => None
            end
          else None
      end
  end.

(** Ordered alternation: the first alternative after which the rest of the
    expression [k] also matches. *)
Fixpoint try_alts {A} (k : string -> string -> option A)
    (alts : list (list cclass)) (s : string) : option A :=
  match alts with
  | [] => None
  | al :: alts' =>
      match match_alt al s with
      | Some (m, r) =>
          match k m r with
          | Some x => Some x
          | None => try_alts k alts' s
          end
      | None => try_alts k alts' s
      end
  end.

(** [\s+]: greedy, giving blanks back one at a time. *)
Fixpoint spaces_then {A} (k : string -> option A) (s : string) : option A :=
  match s with
  | EmptyString => None
  | String a s' =>
      if is_space a then
        match spaces_then k s' with
        | Some x => Some x
        | None => k s'
        end
      else None
  end.

Definition groups := list (directive * string).

(** [format_regex.match]: the groups of the first match and the text
    after it. *)
Fixpoint re_match (ts : list tok) (s : string) : option (groups * string) :=
  match ts with
  | [] => Some ([], s)
  | TLit c :: ts' =>
      match s with
      | String a s' => if cclass_mem (CChar c) a then re_match ts' s' else None
      | EmptyString => None
      end
  | TSpace :: ts' => spaces_then (re_match ts') s
  | TDir d :: ts' =>
      try_alts (fun m r =>
                  match re_match ts' r with
                  | Some (g, rest) => Some ((d, m) :: g, rest)
                  | None => None
                  end) (dir_alts d) s
  end.

Definition directive_eqb (a b : directive) : bool :=
  match a, b with
  | dY, dY | dm, dm | dd, dd | dB, dB | db, db | dH, dH | dI, dI
  | dM, dM | dp, dp => true
  | _, _ => false
  end.

Fixpoint group (d : directive) (g : groups) : option string :=
  match g with
  | [] => None
  | (d', m) :: g' => if directive_eqb d d' then Some m else group d g'
  end.

(** position of [x] in [l], counted from 1 *)
Fixpoint index1 (x : string) (l : list string) : Z :=
  match l with
  | [] => 0
  | y :: l' => if String.eqb x y then 1 else 1 + index1 x l'
  end.

(** The loop over the found groups: each one sets its field. *)
Fixpoint convert (all g : groups) (d : datetime) : datetime :=
  match g with
  | [] => d
  | (k, m) :: g' =>
      let dd := dt_date d in let tt := dt_time d in
      let d' :=
        match k with
        | dY => mk_datetime (mk_date (int m) (month dd) (day dd)) tt
        | dm => mk_datetime (mk_date (year dd) (int m) (day dd)) tt
        | dB => mk_datetime
                  (mk_date (year dd) (index1 (lower m) (map lower month_names))
                     (day dd)) tt
        | db => mk_datetime
                  (mk_date (year dd)
                     (index1 (lower m) (map (fun n => lower (abbr n)) month_names))
                     (day dd)) tt
        | dd => mk_datetime (mk_date (year dd) (month dd) (int m)) tt
        | dH => mk_datetime dd
                  (mk_time (int m) (minute tt) (second tt) (microsecond tt))
        | dI =>
            let h := int m in
            let ampm := lower (default "" (group dp all)) in
            let h' := if String.eqb ampm "" || String.eqb ampm "am"
                      then (if h =? 12 then 0 else h)
                      else if String.eqb ampm "pm"
                           then (if h =? 12 then h else h + 12)
                           else h in
            mk_datetime dd
              (mk_time h' (minute tt) (second tt) (microsecond tt))
        | dM => mk_datetime dd
                  (mk_time (hour tt) (int m) (second tt) (microsecond tt))
        | dp => d
        end in
      convert all g' d'
  end.

(** [datetime.strptime(s, fmt)]; [None] stands for its [ValueError]. *)
Definition strptime (s fmt : string) : option datetime :=
  match compile fmt with
  | None => None
  | Some ts =>
      match re_match ts s with
      | Some (g, EmptyString) =>
          let d := convert g g
                     (mk_datetime (mk_date 1900 1 1) (mk_time 0 0 0 0)) in
          if valid_date (year (dt_date d)) (month (dt_date d)) (day (dt_date d))
          then Some d else None
      | _ => None
      end
  end.

End Py.

(** ** Configuration, requests, responses and the database *)

(** One entry of [features.appointments.appointment_types]. *)
Record appointment_type := mk_appointment_type {
  at_name : option string;     (* 'name', absent when [None] *)
  at_duration : option Z       (* 'duration' in minutes, absent when [None] *)
}.

(** The JSON document held by [BusinessConfig]. *)
Record BusinessConfig := mk_BusinessConfig {
  business_name : option string;
  business_hours : gmap string string;        (* day name -> 'HH:MM-HH:MM' | 'closed' *)
  appointment_types : list appointment_type;
  enabled_features : list string
}.

Inductive status := confirmed | cancelled.

Definition status_eqb (a b : status) : bool :=
  match a, b with
  | confirmed, confirmed | cancelled, cancelled => true
  | _, _ => false
  end.

(** A row of table [appointments]; [start_time] and [end_time] are
    instants.  The columns [created_at] and [updated_at], which SQLite
    fills with the time of the INSERT and no handler reads, are left out:
    two rows that are equal here may differ there. *)
Record appointment := mk_appointment {
  a_id : Z;
  a_business_id : string;
  a_customer_name : option string;
  a_phone : option string;
  a_email : option string;
  a_start_time : Z;
  a_end_time : Z;
  a_service : option string;
  a_notes : option string;
  a_status : status
}.

Record order := mk_order {
  o_id : Z;
  o_business_id : string;
  o_customer_name : option string;
  o_phone : option string;
  o_order_items : option string;
  o_total : Z;
  o_pickup_time : option string;
  o_delivery_address : option string;
  o_special_instructions : option string
}.

Record message_row := mk_message_row {
  m_id : Z;
  m_business_id : string;
  m_caller_name : option string;
  m_phone : option string;
  m_message : option string;
  m_priority : option string
}.

(** [appointments.db]: three tables in row order, each with the last
    identifier AUTOINCREMENT handed out. *)
Record db := mk_db {
  appointments : list appointment;
  appointments_seq : Z;
  orders : list order;
  orders_seq : Z;
  messages : list message_row;
  messages_seq : Z
}.

(** [init_database] on a fresh file. *)
Definition init_database : db := mk_db [] 0 [] 0 [] 0.

(** What a handler does to the outside: statements on the database and
    notifications. *)
Inductive event :=
| SelectConflict (business_id : string) (start_time end_time : Z)
| InsertAppointment (id : Z)
| SelectCustomer (name phone : string)
| DeleteAppointment (id : Z)
| InsertOrder (id : Z)
| InsertMessage (id : Z)
| Notify (text : string).

Record world := mk_world { w_db : db; w_log : list event }.

Inductive exn :=
| AttributeError (what : string)
| OverflowError (what : string)
| OutOfFuel.       (* a loop of the model ran out of steps; never raised,
                      see [scan_days_spec] *)

Inductive outcome (A : Type) :=
| Ok (a : A)
| Raise (e : exn).
Arguments Ok {A} a.
Arguments Raise {A} e.

(** Handlers run in a state-and-exception monad over [world]. *)
Definition M (A : Type) : Type := world -> outcome A * world.

Definition ret {A} (a : A) : M A := fun w => (Ok a, w).
Definition raise {A} (e : exn) : M A := fun w => (Raise e, w).
Definition bind {A B} (m : M A) (k : A -> M B) : M B :=
  fun w => match m w with
           | (Ok a, w') => k a w'
           | (Raise e, w') => (Raise e, w')
           end.
Definition get_db : M db := fun w => (Ok (w_db w), w).
Definition put_db (d : db) : M unit := fun w => (Ok tt, mk_world d (w_log w)).
Definition emit (e : event) : M unit :=
  fun w => (Ok tt, mk_world (w_db w) (w_log w ++ [e])).

Definition lift {A} (o : outcome A) : M A := fun w => (o, w).

Notation "'let*' x ':=' m 'in' k" := (bind m (fun x => k))
  (at level 10, x pattern, m at level 100, k at level 200).

Record alternative := mk_alternative {
  alt_datetime : Z;          (* the instant that 'datetime' renders *)
  alt_formatted : string
}.

(** The result dictionary of a handler; an absent key is [None]. *)
Record response := mk_response {
  success : bool;
  message : string;
  alternatives : option (list alternative);
  action : option string;
  appointment_id : option string;
  order_id : option string
}.

Definition reply (ok : bool) (msg : string) : response :=
  mk_response ok msg None None None None.

(** ** The hours strings of the configuration *)

(** [hours and hours != 'closed'] negated: the day has no usable entry. *)
Definition closed_entry (hours : option string) : bool :=
  match hours with
  | None => true
  | Some h => String.eqb h "" || String.eqb h "closed"
  end.

(** The body of the [try] blocks that read an hours string:
    [open_time, close_time = hours.split('-')] followed by a [%H:%M] parse
    of each stripped half.  [None] is any exception raised there. *)
Definition parse_hours (hours : string) : option (Py.time * Py.time) :=
  match Py.split "-" hours with
  | [open_time; close_time] =>
      match Py.strptime (Py.strip open_time) "%H:%M",
            Py.strptime (Py.strip close_time) "%H:%M" with
      | Some o, Some c => Some (Py.dt_time o, Py.dt_time c)
      | _, _ => None
      end
  | _ => None
  end.

(** [dt.strftime('%A').lower()] for a day counted from 0001-01-01. *)
Definition day_key (day_index : Z) : string :=
  Py.lower (Py.day_name (day_index mod 7)).

(** Scheduler instants: the date part and the time-of-day part. *)
Definition date_of (t : Z) : Z := t / 1440.
Definition time_of (t : Z) : Z := t mod 1440.
Definition combine_minutes (day_index minute_of_day : Z) : Z :=
  day_index * 1440 + minute_of_day.

(** *** The range of [date] and [datetime]

    Dates run from 0001-01-01 to 9999-12-31; the arithmetic of the
    alternative search raises [OverflowError] when it leaves that range. *)

(** 9999-12-31 as a day counted from 0001-01-01. *)
Definition max_date : Z := 3652058.

(** The first minute after 9999-12-31T23:59. *)
Definition max_minutes : Z := (max_date + 1) * 1440.

Definition date_out_of_range : exn := OverflowError "date value out of range".

(** [timedelta(minutes=n)]: at most 999999999 days either way. *)
Definition timedelta_minutes (n : Z) : outcome Z :=
  if Z.abs (n / 1440) <=? 999999999 then Ok n
  else Raise (OverflowError ("days=" +:+ Py.str_int (n / 1440)
                             +:+ "; must have magnitude <= 999999999")).

(** [t + timedelta(minutes=n)] for a datetime [t]. *)
Definition datetime_add (t n : Z) : outcome Z :=
  match timedelta_minutes n with
  | Ok n =>
      if (0 <=? t + n) && (t + n <? max_minutes) then Ok (t + n)
      else Raise date_out_of_range
  | Raise e => Raise e
  end.

(** [d + timedelta(days=k)] for a date [d]. *)
Definition date_add (d k : Z) : outcome Z :=
  if (0 <=? d + k) && (d + k <=? max_date) then Ok (d + k)
  else Raise date_out_of_range.

(** the newline of the multi-line notification texts *)
Definition nl : string := String (ascii_of_N 10) "".

(** ** AppointmentPlugin *)

(** The request dictionary of a booking. *)
Record booking_data := mk_booking_data {
  bk_customer_name : option string;
  bk_phone : option string;
  bk_email : option string;
  bk_date : option string;
  bk_time : option string;
  bk_service : option string;
  bk_notes : option string;
  bk_business_id : string
}.

Module AppointmentPlugin.

Definition intents : list string :=
  ["schedule_appointment"; "book_appointment"; "make_reservation"].

Definition can_handle (intent : string) : bool :=
  existsb (String.eqb intent) intents.

Definition date_formats : list string :=
  ["%Y-%m-%d"; "%m/%d/%Y"; "%m-%d-%Y"; "%B %d, %Y"; "%b %d, %Y"].
Definition time_formats : list string :=
  ["%H:%M"; "%I:%M %p"; "%I:%M%p"; "%I %p"; "%I%p"].

(** The [for fmt in ...: try ... break / except ValueError: continue]
    loop: the parse by the first format that accepts the text. *)
Fixpoint first_format (s : string) (formats : list string) : option Py.datetime :=
  match formats with
  | [] => None
  | fmt :: formats' =>
      match Py.strptime (Py.strip s) fmt with
      | Some d => Some d
      | None => first_format s formats'
      end
  end.

(** [_parse_datetime]; [None] is the exception it raises: the
    [AttributeError] of [None.strip()] or one of its [ValueError]s. *)
Definition _parse_datetime (date_str time_str : option string)
  : option Py.datetime :=
  match date_str with
  | None => None
  | Some ds =>
      match first_format ds date_formats with
      | None => None
      | Some parsed_date =>
          match time_str with
          | None => None
          | Some ts =>
              match first_format ts time_formats with
              | None => None
              | Some parsed_time =>
                  Some (Py.combine (Py.dt_date parsed_date)
                          (Py.dt_time parsed_time))
              end
          end
      end
  end.

(** [_format_datetime] *)
Definition _format_datetime (t : Z) : string :=
  Py.strftime "%A, %B %d at %I:%M %p" (Py.datetime_of_minutes t).

Definition _get_business_hours_text : string :=
  "Monday-Friday 9am-5pm, Saturday 9am-2pm".

Section WithConfig.
Variable config : BusinessConfig.

(** [_get_service_duration]: the comparison evaluates [service.lower()]
    for every catalogue entry it looks at, which raises on [None]. *)
Fixpoint service_duration_loop (types : list appointment_type)
    (service : option string) : outcome Z :=
  match types with
  | [] => Ok 30
  | apt_type :: types' =>
      let name := Py.lower (default "" (at_name apt_type)) in
      match service with
      | None =>
          Raise (AttributeError "'NoneType' object has no attribute 'lower'")
      | Some sv =>
          if String.eqb name (Py.lower sv)
          then Ok (default 30 (at_duration apt_type))
          else service_duration_loop types' service
      end
  end.

Definition _get_service_duration (service : option string) : outcome Z :=
  service_duration_loop (appointment_types config) service.

(** The WHERE clause of the conflict query, on one row.  The three
    bound pairs are (end, start), (end, end) and (start, end). *)
Definition conflict_row (business_id : string) (start_time end_time : Z)
    (a : appointment) : bool :=
  String.eqb (a_business_id a) business_id
  && status_eqb (a_status a) confirmed
  && ((a_start_time a <? end_time) && (start_time <? a_end_time a)
      || (a_start_time a <? end_time) && (end_time <? a_end_time a)
      || (start_time <=? a_start_time a) && (a_end_time a <=? end_time)).

(** [_check_availability]: one SELECT, [fetchone()].  The end of the
    requested interval is taken to lie within the range of datetime; inside
    the alternative search it does, the loop test having formed the same
    sum. *)
Definition _check_availability (start_time duration : Z)
    (business_id : string) : M (bool * string) :=
  let end_time := start_time + duration in
  let* _ := emit (SelectConflict business_id start_time end_time) in
  let* d := get_db in
  match find (conflict_row business_id start_time end_time) (appointments d) with
  | Some conflict => ret (false, "I'm sorry, that time is already booked.")
  | None => ret (true, "")
  end.

(** [_is_within_business_hours] *)
Definition _is_within_business_hours (appointment_datetime : Z)
    (business_id : string) : bool :=
  let day_name := day_key (date_of appointment_datetime) in
  let hours := business_hours config !! day_name in
  match hours with
  | None => false
  | Some h =>
      if closed_entry hours then false
      else
        match parse_hours h with
        | Some (open_hour, close_hour) =>
            let appointment_time := time_of appointment_datetime in
            (Py.time_minutes open_hour <=? appointment_time)
            && (appointment_time <=? Py.time_minutes close_hour)
        | None => true
        end
  end.

(** How one day's [while] loop ends: by the [return] inside it, or by
    falling out of it. *)
Inductive scan := Returned (alts : list alternative)
                | Exhausted (alts : list alternative).

(** The [while current_time + timedelta(minutes=duration) <= end_of_day]
    loop of one day.  The sum of the loop test and the step
    [current_time += timedelta(minutes=30)] raise when they leave the range
    of datetime.  [fuel] bounds the number of iterations. *)
Fixpoint scan_day (fuel : nat) (duration : Z) (business_id : string)
    (end_of_day current_time : Z) (alts : list alternative) : M scan :=
  let* slot_end := lift (datetime_add current_time duration) in
  if slot_end <=? end_of_day then
    match fuel with
    | O => raise OutOfFuel
    | S fuel' =>
        let* (is_available, _) :=
          _check_availability current_time duration business_id in
        if is_available : bool then
          let alts' :=
            (alts ++ [mk_alternative current_time
                        (_format_datetime current_time)])%list in
          if 5 <=? Z.of_nat (length alts') then ret (Returned alts')
          else
            let* next := lift (datetime_add current_time 30) in
            scan_day fuel' duration business_id end_of_day next alts'
        else
          let* next := lift (datetime_add current_time 30) in
          scan_day fuel' duration business_id end_of_day next alts
    end
  else ret (Exhausted alts).

(** Iterations the loop of a day can make from [current_time]. *)
Definition day_fuel (duration end_of_day current_time : Z) : nat :=
  Z.to_nat ((end_of_day - duration - current_time) / 30 + 1).

(** The [for day_offset in range(7)] loop.  Its first statement,
    [check_date + timedelta(days=day_offset)], raises past 9999-12-31. *)
Fixpoint scan_days (offsets : list Z) (check_date duration : Z)
    (business_id : string) (alts : list alternative)
  : M (list alternative) :=
  match offsets with
  | [] => ret alts
  | day_offset :: offsets' =>
      let* current_date := lift (date_add check_date day_offset) in
      let day_name := day_key current_date in
      let hours := business_hours config !! day_name in
      let continue := scan_days offsets' check_date duration business_id in
      match hours with
      | None => continue alts
      | Some h =>
          if closed_entry hours then continue alts
          else
            match parse_hours h with
            | None => continue alts
            | Some (open_hour, close_hour) =>
                let current_time :=
                  combine_minutes current_date (Py.time_minutes open_hour) in
                let end_of_day :=
                  combine_minutes current_date (Py.time_minutes close_hour) in
                let* r := scan_day (day_fuel duration end_of_day current_time)
                            duration business_id end_of_day current_time alts in
                match r with
                | Returned alts' => ret alts'
                | Exhausted alts' => continue alts'
                end
            end
      end
  end.

(** [_find_alternative_times] *)
Definition _find_alternative_times (requested duration : Z)
    (business_id : string) : M (list alternative) :=
  let check_date := date_of requested in
  scan_days [0; 1; 2; 3; 4; 5; 6] check_date duration business_id [].

(** [_book_appointment]: one INSERT; the row gets the next identifier and
    the default status. *)
Definition _book_appointment (data : booking_data) (start_time duration : Z)
  : M (bool * string) :=
  let end_time := start_time + duration in
  let* d := get_db in
  let appointment_id := appointments_seq d + 1 in
  let row := mk_appointment appointment_id (bk_business_id data)
               (bk_customer_name data) (bk_phone data) (bk_email data)
               start_time end_time (bk_service data) (bk_notes data)
               confirmed in
  let* _ := put_db (mk_db (appointments d ++ [row]) appointment_id
                      (orders d) (orders_seq d)
                      (messages d) (messages_seq d)) in
  let* _ := emit (InsertAppointment appointment_id) in
  ret (true, "apt_" +:+ Py.str_int appointment_id).

(** [_notify_business] *)
Definition _notify_business (data : booking_data) (dt : Z) : M unit :=
  let formatted_time := _format_datetime dt in
  emit (Notify ("New Appointment:" +:+ nl
                +:+ "Customer: " +:+ Py.str (bk_customer_name data) +:+ nl
                +:+ "Phone: " +:+ Py.str (bk_phone data) +:+ nl
                +:+ "Service: " +:+ Py.str (bk_service data) +:+ nl
                +:+ "Time: " +:+ formatted_time +:+ nl
                +:+ "Notes: " +:+ Py.str (bk_notes data))).

(** [process]; [appointment_data] is the dictionary built on entry. *)
Definition process (appointment_data : booking_data) : M response :=
  match _parse_datetime (bk_date appointment_data) (bk_time appointment_data) with
  | None =>
      ret (reply false
             "I couldn't understand that date or time. Could you please repeat it? For example, 'November 5th at 2:30 PM'?")
  | Some parsed =>
      let appointment_datetime := Py.minutes_of parsed in
      let* service_duration :=
        lift (_get_service_duration (bk_service appointment_data)) in
      if negb (_is_within_business_hours appointment_datetime
                 (bk_business_id appointment_data)) then
        let hours_text := _get_business_hours_text in
        ret (reply false
               ("I'm sorry, we're not open at that time. Our hours are "
                +:+ hours_text
                +:+ ". Would you like to schedule during our open hours?"))
      else
        let* (is_available, conflict_message) :=
          _check_availability appointment_datetime service_duration
            (bk_business_id appointment_data) in
        if negb is_available then
          let* alts :=
            _find_alternative_times appointment_datetime service_duration
              (bk_business_id appointment_data) in
          let msg :=
            match alts with
            | _ :: _ =>
                let alt_text :=
                  Py.join ", " (map alt_formatted (firstn 3 alts)) in
                conflict_message +:+ " I have these times available: "
                +:+ alt_text +:+ ". Which works better for you?"
            | [] =>
                conflict_message
                +:+ " Let me take your information and we'll call you back to find a time that works."
            end in
          ret (mk_response false msg (Some alts) (Some "suggest_alternatives")
                 None None)
        else
          let* (ok, appointment_id) :=
            _book_appointment appointment_data appointment_datetime
              service_duration in
          if ok : bool then
            let* _ := _notify_business appointment_data appointment_datetime in
            let formatted_time := _format_datetime appointment_datetime in
            ret (mk_response true
                   ("Perfect! I've scheduled your "
                    +:+ Py.str (bk_service appointment_data) +:+ " for "
                    +:+ formatted_time +:+ ". We'll see you then!")
                   None None (Some appointment_id) None)
          else
            ret (reply false
                   "I'm having trouble booking that appointment. Let me take your information and someone will call you back to confirm.")
  end.

End WithConfig.
End AppointmentPlugin.

(** ** CancellationPlugin *)

Record cancel_data := mk_cancel_data {
  cn_customer_name : option string;
  cn_phone : option string;
  cn_start_time : option string
}.

Module CancellationPlugin.

Definition can_handle (intent : string) : bool :=
  existsb (String.eqb intent) ["cancellation"; "cancel"].

(** [customer_name = ? AND phone = ?]: a NULL column matches nothing. *)
Definition customer_row (name phone : string) (a : appointment) : bool :=
  match a_customer_name a, a_phone a with
  | Some n, Some p => String.eqb n name && String.eqb p phone
  | _, _ => false
  end.

(** [DELETE FROM appointments WHERE id = ?] *)
Definition delete_by_id (id : Z) (rows : list appointment) : list appointment :=
  List.filter (fun a => negb (a_id a =? id)) rows.

Definition process (data : cancel_data) : M response :=
  let name := cn_customer_name data in
  let phone := cn_phone data in
  let start_time := cn_start_time data in
  match name, phone with
  | Some n, Some p =>
      if negb (Py.truthy name && Py.truthy phone) then
        ret (reply false "Missing details. Provide name and phone.")
      else
        let* _ := emit (SelectCustomer n p) in
        let* d := get_db in
        match find (customer_row n p) (appointments d) with
        | None => ret (reply false "No matching appointment found.")
        | Some row =>
            let appointment_id := a_id row in
            let* _ := put_db (mk_db (delete_by_id appointment_id (appointments d))
                                (appointments_seq d)
                                (orders d) (orders_seq d)
                                (messages d) (messages_seq d)) in
            let* _ := emit (DeleteAppointment appointment_id) in
            ret (reply true
                   ("Your appointment at " +:+ Py.str start_time
                    +:+ " has been canceled successfully."))
        end
  | _, _ => ret (reply false "Missing details. Provide name and phone.")
  end.

End CancellationPlugin.

(** ** OrderPlugin *)

(** The dictionary of an order, for calls whose text values are JSON
    strings or null and whose ['total'] is an integer; ['business_id'] is
    the one the webhook writes into the dictionary. *)
Record order_data := mk_order_data {
  od_customer_name : option string;
  od_phone : option string;
  od_order_items : option string;
  od_total : Z;
  od_pickup_time : option string;
  od_delivery_address : option string;
  od_special_instructions : option string;
  od_business_id : string
}.

Module OrderPlugin.

Definition can_handle (intent : string) : bool :=
  existsb (String.eqb intent) ["place_order"; "order_food"; "make_order"].

Definition _notify_business (data : order_data) : M unit :=
  emit (Notify ("New Order:" +:+ nl
                +:+ "Customer: " +:+ Py.str (od_customer_name data)
                +:+ " (" +:+ Py.str (od_phone data) +:+ ")" +:+ nl
                +:+ "Items: " +:+ Py.str (od_order_items data) +:+ nl
                +:+ "Total: $" +:+ Py.str_int (od_total data) +:+ nl
                +:+ "Pickup: " +:+ Py.str (od_pickup_time data) +:+ nl
                +:+ "Notes: " +:+ Py.str (od_special_instructions data))).

(** [sqlite3] binds a Python [int] as a 64-bit integer and refuses
    others. *)
Definition sqlite_integer (n : Z) : bool :=
  (- 2 ^ 63 <=? n) && (n <? 2 ^ 63).

Definition too_large : exn :=
  OverflowError "Python int too large to convert to SQLite INTEGER".

(** [process]: the INSERT raises when ['total'] cannot be bound, before
    any row is written. *)
Definition process (order_data : order_data) : M response :=
  if negb (sqlite_integer (od_total order_data)) then raise too_large else
  let* d := get_db in
  let order_id := orders_seq d + 1 in
  let row := mk_order order_id (od_business_id order_data)
               (od_customer_name order_data) (od_phone order_data)
               (od_order_items order_data) (od_total order_data)
               (od_pickup_time order_data) (od_delivery_address order_data)
               (od_special_instructions order_data) in
  let* _ := put_db (mk_db (appointments d) (appointments_seq d)
                      (orders d ++ [row]) order_id
                      (messages d) (messages_seq d)) in
  let* _ := emit (InsertOrder order_id) in
  let* _ := _notify_business order_data in
  ret (mk_response true
         ("Great! Your order is confirmed for pickup at "
          +:+ Py.str (od_pickup_time order_data) +:+ ". Order number #"
          +:+ Py.str_int order_id +:+ ".")
         None None None (Some ("order_" +:+ Py.str_int order_id))).

End OrderPlugin.

(** ** MessagePlugin *)

Record message_data := mk_message_data {
  md_caller_name : option string;
  md_phone : option string;
  md_message : option string;
  md_priority : option string;
  md_business_id : string
}.

Module MessagePlugin.

Definition can_handle (intent : string) : bool :=
  existsb (String.eqb intent) ["leave_message"; "take_message"; "callback"].

Definition _notify_business (data : message_data) : M unit :=
  emit (Notify ("New Message:" +:+ nl
                +:+ "From: " +:+ Py.str (md_caller_name data)
                +:+ " (" +:+ Py.str (md_phone data) +:+ ")" +:+ nl
                +:+ "Message: " +:+ Py.str (md_message data) +:+ nl
                +:+ "Priority: " +:+ Py.str (md_priority data))).

Definition process (message_data : message_data) : M response :=
  let* d := get_db in
  let message_id := messages_seq d + 1 in
  let row := mk_message_row message_id (md_business_id message_data)
               (md_caller_name message_data) (md_phone message_data)
               (md_message message_data) (md_priority message_data) in
  let* _ := put_db (mk_db (appointments d) (appointments_seq d)
                      (orders d) (orders_seq d)
                      (messages d ++ [row]) message_id) in
  let* _ := emit (InsertMessage message_id) in
  let* _ := _notify_business message_data in
  ret (reply true
         "I've taken your message and someone will get back to you shortly.").

End MessagePlugin.

(** ** AfterHoursHandler *)

Module AfterHoursHandler.
Section WithConfig.
Variable config : BusinessConfig.
Variable now : Py.datetime.          (* what [datetime.now()] returns *)

Definition days : list string :=
  ["monday"; "tuesday"; "wednesday"; "thursday"; "friday"; "saturday";
   "sunday"].

Definition name_or_us : string := default "us" (business_name config).

(** [t.strftime('%I:%M %p').lstrip('0')] *)
Definition clock (t : Py.time) : string :=
  Py.lstrip_zeros (Py.strftime "%I:%M %p" (Py.combine (Py.dt_date now) t)).

(** The [for i in range(1, 8)] loop of [_get_next_open_day]. *)
Fixpoint next_open_day_loop (offsets : list Z) (current_day_index : Z) : string :=
  match offsets with
  | [] => "during our business hours"
  | i :: offsets' =>
      let next_day_index := (current_day_index + i) mod 7 in
      let next_day := nth (Z.to_nat next_day_index) days "" in
      let hours := business_hours config !! next_day in
      match hours with
      | Some h =>
          if closed_entry hours then next_open_day_loop offsets' current_day_index
          else
            match Py.split "-" h with
            | open_time :: _ =>
                match Py.strptime (Py.strip open_time) "%H:%M" with
                | Some open_hour =>
                    Py.title next_day +:+ " at " +:+ clock (Py.dt_time open_hour)
                | None => Py.title next_day
                end
            | [] => Py.title next_day
            end
      | None => next_open_day_loop offsets' current_day_index
      end
  end.

Definition _get_next_open_day : string :=
  next_open_day_loop [1; 2; 3; 4; 5; 6; 7] (Py.weekday (Py.dt_date now)).

Definition _get_next_open_time : string :=
  let tomorrow := Py.lower (Py.day_name ((Py.weekday (Py.dt_date now) + 1) mod 7)) in
  let tomorrow_hours := business_hours config !! tomorrow in
  match tomorrow_hours with
  | Some h =>
      if closed_entry tomorrow_hours then _get_next_open_day
      else
        match Py.split "-" h with
        | open_time :: _ =>
            match Py.strptime (Py.strip open_time) "%H:%M" with
            | Some open_hour => "tomorrow at " +:+ clock (Py.dt_time open_hour)
            | None => "tomorrow"
            end
        | [] => "tomorrow"
        end
  | None => _get_next_open_day
  end.

Definition _get_closed_message (day : string) : string :=
  let next_open := _get_next_open_day in
  "Thank you for calling " +:+ name_or_us +:+ "! We're closed on "
  +:+ Py.title day +:+ "s. We'll be open " +:+ next_open
  +:+ ". I'm happy to take a message or schedule an appointment for when we're open. How can I help you?".

Definition _get_before_open_message (open_time : Py.time) : string :=
  let open_str := clock open_time in
  "Thank you for calling " +:+ name_or_us +:+ "! Our office opens at "
  +:+ open_str
  +:+ ". I'm here to help right now though - I can schedule an appointment, answer questions, or take a message. What can I do for you?".

Definition _get_after_close_message : string :=
  let next_open := _get_next_open_time in
  "Thank you for calling " +:+ name_or_us
  +:+ "! Our office is currently closed for the day. We'll be open "
  +:+ next_open
  +:+ ". I'm here to help - I can schedule an appointment, answer questions, or take a message. How can I assist you?".

(** [is_after_hours]: (is_after_hours, message). *)
Definition is_after_hours : bool * string :=
  let current_day := Py.lower (Py.day_name (Py.weekday (Py.dt_date now))) in
  let current_time := Py.dt_time now in
  let hours_today := business_hours config !! current_day in
  match hours_today with
  | None => (true, _get_closed_message current_day)
  | Some h =>
      if closed_entry hours_today then (true, _get_closed_message current_day)
      else
        match parse_hours h with
        | Some (open_time, close_time) =>
            if Py.time_us current_time <? Py.time_us open_time then
              (true, _get_before_open_message open_time)
            else if Py.time_us close_time <? Py.time_us current_time then
              (true, _get_after_close_message)
            else (false, "")
        | None => (false, "")
        end
  end.

End WithConfig.
End AfterHoursHandler.

(** ** Two bookings served in parallel

    The web server serves requests in threads.  A booking touches the
    database twice, each time on a connection of its own: the SELECT of
    [_check_availability] and the INSERT of [_book_appointment].  Nothing
    is held between the two, so the statements of two requests may
    interleave in any order. *)

Module Race.

(** Where a request stands: before its conflict query, between the query
    and the insert, or finished. *)
Inductive pc :=
| AtCheck
| AtBook
| Booked (appointment_id : string)
| Rejected.

(** A request past parsing, duration lookup and the hours gate. *)
Record thread := mk_thread {
  th_data : booking_data;
  th_start : Z;
  th_duration : Z;
  th_pc : pc
}.

Definition at_pc (t : thread) (p : pc) : thread :=
  mk_thread (th_data t) (th_start t) (th_duration t) p.

(** One database statement of one request. *)
Definition step_thread (t : thread) (w : world) : option (thread * world) :=
  match th_pc t with
  | AtCheck =>
      match AppointmentPlugin._check_availability (th_start t) (th_duration t)
              (bk_business_id (th_data t)) w with
      | (Ok (true, _), w') => Some (at_pc t AtBook, w')
      | (Ok (false, _), w') => Some (at_pc t Rejected, w')
      | (Raise _, _) => None
      end
  | AtBook =>
      match AppointmentPlugin._book_appointment (th_data t) (th_start t)
              (th_duration t) w with
      | (Ok (_, appointment_id), w') => Some (at_pc t (Booked appointment_id), w')
      | (Raise _, _) => None
      end
  | Booked _ | Rejected => None
  end.

Inductive who := First | Second.

(** The two requests and the database under a schedule: each entry names
    the request that executes its next statement. *)
Fixpoint run (schedule : list who) (t1 t2 : thread) (w : world)
  : option (thread * thread * world) :=
  match schedule with
  | [] => Some (t1, t2, w)
  | First :: schedule' =>
      match step_thread t1 w with
      | Some (t1', w') => run schedule' t1' t2 w'
      | None => None
      end
  | Second :: schedule' =>
      match step_thread t2 w with
      | Some (t2', w') => run schedule' t1 t2' w'
      | None => None
      end
  end.

Definition is_booked (t : thread) : bool :=
  match th_pc t with Booked _ => true | _ => false end.

End Race.

(** ** Vocabulary of the specification *)

(** Overlap of the half-open intervals [[s1, e1)] and [[s2, e2)], in the
    words of the specification. *)
Definition intervals_overlap (s1 e1 s2 e2 : Z) : Prop := s1 < e2 /\ s2 < e1.

(** No two confirmed appointments of one business overlap. *)
Definition no_double_booking (rows : list appointment) : Prop :=
  forall (i j : nat) (a b : appointment),
    i <> j -> rows !! i = Some a -> rows !! j = Some b ->
    a_business_id a = a_business_id b ->
    a_status a = confirmed -> a_status b = confirmed ->
    ~ intervals_overlap (a_start_time a) (a_end_time a)
        (a_start_time b) (a_end_time b).

(** The states of the database that the handlers can produce, starting
    from the empty tables.  The log a handler starts with is immaterial. *)
Inductive reachable : db -> Prop :=
| reach_init : reachable init_database
| reach_booking config data w o w' :
    reachable (w_db w) ->
    AppointmentPlugin.process config data w = (o, w') ->
    reachable (w_db w')
| reach_cancellation data w o w' :
    reachable (w_db w) ->
    CancellationPlugin.process data w = (o, w') ->
    reachable (w_db w')
| reach_order data w o w' :
    reachable (w_db w) ->
    OrderPlugin.process data w = (o, w') ->
    reachable (w_db w')
| reach_message data w o w' :
    reachable (w_db w) ->
    MessagePlugin.process data w = (o, w') ->
    reachable (w_db w').

(** The rows without the first one that satisfies [p]. *)
Fixpoint remove_first {A} (p : A -> bool) (l : list A) : list A :=
  match l with
  | [] => []
  | x :: l' => if p x then l' else x :: remove_first p l'
  end.

(** Chronological (non-decreasing) order of a list of instants. *)
Fixpoint chronological (l : list Z) : Prop :=
  match l with
  | [] => True
  | x :: l' => Forall (fun y => x <= y) l' /\ chronological l'
  end.

(** Whether a time pattern of [_parse_datetime] prints the minutes: all do
    but the two hour-only ones. *)
Definition prints_minutes (tf : string) : bool :=
  negb (String.eqb tf "%I %p" || String.eqb tf "%I%p").

(** ** FAQPlugin *)

(** [needle in hay] on strings. *)
Module Str.

Fixpoint starts_with (p s : string) : bool :=
  match p, s with
  | EmptyString, _ => true
  | String a p', String b s' => Ascii.eqb a b && starts_with p' s'
  | String _ _, EmptyString => false
  end.

Fixpoint contains (needle hay : string) : bool :=
  starts_with needle hay
  || match hay with
     | EmptyString => false
     | String _ hay' => contains needle hay'
     end.

End Str.

(** What the FAQ handler returns: it answers under the key ['answer']. *)
Record faq_response := mk_faq_response {
  faq_success : bool;
  faq_answer : string
}.

Module FAQPlugin.

Definition can_handle (intent : string) : bool :=
  existsb (String.eqb intent) ["ask_question"; "faq"; "inquiry"].

(** [any(keyword.strip() in question for keyword in keywords.split('|'))] *)
Definition entry_matches (question keywords : string) : bool :=
  existsb (fun keyword => Str.contains (Py.strip keyword) question)
    (Py.split "|" keywords).

(** [_find_answer]; [faqs] are the items of [features.faq.questions] in
    the order of the configuration file. *)
Fixpoint _find_answer (question : string) (faqs : list (string * string))
  : option string :=
  match faqs with
  | [] => None
  | (keywords, answer) :: faqs' =>
      if entry_matches question keywords then Some answer
      else _find_answer question faqs'
  end.

Definition unsure : string :=
  "I'm not sure about that. Let me take your information and someone will call you back.".

(** [process]; [question] is what [data.get('question', '')] returns.  The
    console line of [_log_unknown_question] is not modelled. *)
Definition process (faqs : list (string * string)) (question : option string)
  : outcome faq_response :=
  match question with
  | None => Raise (AttributeError "'NoneType' object has no attribute 'lower'")
  | Some q =>
      let question := Py.lower q in
      let answer := _find_answer question faqs in
      if Py.truthy answer
      then Ok (mk_faq_response true (default "" answer))
      else Ok (mk_faq_response false unsure)
  end.

End FAQPlugin.

(** ** PluginManager *)

(** The [data] dictionary of a request, as the handlers read it: each
    field is what [data.get] returns for that key, with the default the
    handler passes ([''] for email, notes, order_items, delivery_address,
    special_instructions and question, [0] for total, ['normal'] for
    priority).  So [None] stands for a key that is absent (where there is
    no default) or whose value is JSON null.  The embedding covers calls
    whose [data] is a JSON object with strings or null for the text keys
    and an integer for ['total']. *)
Record call_data := mk_call_data {
  cd_customer_name : option string;
  cd_phone : option string;
  cd_email : option string;
  cd_date : option string;
  cd_time : option string;
  cd_service : option string;
  cd_notes : option string;
  cd_start_time : option string;
  cd_order_items : option string;
  cd_total : Z;
  cd_pickup_time : option string;
  cd_delivery_address : option string;
  cd_special_instructions : option string;
  cd_question : option string;
  cd_caller_name : option string;
  cd_message : option string;
  cd_priority : option string;
  cd_business_id : string
}.

(** The part of the dictionary each handler reads. *)
Definition booking_of (data : call_data) : booking_data :=
  mk_booking_data (cd_customer_name data) (cd_phone data) (cd_email data)
    (cd_date data) (cd_time data) (cd_service data) (cd_notes data)
    (cd_business_id data).

Definition cancel_of (data : call_data) : cancel_data :=
  mk_cancel_data (cd_customer_name data) (cd_phone data) (cd_start_time data).

Definition order_of (data : call_data) : order_data :=
  mk_order_data (cd_customer_name data) (cd_phone data) (cd_order_items data)
    (cd_total data) (cd_pickup_time data) (cd_delivery_address data)
    (cd_special_instructions data) (cd_business_id data).

Definition message_of (data : call_data) : message_data :=
  mk_message_data (cd_caller_name data) (cd_phone data) (cd_message data)
    (cd_priority data) (cd_business_id data).

(** A business: its configuration and the items of its FAQ table. *)
Record site := mk_site {
  site_config : BusinessConfig;
  site_faqs : list (string * string)
}.

(** The five handler classes. *)
Inductive plugin := Appointments | Orders | Faq | Messages | Cancellations.

(** The dictionary a handler returns. *)
Inductive result :=
| Handled (r : response)
| Answered (a : faq_response).

Definition result_success (r : result) : bool :=
  match r with
  | Handled r => success r
  | Answered a => faq_success a
  end.

Module PluginManager.

Definition enabled (s : site) (feature : string) : bool :=
  existsb (String.eqb feature) (enabled_features (site_config s)).

(** [_load_plugins]: the handlers of the enabled features, always in this
    order. *)
Definition _load_plugins (s : site) : list plugin :=
  (if enabled s "appointments" || enabled s "reservations"
   then [Appointments] else [])
  ++ (if enabled s "orders" then [Orders] else [])
  ++ (if enabled s "faq" then [Faq] else [])
  ++ (if enabled s "messages" then [Messages] else [])
  ++ (if enabled s "cancellations" then [Cancellations] else []).

Definition can_handle (p : plugin) (intent : string) : bool :=
  match p with
  | Appointments => AppointmentPlugin.can_handle intent
  | Orders => OrderPlugin.can_handle intent
  | Faq => FAQPlugin.can_handle intent
  | Messages => MessagePlugin.can_handle intent
  | Cancellations => CancellationPlugin.can_handle intent
  end.

Definition handled (r : M response) : M result :=
  let* x := r in ret (Handled x).

Definition process (s : site) (p : plugin) (data : call_data) : M result :=
  match p with
  | Appointments =>
      handled (AppointmentPlugin.process (site_config s) (booking_of data))
  | Orders => handled (OrderPlugin.process (order_of data))
  | Faq =>
      let* a := lift (FAQPlugin.process (site_faqs s) (cd_question data)) in
      ret (Answered a)
  | Messages => handled (MessagePlugin.process (message_of data))
  | Cancellations => handled (CancellationPlugin.process (cancel_of data))
  end.

Definition not_sure : response :=
  reply false "I'm not sure how to help with that. Let me take your information.".

(** The loop of [route_request] over the loaded handlers. *)
Fixpoint route (s : site) (plugins : list plugin) (intent : string)
    (data : call_data) : M result :=
  match plugins with
  | [] => ret (Handled not_sure)
  | p :: plugins' =>
      if can_handle p intent then process s p data
      else route s plugins' intent data
  end.

Definition route_request (s : site) (intent : string) (data : call_data)
  : M result :=
  route s (_load_plugins s) intent data.

End PluginManager.

(** ** The webhook *)

(** The JSON body of a call, as [vapi_webhook] reads it. *)
Record webhook_request := mk_webhook_request {
  rq_business_id : option string;           (* 'business_id' *)
  rq_metadata_business_id : option string;  (* 'metadata'.'business_id' *)
  rq_intent : option string;                (* 'intent' *)
  rq_data : call_data                       (* 'data'; its own business_id
                                               is overwritten *)
}.

(** What the webhook sends back. *)
Inductive webhook_body :=
| Failure (error : string)                  (* {'success': False, 'error': ...} *)
| Result (r : result) (after_hours_note : option string).
                                            (* the handler's dictionary, with
                                               'after_hours' and
                                               'after_hours_note' when set *)

Record webhook_response := mk_webhook_response {
  status_code : Z;
  body : webhook_body
}.

Module Webhook.

(** [str(e)] *)
Definition exn_text (e : exn) : string :=
  match e with
  | AttributeError what => what
  | OverflowError what => what
  | OutOfFuel => ""
  end.

Definition confirmation_note : string :=
  " You'll receive a confirmation when our office opens.".

(** [result['message'] += ...] on a dictionary that has the key. *)
Definition append_note (r : response) : response :=
  mk_response (success r) (message r +:+ confirmation_note)
    (alternatives r) (action r) (appointment_id r) (order_id r).

(** [str(KeyError('message'))], of a dictionary without the key. *)
Definition no_message_key : string := "'message'".

Definition with_business_id (data : call_data) (business_id : string)
  : call_data :=
  mk_call_data (cd_customer_name data) (cd_phone data) (cd_email data)
    (cd_date data) (cd_time data) (cd_service data) (cd_notes data)
    (cd_start_time data) (cd_order_items data) (cd_total data)
    (cd_pickup_time data) (cd_delivery_address data)
    (cd_special_instructions data) (cd_question data) (cd_caller_name data)
    (cd_message data) (cd_priority data) business_id.

(** [data.get('business_id') or data.get('metadata', {}).get('business_id')] *)
Definition business_id_of (request : webhook_request) : option string :=
  if Py.truthy (rq_business_id request) then rq_business_id request
  else rq_metadata_business_id request.

(** [vapi_webhook].  [configs] is the [config/] directory: the site of a
    business id, or [None] when it has no file; the files are taken to be
    well-formed JSON of the expected layout, and the request body to be a
    JSON object.  [now] is what [datetime.now()] returns.  The world is
    returned whatever the answer; the console lines are not modelled. *)
Definition vapi_webhook (configs : string -> option site) (now : Py.datetime)
    (request : webhook_request) (w : world) : webhook_response * world :=
  let business_id := business_id_of request in
  match business_id with
  | Some business_id =>
      if negb (Py.truthy (Some business_id)) then
        (mk_webhook_response 400 (Failure "No business_id provided"), w)
      else
        match configs business_id with
        | None =>
            (mk_webhook_response 404
               (Failure ("Config not found for " +:+ business_id)), w)
        | Some s =>
            let '(is_after_hours, after_hours_message) :=
              AfterHoursHandler.is_after_hours (site_config s) now in
            let call_data := with_business_id (rq_data request) business_id in
            let routed :=
              match rq_intent request with
              | Some intent => PluginManager.route_request s intent call_data w
              | None => (Ok (Handled PluginManager.not_sure), w)
              end in
            match routed with
            | (Ok r, w') =>
                if is_after_hours then
                  let appointment_made :=
                    match rq_intent request with
                    | Some intent =>
                        existsb (String.eqb intent)
                          ["schedule_appointment"; "book_appointment"]
                        && result_success r
                    | None => false
                    end in
                  if appointment_made then
                    match r with
                    | Handled r =>
                        (mk_webhook_response 200
                           (Result (Handled (append_note r))
                              (Some after_hours_message)), w')
                    | Answered _ =>
                        (mk_webhook_response 500 (Failure no_message_key), w')
                    end
                  else
                    (mk_webhook_response 200
                       (Result r (Some after_hours_message)), w')
                else (mk_webhook_response 200 (Result r None), w')
            | (Raise e, w') =>
                (mk_webhook_response 500 (Failure (exn_text e)), w')
            end
        end
  | None => (mk_webhook_response 400 (Failure "No business_id provided"), w)
  end.

End Webhook.

(** ** Example businesses and requests *)

Module Examples.

Definition weekdays_9_to_5 : gmap string string :=
  list_to_map
    [("monday", "09:00-17:00"); ("tuesday", "09:00-17:00");
     ("wednesday", "09:00-17:00"); ("thursday", "09:00-17:00");
     ("friday", "09:00-17:00"); ("saturday", "closed");
     ("sunday", "closed")].

(** Open Monday to Friday 09:00-17:00; a 30-minute and a 60-minute
    service, and one listed with no duration at all. *)
Definition acme : BusinessConfig :=
  mk_BusinessConfig (Some "Acme Dental") weekdays_9_to_5
    [mk_appointment_type (Some "Cleaning") (Some 30);
     mk_appointment_type (Some "Root canal") (Some 60);
     mk_appointment_type (Some "Quick question") (Some 0)]
    ["appointments"; "cancellations"].

(** The same business with an empty service catalogue. *)
Definition acme_no_catalogue : BusinessConfig :=
  mk_BusinessConfig (Some "Acme Dental") weekdays_9_to_5 []
    ["appointments"].

(** A business whose Monday entry is mistyped. *)
Definition acme_typo : BusinessConfig :=
  mk_BusinessConfig (Some "Acme Dental")
    (<["monday" := "9am to 5pm"]> weekdays_9_to_5) [] ["appointments"].

Definition every_day_9_to_10 : gmap string string :=
  list_to_map
    [("monday", "09:00-10:00"); ("tuesday", "09:00-10:00");
     ("wednesday", "09:00-10:00"); ("thursday", "09:00-10:00");
     ("friday", "09:00-10:00"); ("saturday", "09:00-10:00");
     ("sunday", "09:00-10:00")].

(** A business whose catalogue lists a negative duration. *)
Definition backwards : BusinessConfig :=
  mk_BusinessConfig (Some "Backwards") every_day_9_to_10
    [mk_appointment_type (Some "Rewind") (Some (-1500))] ["appointments"].

(** Instants of the week of Monday 2024-11-04. *)
Definition at_ (day_of_month h m : Z) : Z :=
  Py.minutes_of (Py.mk_datetime (Py.mk_date 2024 11 day_of_month)
                   (Py.mk_time h m 0 0)).

(** Instants of Friday 9999-12-31, the last day a datetime can hold. *)
Definition last_day (h m : Z) : Z :=
  Py.minutes_of (Py.mk_datetime (Py.mk_date 9999 12 31) (Py.mk_time h m 0 0)).

Definition booking (date time service : string) : booking_data :=
  mk_booking_data (Some "Ann Lee") (Some "555-0100") (Some "")
    (Some date) (Some time) (Some service) (Some "") "acme".

Definition booking_no_service (date time : string) : booking_data :=
  mk_booking_data (Some "Ann Lee") (Some "555-0100") (Some "")
    (Some date) (Some time) None (Some "") "acme".

Definition row (id : Z) (business_id : string) (start_time end_time : Z)
  : appointment :=
  mk_appointment id business_id (Some "Bob Ray") (Some "555-0199") (Some "")
    start_time end_time (Some "Cleaning") (Some "") confirmed.

(** The appointment of another customer. *)
Definition row_for (customer_name phone : string) (id : Z)
    (business_id : string) (start_time end_time : Z) : appointment :=
  mk_appointment id business_id (Some customer_name) (Some phone) (Some "")
    start_time end_time (Some "Cleaning") (Some "") confirmed.

Definition store (rows : list appointment) : world :=
  mk_world (mk_db rows (Z.of_nat (length rows)) [] 0 [] 0) [].

Definition fresh : world := mk_world init_database [].

(** Two requests for overlapping half hours of Monday morning, each past
    the gates of [process] and about to query for conflicts. *)
Definition ann_at_10_00 : Race.thread :=
  Race.mk_thread (booking "2024-11-04" "10:00" "Cleaning") (at_ 4 10 0) 30
    Race.AtCheck.

Definition ann_at_10_15 : Race.thread :=
  Race.mk_thread (booking "2024-11-04" "10:15" "Cleaning") (at_ 4 10 15) 30
    Race.AtCheck.

End Examples.

(** ** Example sites and calls *)

Module Sites.

Definition acme_site : site :=
  mk_site Examples.acme
    [("hours|open|close", "We are open Monday to Friday, 9 to 5.");
     ("Parking", "There is a car park behind the building.");
     ("price|cost|", "A cleaning is 80 dollars.")].

(** A second business on the same server, with every feature enabled. *)
Definition globex : BusinessConfig :=
  mk_BusinessConfig (Some "Globex") Examples.every_day_9_to_10
    [mk_appointment_type (Some "Consultation") (Some 30)]
    ["reservations"; "orders"; "faq"; "messages"; "cancellations"].

Definition globex_site : site :=
  mk_site globex [("hours", "We are open every day from 9 to 10.")].

(** The [config/] directory. *)
Definition directory (business_id : string) : option site :=
  if String.eqb business_id "acme" then Some acme_site
  else if String.eqb business_id "globex" then Some globex_site
  else None.

(** The [data] of a call from Bob Ray, with no key but name and phone. *)
Definition from_bob : call_data :=
  mk_call_data (Some "Bob Ray") (Some "555-0199") (Some "") None None None
    (Some "") None (Some "") 0 None (Some "") (Some "") (Some "") None None
    (Some "normal") "".

Definition call (business_id intent : string) (data : call_data)
  : webhook_request :=
  mk_webhook_request (Some business_id) None (Some intent) data.

(** Monday 2024-11-04 at noon. *)
Definition monday_noon : Py.datetime :=
  Py.mk_datetime (Py.mk_date 2024 11 4) (Py.mk_time 12 0 0 0).

End Sites.

(** ** Vocabulary of the proofs *)

(** *** The texts of the answers *)

Definition reprompt : string :=
  "I couldn't understand that date or time. Could you please repeat it? For example, 'November 5th at 2:30 PM'?".

Definition not_open : string :=
  "I'm sorry, we're not open at that time. Our hours are Monday-Friday 9am-5pm, Saturday 9am-2pm. Would you like to schedule during our open hours?".

Definition already_booked : string := "I'm sorry, that time is already booked.".

Definition callback_promise : string :=
  already_booked
  +:+ " Let me take your information and we'll call you back to find a time that works.".

(** The message that offers the first three of [alts]. *)
Definition offer (alts : list alternative) : string :=
  already_booked +:+ " I have these times available: "
  +:+ Py.join ", " (map alt_formatted (firstn 3 alts))
  +:+ ". Which works better for you?".

Definition missing_details : string := "Missing details. Provide name and phone.".
Definition no_match : string := "No matching appointment found.".

(** what [None.lower()] raises *)
Definition none_has_no_lower : exn :=
  AttributeError "'NoneType' object has no attribute 'lower'".

(** *** Slots of the alternative search *)

Section Slots.
Variable config : BusinessConfig.
Variable duration : Z.
Variable business_id : string.

(** The slot passes the conflict query on [rows]. *)
Definition slot_free (rows : list appointment) (c : alternative) : Prop :=
  find (AppointmentPlugin.conflict_row business_id (alt_datetime c)
          (alt_datetime c + duration)) rows = None.

(** The slot is a whole number of 30-minute steps after [origin]. *)
Definition on_grid (origin : Z) (c : alternative) : Prop :=
  exists j, 0 <= j /\ alt_datetime c = origin + 30 * j.

Definition well_rendered (c : alternative) : Prop :=
  alt_formatted c = AppointmentPlugin._format_datetime (alt_datetime c).

(** What one day's loop adds to the alternatives. *)
Definition day_slot (rows : list appointment) (origin end_of_day : Z)
    (c : alternative) : Prop :=
  on_grid origin c /\ alt_datetime c + duration <= end_of_day
  /\ slot_free rows c /\ well_rendered c.

Definition is_query (e : event) : Prop :=
  exists s, e = SelectConflict business_id s (s + duration).

(** The slot belongs to the scan of day [check_date + k]: that day has an
    hours entry that is not closed and parses, and the slot is a free slot
    of its grid that ends by closing time. *)
Definition in_day (rows : list appointment) (check_date k : Z)
    (c : alternative) : Prop :=
  exists h open_hour close_hour,
    business_hours config !! day_key (check_date + k) = Some h
    /\ closed_entry (Some h) = false
    /\ parse_hours h = Some (open_hour, close_hour)
    /\ day_slot rows
         (combine_minutes (check_date + k) (Py.time_minutes open_hour))
         (combine_minutes (check_date + k) (Py.time_minutes close_hour)) c.

End Slots.

(** *** Requests away from the ends of the calendar *)

(** One day's loop stays within the range of datetime: its first slot and
    its end do, and so does the slot one step after the last it can try. *)
Definition safe_day (duration end_of_day current_time : Z) : Prop :=
  0 <= current_time < max_minutes
  /\ 0 <= current_time + duration < max_minutes
  /\ end_of_day + 30 < max_minutes
  /\ end_of_day - duration + 30 < max_minutes.

(** The seven days the search scans, and the following one, lie within
    the range of datetime with the duration to spare at either end.  Then
    no sum the search forms leaves the range. *)
Definition far_from_the_ends (requested duration : Z) : Prop :=
  Z.abs duration <= date_of requested * 1440
  /\ (date_of requested + 8) * 1440 + Z.abs duration <= max_minutes.

(** *** Rows that may stand together *)

(** Two rows that may stand together in the table. *)
Definition compatible (a b : appointment) : Prop :=
  a_business_id a = a_business_id b ->
  a_status a = confirmed -> a_status b = confirmed ->
  ~ intervals_overlap (a_start_time a) (a_end_time a)
      (a_start_time b) (a_end_time b).

Fixpoint pairwise_compatible (rows : list appointment) : Prop :=
  match rows with
  | [] => True
  | a :: rows' => Forall (compatible a) rows' /\ pairwise_compatible rows'
  end.

(** *** The date and time patterns *)

(** The first alternative that matches the front of [s]. *)
Fixpoint first_hit (alts : list (list Py.cclass)) (s : string)
  : option (string * string) :=
  match alts with
  | [] => None
  | al :: alts' =>
      match Py.match_alt al s with
      | Some r => Some r
      | None => first_hit alts' s
      end
  end.

(** [s] starts with a character that is not a blank. *)
Definition starts_solid (s : string) : bool :=
  match s with
  | String a _ => negb (Py.is_space a)
  | EmptyString => false
  end.

(** [q] is not empty and does not end in a blank. *)
Definition rfixed (q : string) : Prop := q <> "" /\ Py.rstrip q = q.

Definition midnight : Py.time := Py.mk_time 0 0 0 0.

(** The text of the date [y]-[m]-[dd] in each of the five date patterns,
    in the order of [date_formats]. *)
Definition date_text1 (y m dd : Z) : string :=
  Py.zfill 4 y +:+ String "-" (Py.zfill 2 m +:+ String "-" (Py.zfill 2 dd +:+ "")).
Definition date_text2 (y m dd : Z) : string :=
  Py.zfill 2 m +:+ String "/" (Py.zfill 2 dd +:+ String "/" (Py.zfill 4 y +:+ "")).
Definition date_text3 (y m dd : Z) : string :=
  Py.zfill 2 m +:+ String "-" (Py.zfill 2 dd +:+ String "-" (Py.zfill 4 y +:+ "")).
Definition date_text4 (y m dd : Z) : string :=
  Py.month_name m +:+ String " " (Py.zfill 2 dd +:+ String ","
    (String " " (Py.zfill 4 y +:+ ""))).
Definition date_text5 (y m dd : Z) : string :=
  Py.abbr (Py.month_name m) +:+ String " " (Py.zfill 2 dd +:+ String ","
    (String " " (Py.zfill 4 y +:+ ""))).

Definition the_date (y m dd : Z) : Py.datetime :=
  Py.mk_datetime (Py.mk_date y m dd) midnight.

(** The text of a time of day in a time pattern. *)
Definition time_text (tf : string) (h mi : Z) : string :=
  Py.strftime tf (Py.mk_datetime (Py.mk_date 1900 1 1) (Py.mk_time h mi 0 0)).

Definition time_eqb (a b : Py.time) : bool :=
  (Py.hour a =? Py.hour b) && (Py.minute a =? Py.minute b)
  && (Py.second a =? Py.second b) && (Py.microsecond a =? Py.microsecond b).

Definition time_round_trip_ok (tf : string) (h mi : Z) : bool :=
  match AppointmentPlugin.first_format (time_text tf h mi)
          AppointmentPlugin.time_formats with
  | Some p =>
      time_eqb (Py.dt_time p)
        (Py.mk_time h (if prints_minutes tf then mi else 0) 0 0)
  | None => false
  end.

Definition range (lo hi : Z) : list Z :=
  map (fun k => lo + Z.of_nat k) (seq 0 (Z.to_nat (hi - lo + 1))).

(** *** The calendar *)

(** The date that [toordinal] and [fromordinal] take a valid
    [y]-[m]-[d] to is that date again. *)
Definition date_back_ok (y m d : Z) : bool :=
  negb (Py.valid_date y m d)
  || match Py.ord2ymd (Py.ymd2ord y m d) with
     | (y', m', d') => (y' =? y) && (m' =? m) && (d' =? d)
     end.

(** *** Vocabulary of the further properties *)

(** A time of day as a pattern of [_parse_datetime] can give it: hour and
    minute in range, no seconds. *)
Definition clock_time (t : Py.time) : Prop :=
  0 <= Py.hour t <= 23 /\ 0 <= Py.minute t <= 59
  /\ Py.second t = 0 /\ Py.microsecond t = 0.

(** The row [_book_appointment] inserts for a request. *)
Definition booked_row (data : booking_data) (start_time duration id : Z)
  : appointment :=
  mk_appointment id (bk_business_id data) (bk_customer_name data)
    (bk_phone data) (bk_email data) start_time (start_time + duration)
    (bk_service data) (bk_notes data) confirmed.

(** The database with another appointment table and counter. *)
Definition with_appointments (d : db) (rows : list appointment) (seq : Z) : db :=
  mk_db rows seq (orders d) (orders_seq d) (messages d) (messages_seq d).

(** The confirmation of a booking, speaking the datetime [parsed]. *)
Definition confirmation (service : option string) (parsed : Py.datetime)
  : string :=
  "Perfect! I've scheduled your " +:+ Py.str service +:+ " for "
  +:+ Py.strftime "%A, %B %d at %I:%M %p" parsed +:+ ". We'll see you then!".

(** The statement is the SELECT of the conflict query. *)
Definition is_select (e : event) : bool :=
  match e with SelectConflict _ _ _ => true | _ => false end.

(** The six ways through [AppointmentPlugin.process], with what each
    returns and leaves behind. *)
Inductive booking_path (config : BusinessConfig) (data : booking_data)
    (w : world) : outcome response * world -> Prop :=
| path_unparsed :
    AppointmentPlugin._parse_datetime (bk_date data) (bk_time data) = None ->
    booking_path config data w (Ok (reply false reprompt), w)
| path_raised parsed e :
    AppointmentPlugin._parse_datetime (bk_date data) (bk_time data)
    = Some parsed ->
    AppointmentPlugin._get_service_duration config (bk_service data) = Raise e ->
    booking_path config data w (Raise e, w)
| path_closed parsed duration :
    AppointmentPlugin._parse_datetime (bk_date data) (bk_time data)
    = Some parsed ->
    AppointmentPlugin._get_service_duration config (bk_service data)
    = Ok duration ->
    AppointmentPlugin._is_within_business_hours config (Py.minutes_of parsed)
      (bk_business_id data) = false ->
    booking_path config data w (Ok (reply false not_open), w)
| path_conflict parsed duration conflict alts log' :
    AppointmentPlugin._parse_datetime (bk_date data) (bk_time data)
    = Some parsed ->
    AppointmentPlugin._get_service_duration config (bk_service data)
    = Ok duration ->
    AppointmentPlugin._is_within_business_hours config (Py.minutes_of parsed)
      (bk_business_id data) = true ->
    find (AppointmentPlugin.conflict_row (bk_business_id data)
            (Py.minutes_of parsed) (Py.minutes_of parsed + duration))
      (appointments (w_db w)) = Some conflict ->
    AppointmentPlugin._find_alternative_times config (Py.minutes_of parsed)
      duration (bk_business_id data)
      (mk_world (w_db w)
         (w_log w ++ [SelectConflict (bk_business_id data)
                        (Py.minutes_of parsed)
                        (Py.minutes_of parsed + duration)]))
    = (Ok alts,
       mk_world (w_db w)
         ((w_log w ++ [SelectConflict (bk_business_id data)
                         (Py.minutes_of parsed)
                         (Py.minutes_of parsed + duration)]) ++ log')) ->
    booking_path config data w
      (Ok (mk_response false
             (match alts with [] => callback_promise | _ => offer alts end)
             (Some alts) (Some "suggest_alternatives") None None),
       mk_world (w_db w)
         ((w_log w ++ [SelectConflict (bk_business_id data)
                         (Py.minutes_of parsed)
                         (Py.minutes_of parsed + duration)]) ++ log'))
| path_overflow parsed duration conflict what log' :
    AppointmentPlugin._parse_datetime (bk_date data) (bk_time data)
    = Some parsed ->
    AppointmentPlugin._get_service_duration config (bk_service data)
    = Ok duration ->
    AppointmentPlugin._is_within_business_hours config (Py.minutes_of parsed)
      (bk_business_id data) = true ->
    find (AppointmentPlugin.conflict_row (bk_business_id data)
            (Py.minutes_of parsed) (Py.minutes_of parsed + duration))
      (appointments (w_db w)) = Some conflict ->
    ~ far_from_the_ends (Py.minutes_of parsed) duration ->
    forallb is_select log' = true ->
    booking_path config data w
      (Raise (OverflowError what),
       mk_world (w_db w)
         ((w_log w ++ [SelectConflict (bk_business_id data)
                         (Py.minutes_of parsed)
                         (Py.minutes_of parsed + duration)]) ++ log'))
| path_booked parsed duration log' :
    AppointmentPlugin._parse_datetime (bk_date data) (bk_time data)
    = Some parsed ->
    AppointmentPlugin._get_service_duration config (bk_service data)
    = Ok duration ->
    AppointmentPlugin._is_within_business_hours config (Py.minutes_of parsed)
      (bk_business_id data) = true ->
    find (AppointmentPlugin.conflict_row (bk_business_id data)
            (Py.minutes_of parsed) (Py.minutes_of parsed + duration))
      (appointments (w_db w)) = None ->
    booking_path config data w
      (Ok (mk_response true (confirmation (bk_service data) parsed) None None
             (Some ("apt_" +:+ Py.str_int (appointments_seq (w_db w) + 1)))
             None),
       mk_world
         (with_appointments (w_db w)
            (appointments (w_db w)
             ++ [booked_row data (Py.minutes_of parsed) duration
                   (appointments_seq (w_db w) + 1)])
            (appointments_seq (w_db w) + 1))
         (w_log w ++ log')).

(** The dictionary a handler returned, for the runs of the examples. *)
Definition returned {A} (fallback : A) (o : outcome A) : A :=
  match o with Ok r => r | Raise _ => fallback end.

(** The alternatives of a reply, none when it has no such key. *)
Definition offered (r : response) : list alternative :=
  default [] (alternatives r).

(** The identifiers AUTOINCREMENT hands out to [n] inserts into a table
    that never loses a row: 1, 2, ..., n. *)
Definition count_up (n : nat) : list Z := map Z.of_nat (seq 1 n).


(** The key of the day [k] days after the weekday [wd] (Monday is 0). *)
Definition day_after (wd k : Z) : string :=
  nth (Z.to_nat ((wd + k) mod 7)) AfterHoursHandler.days "".

(** What [_get_next_open_day] says after the name of the day it found: the
    opening time when the first half of the hours entry parses. *)
Definition opening_clause (now : Py.datetime) (h : string) : string :=
  match Py.split "-" h with
  | open_time :: _ =>
      match Py.strptime (Py.strip open_time) "%H:%M" with
      | Some open_hour =>
          " at " +:+ AfterHoursHandler.clock now (Py.dt_time open_hour)
      | None => ""
      end
  | [] => ""
  end.

(** Every row of [new] was already in [old] or satisfies [p]. *)
Definition old_or {A} (p : A -> Prop) (old new : list A) : Prop :=
  forall x, In x new -> In x old \/ p x.


(** An upper-case ASCII letter. *)
Definition is_upper (c : ascii) : bool :=
  let n := N_of_ascii c in ((65 <=? n) && (n <=? 90))%N.

Definition has_upper (s : string) : bool :=
  existsb is_upper (list_ascii_of_string s).

(** The schedules in which both conflict queries run before either
    insert. *)
Definition checks_first (schedule : list Race.who) : Prop :=
  schedule = [Race.First; Race.Second; Race.First; Race.Second]
  \/ schedule = [Race.First; Race.Second; Race.Second; Race.First]
  \/ schedule = [Race.Second; Race.First; Race.First; Race.Second]
  \/ schedule = [Race.Second; Race.First; Race.Second; Race.First].

(** The conflict query of a request finds nothing in [rows]. *)
Definition passes_check (t : Race.thread) (rows : list appointment) : Prop :=
  find (AppointmentPlugin.conflict_row (bk_business_id (Race.th_data t))
          (Race.th_start t) (Race.th_start t + Race.th_duration t)) rows
  = None.

(** [a] is the row the insert of request [t] writes, up to its id. *)
Definition row_of (t : Race.thread) (a : appointment) : Prop :=
  a_business_id a = bk_business_id (Race.th_data t)
  /\ a_status a = confirmed
  /\ a_start_time a = Race.th_start t
  /\ a_end_time a = Race.th_start t + Race.th_duration t.

(** *** The shape of a string a pattern accepts *)

(** What a character is to the patterns of [_parse_datetime]. *)
Inductive kind :=
| KDigit | KBlank | KLetter | KColon | KDash | KSlash | KComma | KOther.

Definition is_letter (c : ascii) : bool :=
  let n := N_of_ascii (Py.lower_char c) in ((97 <=? n) && (n <=? 122))%N.

Definition kind_of (c : ascii) : kind :=
  if Py.is_digit c then KDigit
  else if Py.is_space c then KBlank
  else if is_letter c then KLetter
  else if Ascii.eqb c ":" then KColon
  else if Ascii.eqb c "-" then KDash
  else if Ascii.eqb c "/" then KSlash
  else if Ascii.eqb c "," then KComma
  else KOther.

Definition kinds (s : string) : list kind :=
  map kind_of (list_ascii_of_string s).

Definition kind_eqb (a b : kind) : bool :=
  match a, b with
  | KDigit, KDigit | KBlank, KBlank | KLetter, KLetter | KColon, KColon
  | KDash, KDash | KSlash, KSlash | KComma, KComma | KOther, KOther => true
  | _, _ => false
  end.

Fixpoint kinds_eqb (x y : list kind) : bool :=
  match x, y with
  | [], [] => true
  | a :: x', b :: y' => kind_eqb a b && kinds_eqb x' y'
  | _, _ => false
  end.

(** A run of blanks counts as one blank. *)
Fixpoint squash (ks : list kind) : list kind :=
  match ks with
  | [] => []
  | k :: ks' =>
      match k, ks' with
      | KBlank, KBlank :: _ => squash ks'
      | _, _ => k :: squash ks'
      end
  end.

(** The kind of the characters a class accepts, for the classes of the
    patterns: single characters and ranges of digits. *)
Definition class_kind (k : Py.cclass) : kind :=
  match k with
  | Py.CChar c => kind_of c
  | Py.CRange _ _ => KDigit
  | Py.CDigit => KDigit
  end.

Definition digit_range (k : Py.cclass) : bool :=
  match k with
  | Py.CRange lo hi => Py.is_digit lo && Py.is_digit hi
  | _ => true
  end.

(** The shapes of the strings a token list matches to the end, a run of
    blanks written as one. *)
Fixpoint shapes (ts : list Py.tok) : list (list kind) :=
  match ts with
  | [] => [[]]
  | Py.TLit c :: ts' => map (cons (kind_of c)) (shapes ts')
  | Py.TSpace :: ts' => map (cons KBlank) (shapes ts')
  | Py.TDir d :: ts' =>
      flat_map (fun p => map (app p) (shapes ts'))
        (map (map class_kind) (Py.dir_alts d))
  end.

Definition shape_set (fmt : string) : list (list kind) :=
  match Py.compile fmt with
  | Some ts => map squash (shapes ts)
  | None => []
  end.

(** No shape belongs to both patterns. *)
Definition disjoint_shapes (f g : string) : bool :=
  negb (existsb (fun x => existsb (kinds_eqb x) (shape_set g)) (shape_set f)).

(** [_parse_datetime] with its patterns tried in another order. *)
Definition parse_with (date_formats time_formats : list string)
    (date_str time_str : option string) : option Py.datetime :=
  match date_str with
  | None => None
  | Some ds =>
      match AppointmentPlugin.first_format ds date_formats with
      | None => None
      | Some parsed_date =>
          match time_str with
          | None => None
          | Some ts =>
              match AppointmentPlugin.first_format ts time_formats with
              | None => None
              | Some parsed_time =>
                  Some (Py.combine (Py.dt_date parsed_date)
                          (Py.dt_time parsed_time))
              end
          end
      end
  end.

(** The directives of a token list, in order. *)
Fixpoint directives (ts : list Py.tok) : list Py.directive :=
  match ts with
  | [] => []
  | Py.TDir d :: ts' => d :: directives ts'
  | _ :: ts' => directives ts'
  end.
(** * Properties *)

(** ** The monad and the conflict query *)

Ltac unfold_monad :=
  unfold bind, ret, raise, lift, get_db, put_db, emit in *; simpl in *.

(** The conflict query only reads: it appends itself to the log and
    answers by the first conflicting row. *)
Lemma check_availability_eq start_time duration business_id w :
  AppointmentPlugin._check_availability start_time duration business_id w =
  (Ok (match find (AppointmentPlugin.conflict_row business_id start_time (start_time + duration))
               (appointments (w_db w)) with
       | Some _ => (false, "I'm sorry, that time is already booked.")
       | None => (true, "")
       end),
   mk_world (w_db w)
     (w_log w ++ [SelectConflict business_id start_time (start_time + duration)])).
Proof.
  unfold AppointmentPlugin._check_availability. unfold_monad.
  destruct (find _ _); reflexivity.
Qed.

(** A row the query lets pass does not overlap the requested interval. *)
Lemma conflict_row_false_no_overlap business_id s e a :
  AppointmentPlugin.conflict_row business_id s e a = false ->
  a_business_id a = business_id -> a_status a = confirmed ->
  ~ intervals_overlap (a_start_time a) (a_end_time a) s e.
Proof.
  unfold AppointmentPlugin.conflict_row, intervals_overlap.
  intros H Hb Hs [H1 H2]. rewrite Hs in H. simpl in H.
  rewrite <- Hb, String.eqb_refl in H. simpl in H.
  apply orb_false_elim in H as [H _]. apply orb_false_elim in H as [H _].
  apply andb_false_elim in H as [H | H]; apply Z.ltb_ge in H; lia.
Qed.

(** A row that overlaps the requested interval is reported. *)
Lemma overlap_conflict_row business_id s e a :
  a_business_id a = business_id -> a_status a = confirmed ->
  intervals_overlap (a_start_time a) (a_end_time a) s e ->
  AppointmentPlugin.conflict_row business_id s e a = true.
Proof.
  unfold AppointmentPlugin.conflict_row, intervals_overlap.
  intros Hb Hs [H1 H2]. rewrite Hs, <- Hb, String.eqb_refl. simpl.
  apply Z.ltb_lt in H1, H2. rewrite H1, H2. reflexivity.
Qed.


(** Sums within the range of datetime are formed; the others raise
    [OverflowError]. *)
Lemma datetime_add_in_range t n :
  0 <= t < max_minutes -> 0 <= t + n < max_minutes ->
  datetime_add t n = Ok (t + n).
Proof.
  intros Ht Hs. unfold datetime_add, timedelta_minutes.
  unfold max_minutes, max_date in *.
  assert (H : Z.abs (n / 1440) <= 999999999).
  { assert (-5258964960 <= n <= 5258964960) by lia.
    assert (-5258964960 / 1440 <= n / 1440) by (apply Z.div_le_mono; lia).
    assert (n / 1440 <= 5258964960 / 1440) by (apply Z.div_le_mono; lia).
    change (-5258964960 / 1440) with (-3652059) in *.
    change (5258964960 / 1440) with 3652059 in *. lia. }
  apply Z.leb_le in H. rewrite H.
  destruct (Z.leb_spec 0 (t + n)); [| lia].
  destruct (Z.ltb_spec (t + n) ((3652058 + 1) * 1440)); [| lia].
  reflexivity.
Qed.

Lemma datetime_add_cases t n :
  datetime_add t n = Ok (t + n)
  \/ exists what, datetime_add t n = Raise (OverflowError what).
Proof.
  unfold datetime_add, timedelta_minutes.
  destruct (Z.abs (n / 1440) <=? 999999999); [| right; eauto].
  destruct ((0 <=? t + n) && (t + n <? max_minutes));
    [left; reflexivity | right; unfold date_out_of_range; eauto].
Qed.

Lemma date_add_cases d k :
  (date_add d k = Ok (d + k) /\ 0 <= d + k <= max_date)
  \/ (date_add d k = Raise date_out_of_range
      /\ ~ 0 <= d + k <= max_date).
Proof.
  unfold date_add.
  destruct (Z.leb_spec 0 (d + k)), (Z.leb_spec (d + k) max_date); simpl;
    [left | right | right | right]; split; try reflexivity; lia.
Qed.

Lemma datetime_add_ok t n x : datetime_add t n = Ok x -> x = t + n.
Proof.
  destruct (datetime_add_cases t n) as [E | (what & E)]; rewrite E;
    congruence.
Qed.

Lemma datetime_add_raise t n e :
  datetime_add t n = Raise e ->
  (exists what, e = OverflowError what)
  /\ ~ (0 <= t < max_minutes /\ 0 <= t + n < max_minutes).
Proof.
  intros E. split.
  - destruct (datetime_add_cases t n) as [E' | (what & E')];
      rewrite E' in E; [discriminate |].
    injection E as <-. eauto.
  - intros [H1 H2]. rewrite (datetime_add_in_range t n H1 H2) in E.
    discriminate.
Qed.
(** ** Facts about the library functions *)

Section Matcher.

Lemma try_alts_inv {A} (k : string -> string -> option A) alts s x :
  Py.try_alts k alts s = Some x ->
  exists al m r,
    In al alts /\ Py.match_alt al s = Some (m, r) /\ k m r = Some x.
Proof.
  induction alts as [| al alts IH]; simpl; [discriminate |].
  destruct (Py.match_alt al s) as [[m r] |] eqn:E.
  - destruct (k m r) eqn:K.
    + intros [= <-]. exists al, m, r. auto.
    + intros H. destruct (IH H) as (al' & m' & r' & ? & ? & ?).
      exists al', m', r'. auto.
  - intros H. destruct (IH H) as (al' & m' & r' & ? & ? & ?).
    exists al', m', r'. auto.
Qed.

Lemma match_alt1_inv k1 s m r :
  Py.match_alt [k1] s = Some (m, r) ->
  exists a, m = String a "" /\ s = String a r /\ Py.cclass_mem k1 a = true.
Proof.
  simpl. destruct s as [| a s]; [discriminate |].
  destruct (Py.cclass_mem k1 a) eqn:E; [| discriminate].
  intros [= <- <-]. exists a. auto.
Qed.

Lemma match_alt2_inv k1 k2 s m r :
  Py.match_alt [k1; k2] s = Some (m, r) ->
  exists a b, m = String a (String b "") /\ s = String a (String b r)
              /\ Py.cclass_mem k1 a = true /\ Py.cclass_mem k2 b = true.
Proof.
  simpl. destruct s as [| a s]; [discriminate |].
  destruct (Py.cclass_mem k1 a) eqn:E1; [| discriminate].
  destruct s as [| b s]; [discriminate |].
  destruct (Py.cclass_mem k2 b) eqn:E2; [| discriminate].
  intros [= <- <-]. exists a, b. auto.
Qed.

(** The decimal value of a character that a digit class accepts. *)
Lemma range_mem_val lo hi a :
  Py.cclass_mem (Py.CRange lo hi) a = true ->
  Py.digit_val lo <= Py.digit_val a <= Py.digit_val hi.
Proof.
  unfold Py.cclass_mem, Py.digit_val. intros H.
  apply andb_true_iff in H as [H1 H2].
  apply N.leb_le in H1, H2. lia.
Qed.

Lemma digit_mem_val a :
  Py.cclass_mem Py.CDigit a = true -> 0 <= Py.digit_val a <= 9.
Proof.
  unfold Py.cclass_mem, Py.is_digit, Py.digit_val. intros H.
  apply andb_true_iff in H as [H1 H2].
  apply N.leb_le in H1, H2. lia.
Qed.

Lemma char2_mem a : Py.cclass_mem (Py.CChar "2") a = true -> a = "2"%char.
Proof.
  unfold Py.cclass_mem. intros H. apply Ascii.eqb_eq in H.
  destruct a as [[] [] [] [] [] [] [] []]; vm_compute in H;
    first [discriminate H | reflexivity].
Qed.

(** A character with a decimal value is not a blank, so [int] reads the
    text as it stands. *)
Lemma digit_not_space a : 0 <= Py.digit_val a <= 9 -> Py.is_space a = false.
Proof.
  unfold Py.digit_val, Py.is_space. intros H.
  destruct (N.leb_spec 9 (N_of_ascii a)), (N.leb_spec (N_of_ascii a) 13),
    (N.leb_spec 28 (N_of_ascii a)), (N.leb_spec (N_of_ascii a) 32);
    simpl; try reflexivity; lia.
Qed.

Lemma int_one a :
  0 <= Py.digit_val a <= 9 -> Py.int (String a "") = Py.digit_val a.
Proof.
  intros H. unfold Py.int, Py.strip. simpl.
  rewrite (digit_not_space a H). simpl. rewrite (digit_not_space a H). simpl. lia.
Qed.

Lemma int_two a b :
  0 <= Py.digit_val a <= 9 -> 0 <= Py.digit_val b <= 9 ->
  Py.int (String a (String b "")) = 10 * Py.digit_val a + Py.digit_val b.
Proof.
  intros Ha Hb. unfold Py.int, Py.strip. simpl.
  rewrite (digit_not_space a Ha). simpl. rewrite (digit_not_space b Hb). simpl. lia.
Qed.

Lemma hour_alt_range al s m r :
  In al (Py.dir_alts Py.dH) -> Py.match_alt al s = Some (m, r) ->
  0 <= Py.int m <= 23.
Proof.
  simpl. intros [<- | [<- | [<- | []]]] H.
  - apply match_alt2_inv in H as (a & b & -> & _ & Ha & Hb).
    apply char2_mem in Ha. subst a. apply range_mem_val in Hb.
    rewrite int_two; unfold Py.digit_val in *; simpl in *; lia.
  - apply match_alt2_inv in H as (a & b & -> & _ & Ha & Hb).
    apply range_mem_val in Ha. apply digit_mem_val in Hb.
    rewrite int_two; unfold Py.digit_val in *; simpl in *; lia.
  - apply match_alt1_inv in H as (a & -> & _ & Ha).
    apply digit_mem_val in Ha. rewrite int_one; lia.
Qed.

Lemma minute_alt_range al s m r :
  In al (Py.dir_alts Py.dM) -> Py.match_alt al s = Some (m, r) ->
  0 <= Py.int m <= 59.
Proof.
  simpl. intros [<- | [<- | []]] H.
  - apply match_alt2_inv in H as (a & b & -> & _ & Ha & Hb).
    apply range_mem_val in Ha. apply digit_mem_val in Hb.
    rewrite int_two; unfold Py.digit_val in *; simpl in *; lia.
  - apply match_alt1_inv in H as (a & -> & _ & Ha).
    apply digit_mem_val in Ha. rewrite int_one; lia.
Qed.

(** A [%H:%M] parse yields an hour below 24 and a minute below 60. *)
Lemma strptime_HM_range s d :
  Py.strptime s "%H:%M" = Some d ->
  0 <= Py.hour (Py.dt_time d) <= 23 /\ 0 <= Py.minute (Py.dt_time d) <= 59.
Proof.
  unfold Py.strptime.
  change (Py.compile "%H:%M")
    with (Some [Py.TDir Py.dH; Py.TLit ":"; Py.TDir Py.dM]).
  cbv beta iota.
  destruct (Py.re_match _ s) as [[g rest] |] eqn:E; [| discriminate].
  destruct rest; [| discriminate].
  cbn [Py.re_match] in E.
  apply try_alts_inv in E as (al & mh & r & Hal & Hm & E).
  destruct r as [| c r]; [discriminate |].
  destruct (Py.cclass_mem (Py.CChar ":") c); [| discriminate].
  destruct (Py.try_alts _ _ r) as [[g' rest'] |] eqn:E2; [| discriminate].
  injection E as <- ->.
  apply try_alts_inv in E2 as (al2 & mm & r2 & Hal2 & Hm2 & E2).
  cbn in E2. injection E2 as <- ->.
  pose proof (hour_alt_range _ _ _ _ Hal Hm).
  pose proof (minute_alt_range _ _ _ _ Hal2 Hm2).
  cbn [Py.convert]. simpl.
  intros [= <-]. simpl. lia.
Qed.

End Matcher.

Lemma parse_hours_range h o c :
  parse_hours h = Some (o, c) ->
  0 <= Py.time_minutes o < 1440 /\ 0 <= Py.time_minutes c < 1440.
Proof.
  unfold parse_hours.
  destruct (Py.split "-" h) as [| p1 [| p2 [| ? ?]]]; try discriminate.
  destruct (Py.strptime (Py.strip p1) "%H:%M") as [d1 |] eqn:E1; [| discriminate].
  destruct (Py.strptime (Py.strip p2) "%H:%M") as [d2 |] eqn:E2; [| discriminate].
  intros [= <- <-].
  apply strptime_HM_range in E1, E2. unfold Py.time_minutes. lia.
Qed.
(** ** Alternative-slot search *)

Section AlternativeSearch.
Variable config : BusinessConfig.
Variable duration : Z.
Variable business_id : string.

Local Abbreviation slot_free := (slot_free duration business_id).
Local Abbreviation day_slot := (day_slot duration business_id).
Local Abbreviation is_query := (is_query duration business_id).
Local Abbreviation in_day := (in_day config duration business_id).

Lemma on_grid_step origin c : on_grid (origin + 30) c -> on_grid origin c.
Proof. intros [j [Hj E]]. exists (j + 1). split; lia. Qed.

Lemma day_slot_step rows origin eod c :
  day_slot rows (origin + 30) eod c -> day_slot rows origin eod c.
Proof. intros (G & ?). split; [apply on_grid_step, G | assumption]. Qed.

Lemma chronological_cons_grid x new :
  Forall (on_grid (x + 30)) new ->
  chronological (map alt_datetime new) ->
  chronological (x :: map alt_datetime new).
Proof.
  intros HF HC. split; [| exact HC].
  apply List.Forall_map. eapply List.Forall_impl; [| exact HF].
  intros c [j [Hj E]]. simpl. lia.
Qed.

(** One day's loop, with enough fuel: it ends, by returning or by an
    [OverflowError]; it leaves the tables alone and only issues conflict
    queries; when it returns it has extended the alternatives by free slots
    of the day's grid in increasing order, stopping at the fifth; and it
    returns when the day is safe. *)
Lemma scan_day_spec end_of_day :
  forall fuel current_time alts w,
    end_of_day - duration - current_time < 30 * Z.of_nat fuel ->
    (length alts < 5)%nat ->
    exists o log',
      AppointmentPlugin.scan_day fuel duration business_id end_of_day
        current_time alts w
      = (o, mk_world (w_db w) (w_log w ++ log'))
      /\ Forall is_query log'
      /\ (safe_day duration end_of_day current_time -> exists r, o = Ok r)
      /\ match o with
         | Raise e => exists what, e = OverflowError what
         | Ok r =>
             exists new,
               (r = AppointmentPlugin.Returned (alts ++ new)
                  /\ length (alts ++ new) = 5%nat
                  /\ (exists c log0, last new = Some c /\
                        log' = log0 ++ [SelectConflict business_id
                                          (alt_datetime c)
                                          (alt_datetime c + duration)])
                \/ r = AppointmentPlugin.Exhausted (alts ++ new)
                   /\ (length (alts ++ new) < 5)%nat)
               /\ Forall (day_slot (appointments (w_db w)) current_time
                            end_of_day) new
               /\ chronological (map alt_datetime new)
         end.
Proof.
  induction fuel as [| fuel IH]; intros cur alts w Hfuel Hlen;
    cbn [AppointmentPlugin.scan_day]; unfold bind at 1, lift.
  - destruct (datetime_add cur duration) as [x | e] eqn:Ea.
    + apply datetime_add_ok in Ea as ->.
      destruct (Z.leb_spec (cur + duration) end_of_day); [lia |].
      exists (Ok (AppointmentPlugin.Exhausted alts)), [].
      rewrite app_nil_r. destruct w. unfold ret. simpl.
      split; [reflexivity |]. split; [constructor |]. split; [eauto |].
      exists []. rewrite app_nil_r. simpl. auto.
    + apply datetime_add_raise in Ea as [He Hn].
      exists (Raise e), []. rewrite app_nil_r. destruct w. simpl.
      split; [reflexivity |]. split; [constructor |]. split; [| exact He].
      intros (H1 & H2 & _). tauto.
  - destruct (datetime_add cur duration) as [x | e] eqn:Ea.
    2:{ apply datetime_add_raise in Ea as [He Hn].
        exists (Raise e), []. rewrite app_nil_r. destruct w. simpl.
        split; [reflexivity |]. split; [constructor |]. split; [| exact He].
        intros (H1 & H2 & _). tauto. }
    apply datetime_add_ok in Ea as ->.
    destruct (Z.leb_spec (cur + duration) end_of_day) as [Hle | Hgt].
    2:{ exists (Ok (AppointmentPlugin.Exhausted alts)), [].
        rewrite app_nil_r. destruct w. unfold ret. simpl.
        split; [reflexivity |]. split; [constructor |]. split; [eauto |].
        exists []. rewrite app_nil_r. simpl. auto. }
    unfold bind at 1. rewrite check_availability_eq.
    set (q := SelectConflict business_id cur (cur + duration)).
    set (w1 := mk_world (w_db w) (w_log w ++ [q])).
    assert (Hq : is_query q) by (exists cur; reflexivity).
    assert (Hsafe : safe_day duration end_of_day cur ->
                    datetime_add cur 30 = Ok (cur + 30)
                    /\ safe_day duration end_of_day (cur + 30)).
    { intros (H1 & H2 & H3 & H4). split.
      - apply datetime_add_in_range; lia.
      - unfold safe_day. lia. }
    (* the step to the next slot *)
    assert (Hnext : forall alts',
      (length alts' < 5)%nat ->
      exists o log',
        (let* next := lift (datetime_add cur 30) in
         AppointmentPlugin.scan_day fuel duration business_id end_of_day
           next alts') w1
        = (o, mk_world (w_db w) (w_log w ++ q :: log'))
        /\ Forall is_query log'
        /\ (safe_day duration end_of_day cur -> exists r, o = Ok r)
        /\ match o with
           | Raise e => exists what, e = OverflowError what
           | Ok r =>
               exists new,
                 (r = AppointmentPlugin.Returned (alts' ++ new)
                    /\ length (alts' ++ new) = 5%nat
                    /\ (exists c log0, last new = Some c /\
                          log' = log0 ++ [SelectConflict business_id
                                            (alt_datetime c)
                                            (alt_datetime c + duration)])
                  \/ r = AppointmentPlugin.Exhausted (alts' ++ new)
                     /\ (length (alts' ++ new) < 5)%nat)
                 /\ Forall (day_slot (appointments (w_db w)) (cur + 30)
                              end_of_day) new
                 /\ chronological (map alt_datetime new)
           end).
    { intros alts' Hlen'. unfold bind, lift.
      destruct (datetime_add_cases cur 30) as [E | (what & E)]; rewrite E.
      - destruct (IH (cur + 30) alts' w1) as (o & log' & E' & HQ & HS & Ho);
          [lia | assumption |].
        exists o, log'. rewrite E'. subst w1. simpl.
        rewrite <- app_assoc. simpl.
        split; [reflexivity |]. split; [exact HQ |].
        split; [intros H; apply HS, Hsafe, H | exact Ho].
      - exists (Raise (OverflowError what)), []. subst w1. simpl.
        split; [reflexivity |]. split; [constructor |]. split; [| eauto].
        intros H. destruct (Hsafe H) as [E30 _]. congruence. }
    destruct (find _ (appointments (w_db w))) eqn:Hfind; cbv beta iota.
    + (* the slot is taken *)
      destruct (Hnext alts Hlen) as (o & log' & E & HQ & HS & Ho).
      exists o, (q :: log'). try unfold ret at 1; cbv beta iota.
      split; [exact E |]. split; [constructor; assumption |].
      split; [exact HS |].
      destruct o as [r | e]; [| exact Ho].
      destruct Ho as (new & Hr & HF & HC). exists new.
      split; [| split].
      * destruct Hr as [(-> & L & c & log0 & Hl & ->) | ?];
          [left | right; assumption].
        repeat split; auto. exists c, (q :: log0). split; auto.
      * eapply List.Forall_impl; [| exact HF]. intros c. apply day_slot_step.
      * exact HC.
    + (* the slot is free *)
      try unfold ret at 1; cbv beta iota.
      set (x := mk_alternative cur (AppointmentPlugin._format_datetime cur)).
      assert (Hx : day_slot (appointments (w_db w)) cur end_of_day x).
      { split; [exists 0; simpl; split; lia |].
        split; [simpl; lia |]. split; [exact Hfind | reflexivity]. }
      destruct (Z.leb_spec 5 (Z.of_nat (length (alts ++ [x])))) as [H5 | H5].
      * exists (Ok (AppointmentPlugin.Returned (alts ++ [x]))), [q].
        unfold ret. split; [reflexivity |].
        split; [constructor; [assumption | constructor] |].
        split; [eauto |]. exists [x]. split; [| split].
        -- left. split; auto. rewrite length_app in *. simpl in *.
           split; [lia |]. exists x, []. split; reflexivity.
        -- constructor; auto.
        -- simpl. auto.
      * destruct (Hnext (alts ++ [x]) ltac:(lia))
          as (o & log' & E & HQ & HS & Ho).
        exists o, (q :: log'). split; [exact E |].
        split; [constructor; assumption |]. split; [exact HS |].
        destruct o as [r | e]; [| exact Ho].
        destruct Ho as (new & Hr & HF & HC). exists (x :: new).
        split; [| split].
        -- rewrite <- !app_assoc in Hr. simpl in Hr.
           destruct Hr as [(-> & L & c & log0 & Hl & ->) | ?];
             [left | right; assumption].
           split; auto. split; auto. exists c, (q :: log0).
           split; auto. simpl. destruct new; [discriminate | exact Hl].
        -- constructor; auto.
           eapply List.Forall_impl; [| exact HF]. intros c. apply day_slot_step.
        -- apply chronological_cons_grid with (x := cur); auto.
           eapply List.Forall_impl; [| exact HF]. intros c H. apply H.
Qed.

Lemma day_fuel_enough end_of_day current_time :
  end_of_day - duration - current_time
  < 30 * Z.of_nat (AppointmentPlugin.day_fuel duration end_of_day current_time).
Proof.
  unfold AppointmentPlugin.day_fuel.
  set (x := end_of_day - duration - current_time).
  destruct (Z.le_gt_cases 0 x) as [H | H].
  - pose proof (Z.div_pos x 30 H ltac:(lia)).
    pose proof (Z.mul_succ_div_gt x 30 ltac:(lia)).
    rewrite Z2Nat.id; lia.
  - lia.
Qed.

Lemma in_day_lower rows check_date k c :
  in_day rows check_date k c -> (check_date + k) * 1440 <= alt_datetime c.
Proof.
  intros (h & o & cl & _ & _ & P & (j & Hj & E) & _).
  apply parse_hours_range in P. unfold combine_minutes in E. lia.
Qed.

Lemma in_day_upper rows check_date k c :
  0 <= duration -> in_day rows check_date k c ->
  alt_datetime c < (check_date + k + 1) * 1440.
Proof.
  intros Hd (h & o & cl & _ & _ & P & _ & Hle & _).
  apply parse_hours_range in P. unfold combine_minutes in Hle. lia.
Qed.

Lemma chronological_app l1 l2 :
  chronological l1 -> chronological l2 ->
  (forall x y, In x l1 -> In y l2 -> x <= y) ->
  chronological (l1 ++ l2).
Proof.
  induction l1 as [| x l1 IH]; simpl; intros H1 H2 H; [exact H2 |].
  destruct H1 as [HF HC]. split.
  - apply List.Forall_app. split; [exact HF |].
    apply List.Forall_forall. intros y Hy. apply H; auto.
  - apply IH; auto.
Qed.

(** The loop over the days: see [scan_day_spec].  It returns when the
    seven days after the requested date, and the slots tried on them, lie
    within the range of datetime. *)
Lemma scan_days_spec check_date :
  forall offsets alts w,
    (length alts < 5)%nat ->
    exists o log',
      AppointmentPlugin.scan_days config offsets check_date duration
        business_id alts w
      = (o, mk_world (w_db w) (w_log w ++ log'))
      /\ Forall is_query log'
      /\ (Forall (fun k => 0 <= k <= 6) offsets ->
          Z.abs duration <= check_date * 1440 ->
          (check_date + 8) * 1440 + Z.abs duration <= max_minutes ->
          exists r, o = Ok r)
      /\ match o with
         | Raise e => exists what, e = OverflowError what
         | Ok r =>
             exists new,
               r = alts ++ new
               /\ (length (alts ++ new) = 5%nat
                     /\ (exists c log0, last new = Some c /\
                           log' = log0 ++ [SelectConflict business_id
                                             (alt_datetime c)
                                             (alt_datetime c + duration)])
                   \/ (length (alts ++ new) < 5)%nat)
               /\ Forall (fun c => exists k, In k offsets
                            /\ in_day (appointments (w_db w)) check_date k c)
                    new
               /\ (0 <= duration -> StronglySorted Z.lt offsets ->
                   chronological (map alt_datetime new))
         end.
Proof.
  induction offsets as [| k offsets IH]; intros alts w Hlen.
  { exists (Ok alts), []. rewrite !app_nil_r. destruct w. simpl. unfold ret.
    split; [reflexivity |]. split; [constructor |]. split; [eauto |].
    exists []. rewrite !app_nil_r. repeat split; simpl; auto. }
  cbn [AppointmentPlugin.scan_days]. unfold bind at 1, lift.
  destruct (date_add_cases check_date k) as [[E Hk] | [E Hk]]; rewrite E.
  2:{ exists (Raise date_out_of_range), []. rewrite app_nil_r. destruct w.
      simpl. split; [reflexivity |]. split; [constructor |].
      split; [| unfold date_out_of_range; eauto].
      intros HO H1 H2. exfalso. apply Hk.
      apply List.Forall_inv in HO. unfold max_minutes in H2. lia. }
  clear E.
  assert (Hskip :
    exists o log',
      AppointmentPlugin.scan_days config offsets check_date duration
        business_id alts w
      = (o, mk_world (w_db w) (w_log w ++ log'))
      /\ Forall is_query log'
      /\ (Forall (fun k => 0 <= k <= 6) (k :: offsets) ->
          Z.abs duration <= check_date * 1440 ->
          (check_date + 8) * 1440 + Z.abs duration <= max_minutes ->
          exists r, o = Ok r)
      /\ match o with
         | Raise e => exists what, e = OverflowError what
         | Ok r =>
             exists new,
               r = alts ++ new
               /\ (length (alts ++ new) = 5%nat
                     /\ (exists c log0, last new = Some c /\
                           log' = log0 ++ [SelectConflict business_id
                                             (alt_datetime c)
                                             (alt_datetime c + duration)])
                   \/ (length (alts ++ new) < 5)%nat)
               /\ Forall (fun c => exists k', In k' (k :: offsets)
                            /\ in_day (appointments (w_db w)) check_date k' c)
                    new
               /\ (0 <= duration -> StronglySorted Z.lt (k :: offsets) ->
                   chronological (map alt_datetime new))
         end).
  { destruct (IH alts w Hlen) as (o & log' & E & HQ & HS & Ho).
    exists o, log'. split; [exact E |]. split; [exact HQ |].
    split; [intros HO; apply HS; apply List.Forall_inv_tail in HO; exact HO |].
    destruct o as [r | e]; [| exact Ho].
    destruct Ho as (new & -> & Hn & HF & HC). exists new.
    repeat split; auto.
    - eapply List.Forall_impl; [| exact HF].
      intros c (k' & ? & ?). exists k'. split; [right |]; assumption.
    - intros Hd HSo. apply HC; auto.
      apply StronglySorted_inv in HSo. apply HSo. }
  destruct (business_hours config !! day_key (check_date + k)) as [h |] eqn:Hh;
    [| exact Hskip].
  destruct (closed_entry (Some h)) eqn:Hc; [exact Hskip |].
  destruct (parse_hours h) as [[open_hour close_hour] |] eqn:Hp; [| exact Hskip].
  clear Hskip.
  set (origin := combine_minutes (check_date + k) (Py.time_minutes open_hour)).
  set (eod := combine_minutes (check_date + k) (Py.time_minutes close_hour)).
  destruct (scan_day_spec eod _ origin alts w (day_fuel_enough eod origin) Hlen)
    as (o1 & log1 & E1 & HQ1 & HS1 & Ho1).
  assert (Hsafe : Forall (fun k => 0 <= k <= 6) (k :: offsets) ->
                  Z.abs duration <= check_date * 1440 ->
                  (check_date + 8) * 1440 + Z.abs duration <= max_minutes ->
                  safe_day duration eod origin).
  { intros HO H1 H2. apply List.Forall_inv in HO.
    pose proof (parse_hours_range _ _ _ Hp) as R.
    unfold safe_day, eod, origin, combine_minutes. lia. }
  unfold bind at 1. rewrite E1.
  destruct o1 as [r1 | e1].
  2:{ exists (Raise e1), log1. split; [reflexivity |]. split; [exact HQ1 |].
      split; [| exact Ho1].
      intros HO H1 H2. destruct (HS1 (Hsafe HO H1 H2)) as [r Hr].
      discriminate. }
  destruct Ho1 as (new1 & Hr & HF1 & HC1).
  assert (Hday : Forall (in_day (appointments (w_db w)) check_date k) new1).
  { eapply List.Forall_impl; [| exact HF1]. intros c Hs.
    exists h, open_hour, close_hour. auto. }
  destruct Hr as [(-> & L & Hlast) | (-> & L)].
  - exists (Ok (alts ++ new1)), log1. unfold ret. split; [reflexivity |].
    split; [exact HQ1 |]. split; [eauto |]. exists new1.
    split; [reflexivity |]. split; [left; auto |]. split; [| auto].
    eapply List.Forall_impl; [| exact Hday].
    intros c ?. exists k. split; [left; reflexivity | assumption].
  - destruct (IH (alts ++ new1) (mk_world (w_db w) (w_log w ++ log1)) L)
      as (o2 & log2 & E2 & HQ2 & HS2 & Ho2).
    simpl in E2, Ho2.
    exists o2, (log1 ++ log2).
    rewrite E2, !app_assoc. split; [reflexivity |].
    split; [apply List.Forall_app; split; assumption |].
    split; [intros HO; apply HS2; apply List.Forall_inv_tail in HO; exact HO |].
    destruct o2 as [r2 | e2]; [| exact Ho2].
    destruct Ho2 as (new2 & -> & Hn & HF2 & HC2).
    exists (new1 ++ new2). rewrite !app_assoc.
    split; [reflexivity |]. split; [| split].
    + destruct Hn as [(L2 & c & log0 & Hl & ->) | L2]; [left | right; exact L2].
      split; [exact L2 |]. exists c, (log1 ++ log0).
      split; [| rewrite app_assoc; reflexivity].
      rewrite last_app, Hl. reflexivity.
    + apply List.Forall_app. split.
      * eapply List.Forall_impl; [| exact Hday].
        intros c ?. exists k. split; [left; reflexivity | assumption].
      * eapply List.Forall_impl; [| exact HF2].
        intros c (k' & ? & ?). exists k'. split; [right |]; assumption.
    + intros Hd HS. apply StronglySorted_inv in HS as [HS Hks].
      rewrite map_app. apply chronological_app; auto.
      intros x y Hx Hy.
      apply in_map_iff in Hx as (c1 & <- & Hx), Hy as (c2 & <- & Hy).
      rewrite List.Forall_forall in Hday, HF2, Hks.
      destruct (HF2 _ Hy) as (k' & Hk' & Hin2).
      pose proof (in_day_upper _ _ _ _ Hd (Hday _ Hx)).
      pose proof (in_day_lower _ _ _ _ Hin2).
      pose proof (Hks _ Hk'). nia.
Qed.

End AlternativeSearch.
(** C5 (amended).  For every configuration, requested instant, duration
    and store, the alternative-slot search ends, either by returning a list
    or with an OverflowError of the date arithmetic; it changes no table in
    either case, and it returns whenever the requested date and the
    duration are far from the ends of the calendar.  The candidates it
    returns are: at most five, the scan stopping with the query that found
    the fifth; each one a slot of one of the seven days starting at the
    requested date whose hours entry is open and parses, a whole number of
    30-minute steps after that day's opening and ending at or before its
    closing; each one free of overlap with every confirmed appointment of
    the business; and, when the duration is not negative, in chronological
    order. *)
Theorem find_alternative_times_candidates
    (config : BusinessConfig) (requested duration : Z)
    (business_id : string) (w : world) :
  exists o log',
    AppointmentPlugin._find_alternative_times config requested duration
      business_id w
    = (o, mk_world (w_db w) (w_log w ++ log'))
    /\ (far_from_the_ends requested duration -> exists alts, o = Ok alts)
    /\ match o with
       | Raise e => exists what, e = OverflowError what
       | Ok alts =>
           (length alts <= 5)%nat
           /\ (length alts = 5%nat ->
               exists c log0, last alts = Some c /\
                 log' = log0 ++ [SelectConflict business_id (alt_datetime c)
                                   (alt_datetime c + duration)])
           /\ Forall (fun c =>
                exists k h open_hour close_hour,
                  0 <= k < 7
                  /\ business_hours config !! day_key (date_of requested + k)
                     = Some h
                  /\ closed_entry (Some h) = false
                  /\ parse_hours h = Some (open_hour, close_hour)
                  /\ (exists j, 0 <= j /\
                        alt_datetime c
                        = combine_minutes (date_of requested + k)
                            (Py.time_minutes open_hour) + 30 * j)
                  /\ alt_datetime c + duration
                     <= combine_minutes (date_of requested + k)
                          (Py.time_minutes close_hour)) alts
           /\ Forall (fun c =>
                forall a, In a (appointments (w_db w)) ->
                  a_business_id a = business_id -> a_status a = confirmed ->
                  ~ intervals_overlap (a_start_time a) (a_end_time a)
                      (alt_datetime c) (alt_datetime c + duration)) alts
           /\ (0 <= duration -> chronological (map alt_datetime alts))
       end.
Proof.
  unfold AppointmentPlugin._find_alternative_times.
  destruct (scan_days_spec config duration business_id (date_of requested)
              [0; 1; 2; 3; 4; 5; 6] [] w)
    as (o & log' & E & _ & HS & Ho); [simpl; lia |].
  exists o, log'. split; [exact E |]. split.
  { intros [H1 H2]. apply HS; auto.
    repeat (constructor; [lia |]). constructor. }
  destruct o as [alts | e]; [| exact Ho].
  destruct Ho as (new & -> & Hn & HF & HC).
  change ([] ++ new) with new in *.
  split; [destruct Hn as [[-> _] | ?]; lia |].
  split; [intros L; destruct Hn as [[_ ?] | ?]; [assumption | lia] |].
  split; [| split].
  - eapply List.Forall_impl; [| exact HF].
    intros c (k & Hk & h & o & cl & Hh & Hc & Hp & Hg & Hle & _).
    exists k, h, o, cl. repeat split; auto; simpl in Hk; lia.
  - eapply List.Forall_impl; [| exact HF].
    intros c (k & _ & h & o & cl & _ & _ & _ & _ & _ & Hfree & _) a Ha Hb Hs.
    apply conflict_row_false_no_overlap with (business_id := business_id); auto.
    exact (find_none _ _ Hfree a Ha).
  - intros Hd. apply HC; [exact Hd |].
    repeat (constructor; [| repeat constructor; lia]). constructor.
Qed.

Lemma find_alternative_times_candidates_witness :
  far_from_the_ends (Examples.at_ 4 10 0) 30
  /\ exists alts log',
       AppointmentPlugin._find_alternative_times Examples.acme
         (Examples.at_ 4 10 0) 30 "acme" Examples.fresh
       = (Ok alts,
          mk_world (w_db Examples.fresh) (w_log Examples.fresh ++ log'))
       /\ length alts = 5%nat
       /\ chronological (map alt_datetime alts).
Proof.
  assert (F : far_from_the_ends (Examples.at_ 4 10 0) 30)
    by (vm_compute; split; discriminate).
  split; [exact F |].
  destruct (find_alternative_times_candidates Examples.acme
              (Examples.at_ 4 10 0) 30 "acme" Examples.fresh)
    as (o & log' & E & HS & Ho).
  destruct (HS F) as [alts ->]. destruct Ho as (_ & _ & _ & _ & HC).
  exists alts, log'. split; [exact E |]. split; [| apply HC; lia].
  vm_compute in E. injection E as <- _. reflexivity.
Defined.

(** C5 as stated fails in two ways.  With a negative duration the list is
    not chronological: for a catalogue entry of -1500 minutes the loop of
    Monday runs on until Tuesday 11:00, and the loop of Tuesday then starts
    again at Tuesday 09:00, so the list goes back from Tuesday 11:00 to
    Tuesday 10:30.  And the search need not return at all: asked on
    9999-12-31 with that Friday fully booked, it steps to the next day and
    the date arithmetic raises. *)
Lemma alternatives_out_of_order :
  (exists alts,
     fst (AppointmentPlugin._find_alternative_times Examples.backwards
            (Examples.at_ 4 9 0) (-1500) "acme"
            (Examples.store
               [Examples.row 1 "acme" (Examples.at_ 3 7 30)
                  (Examples.at_ 4 9 30)]))
     = Ok alts
     /\ map alt_datetime alts
        = [Examples.at_ 5 10 30; Examples.at_ 5 11 0; Examples.at_ 5 10 30;
           Examples.at_ 5 11 0; Examples.at_ 5 11 30]
     /\ ~ chronological (map alt_datetime alts))
  /\ fst (AppointmentPlugin._find_alternative_times Examples.acme
            (Examples.last_day 10 0) 30 "acme"
            (Examples.store
               [Examples.row 1 "acme" (Examples.last_day 9 0)
                  (Examples.last_day 17 0)]))
     = Raise date_out_of_range.
Proof.
  split; [| vm_compute; reflexivity].
  eexists. split; [vm_compute; reflexivity |].
  split; [vm_compute; reflexivity |].
  simpl. intros (_ & H & _). apply List.Forall_inv in H. vm_compute in H.
  apply H. reflexivity.
Qed.

(** ** The paths through [AppointmentPlugin.process] *)

Section ProcessPaths.
Variable config : BusinessConfig.
Variable data : booking_data.

(** The search ends, by returning at most five alternatives or with an
    OverflowError; it changes no table; it returns when the request is far
    from the ends of the calendar. *)
Lemma find_alternative_times_ends requested duration business_id w :
  exists o log',
    AppointmentPlugin._find_alternative_times config requested duration
      business_id w
    = (o, mk_world (w_db w) (w_log w ++ log'))
    /\ Forall (is_query duration business_id) log'
    /\ (far_from_the_ends requested duration -> exists alts, o = Ok alts)
    /\ match o with
       | Ok alts => (length alts <= 5)%nat
       | Raise e => exists what, e = OverflowError what
       end.
Proof.
  unfold AppointmentPlugin._find_alternative_times.
  destruct (scan_days_spec config duration business_id (date_of requested)
              [0; 1; 2; 3; 4; 5; 6] [] w)
    as (o & log' & E & HQ & HS & Ho); [simpl; lia |].
  exists o, log'. split; [exact E |]. split; [exact HQ |]. split.
  { intros [H1 H2]. apply HS; auto.
    repeat (constructor; [lia |]). constructor. }
  destruct o as [alts | e]; [| exact Ho].
  destruct Ho as (new & -> & Hn & _).
  change ([] ++ new) with new in *.
  destruct Hn as [[-> _] | ?]; lia.
Qed.

(** Gate 1: the date or the time does not parse. *)
Lemma process_unparsed w :
  AppointmentPlugin._parse_datetime (bk_date data) (bk_time data) = None ->
  AppointmentPlugin.process config data w = (Ok (reply false reprompt), w).
Proof. unfold AppointmentPlugin.process. intros ->. reflexivity. Qed.

Section Parsed.
Variable parsed : Py.datetime.
Hypothesis Hparsed :
  AppointmentPlugin._parse_datetime (bk_date data) (bk_time data) = Some parsed.

(** Step 2 raises. *)
Lemma process_duration_raises w e :
  AppointmentPlugin._get_service_duration config (bk_service data) = Raise e ->
  AppointmentPlugin.process config data w = (Raise e, w).
Proof.
  unfold AppointmentPlugin.process. rewrite Hparsed. unfold bind, lift.
  intros ->. reflexivity.
Qed.

Section Duration.
Variable duration : Z.
Hypothesis Hduration :
  AppointmentPlugin._get_service_duration config (bk_service data) = Ok duration.

(** Gate 3: outside business hours. *)
Lemma process_outside_hours w :
  AppointmentPlugin._is_within_business_hours config (Py.minutes_of parsed)
    (bk_business_id data) = false ->
  AppointmentPlugin.process config data w = (Ok (reply false not_open), w).
Proof.
  unfold AppointmentPlugin.process. rewrite Hparsed. unfold bind, lift.
  rewrite Hduration. intros ->. reflexivity.
Qed.

Section WithinHours.
Hypothesis Hwithin :
  AppointmentPlugin._is_within_business_hours config (Py.minutes_of parsed)
    (bk_business_id data) = true.

Local Abbreviation start_time := (Py.minutes_of parsed).
Local Abbreviation query :=
  (SelectConflict (bk_business_id data) start_time (start_time + duration)).

(** Gate 4: the conflict query finds a row.  The alternative search runs
    next; what it returns is offered, and an error it raises leaves
    [process] with that error. *)
Lemma process_conflict w conflict :
  find (AppointmentPlugin.conflict_row (bk_business_id data) start_time
          (start_time + duration)) (appointments (w_db w)) = Some conflict ->
  exists o log',
    AppointmentPlugin._find_alternative_times config start_time duration
      (bk_business_id data) (mk_world (w_db w) (w_log w ++ [query]))
    = (o, mk_world (w_db w) ((w_log w ++ [query]) ++ log'))
    /\ Forall (is_query duration (bk_business_id data)) log'
    /\ (far_from_the_ends start_time duration -> exists alts, o = Ok alts)
    /\ match o with
       | Ok alts =>
           (length alts <= 5)%nat
           /\ AppointmentPlugin.process config data w
              = (Ok (mk_response false
                       (match alts with
                        | [] => callback_promise
                        | _ => offer alts
                        end)
                       (Some alts) (Some "suggest_alternatives") None None),
                 mk_world (w_db w) ((w_log w ++ [query]) ++ log'))
       | Raise e =>
           (exists what, e = OverflowError what)
           /\ AppointmentPlugin.process config data w
              = (Raise e, mk_world (w_db w) ((w_log w ++ [query]) ++ log'))
       end.
Proof.
  intros Hfind.
  destruct (find_alternative_times_ends start_time duration
              (bk_business_id data) (mk_world (w_db w) (w_log w ++ [query])))
    as (o & log' & E & HQ & HS & Ho).
  exists o, log'. simpl in E. split; [exact E |]. split; [exact HQ |].
  split; [exact HS |].
  assert (P : AppointmentPlugin.process config data w
              = (let* alternatives :=
                   AppointmentPlugin._find_alternative_times config start_time
                     duration (bk_business_id data) in
                 ret (mk_response false
                        (match alternatives with
                         | [] => callback_promise
                         | _ => offer alternatives
                         end)
                        (Some alternatives) (Some "suggest_alternatives")
                        None None))
                  (mk_world (w_db w) (w_log w ++ [query]))).
  { unfold AppointmentPlugin.process. rewrite Hparsed. unfold bind at 1, lift.
    rewrite Hduration, Hwithin. cbn [negb].
    unfold bind at 1. rewrite check_availability_eq, Hfind. cbn [negb].
    unfold bind, ret.
    destruct (AppointmentPlugin._find_alternative_times _ _ _ _ _)
      as [[[| ? ?] | ?] ?]; reflexivity. }
  destruct o as [alts | e]; (split; [exact Ho |]);
    rewrite P; unfold bind at 1; rewrite E; reflexivity.
Qed.

(** Step 5: no conflict, the appointment is inserted. *)
Lemma process_books w :
  find (AppointmentPlugin.conflict_row (bk_business_id data) start_time
          (start_time + duration)) (appointments (w_db w)) = None ->
  let d := w_db w in
  let id := appointments_seq d + 1 in
  let new_row :=
    mk_appointment id (bk_business_id data) (bk_customer_name data)
      (bk_phone data) (bk_email data) start_time (start_time + duration)
      (bk_service data) (bk_notes data) confirmed in
  exists text notice,
    AppointmentPlugin.process config data w
    = (Ok (mk_response true text None None
             (Some ("apt_" +:+ Py.str_int id)) None),
       mk_world (mk_db (appointments d ++ [new_row]) id (orders d) (orders_seq d)
                   (messages d) (messages_seq d))
         (w_log w ++ [query; InsertAppointment id; Notify notice])).
Proof.
  intros Hfind d id new_row.
  unfold AppointmentPlugin.process. rewrite Hparsed. unfold bind at 1, lift.
  rewrite Hduration, Hwithin. cbn [negb].
  unfold bind at 1. rewrite check_availability_eq, Hfind. cbn [negb].
  unfold AppointmentPlugin._book_appointment,
    AppointmentPlugin._notify_business.
  unfold_monad. rewrite <- !app_assoc. simpl.
  eexists _, _. reflexivity.
Qed.

End WithinHours.
End Duration.
End Parsed.
End ProcessPaths.

(** ** The no-double-booking invariant *)

Lemma compatible_sym a b : compatible a b -> compatible b a.
Proof.
  unfold compatible, intervals_overlap. intros H Hb Hs1 Hs2 [H1 H2].
  apply H; auto.
Qed.

Lemma pairwise_no_double_booking rows :
  pairwise_compatible rows <-> no_double_booking rows.
Proof.
  split.
  - induction rows as [| x rows IH]; simpl.
    + intros _ i j a b Hij Hi Hj. destruct i; discriminate.
    + intros [HF HP] i j a b Hij Hi Hj. rewrite Forall_lookup in HF.
      destruct i as [| i], j as [| j]; simpl in Hi, Hj.
      * congruence.
      * injection Hi as ->. apply (HF j b Hj).
      * injection Hj as ->. apply compatible_sym. apply (HF i a Hi).
      * apply (IH HP i j); auto.
  - induction rows as [| x rows IH]; intros H; simpl; [exact I |]. split.
    + apply Forall_lookup. intros j b Hj. unfold compatible.
      apply (H 0%nat (S j) x b); auto.
    + apply IH. intros i j a b Hij Hi Hj. apply (H (S i) (S j) a b); auto.
Qed.

Lemma pairwise_snoc rows x :
  pairwise_compatible rows -> Forall (fun a => compatible a x) rows ->
  pairwise_compatible (rows ++ [x]).
Proof.
  induction rows as [| a rows IH]; simpl; intros HP HF.
  - auto.
  - destruct HP as [HFa HP]. apply List.Forall_cons_iff in HF as [Hax HF].
    split; [| apply IH; auto].
    apply List.Forall_app. split; [exact HFa | constructor; auto].
Qed.

Lemma pairwise_filter p rows :
  pairwise_compatible rows -> pairwise_compatible (List.filter p rows).
Proof.
  induction rows as [| a rows IH]; simpl; intros HP; [exact I |].
  destruct HP as [HF HP]. destruct (p a); simpl; [split |]; auto.
  apply List.Forall_forall. intros b Hb. apply filter_In in Hb as [Hb _].
  rewrite List.Forall_forall in HF. auto.
Qed.

(** What a booking request does to the table: nothing, or one confirmed
    row appended that passed the conflict query. *)
Lemma process_appointments config data w o w' :
  AppointmentPlugin.process config data w = (o, w') ->
  w_db w' = w_db w
  \/ exists new_row,
       appointments (w_db w') = appointments (w_db w) ++ [new_row]
       /\ a_status new_row = confirmed
       /\ find (AppointmentPlugin.conflict_row (a_business_id new_row)
                  (a_start_time new_row) (a_end_time new_row))
            (appointments (w_db w)) = None
       /\ a_id new_row = appointments_seq (w_db w) + 1
       /\ appointments_seq (w_db w') = a_id new_row.
Proof.
  intros E.
  destruct (AppointmentPlugin._parse_datetime (bk_date data) (bk_time data))
    as [parsed |] eqn:Hp.
  2:{ rewrite process_unparsed in E by exact Hp. injection E as _ <-. auto. }
  destruct (AppointmentPlugin._get_service_duration config (bk_service data))
    as [duration | e] eqn:Hd.
  2:{ rewrite (process_duration_raises _ _ _ Hp _ _ Hd) in E.
      injection E as _ <-. auto. }
  destruct (AppointmentPlugin._is_within_business_hours config
              (Py.minutes_of parsed) (bk_business_id data)) eqn:Hw.
  2:{ rewrite (process_outside_hours _ _ _ Hp _ Hd _ Hw) in E.
      injection E as _ <-. auto. }
  destruct (find (AppointmentPlugin.conflict_row (bk_business_id data)
                    (Py.minutes_of parsed) (Py.minutes_of parsed + duration))
              (appointments (w_db w))) as [conflict |] eqn:Hf.
  - destruct (process_conflict _ _ _ Hp _ Hd Hw w conflict Hf)
      as ([alts | e] & log' & _ & _ & _ & _ & E');
      rewrite E' in E; injection E as _ <-; auto.
  - destruct (process_books _ _ _ Hp _ Hd Hw w Hf) as (text & notice & E').
    rewrite E' in E. injection E as _ <-. right.
    eexists. simpl. split; [reflexivity |]. split; [reflexivity |].
    split; [exact Hf |]. split; reflexivity.
Qed.

Lemma cancellation_appointments data w o w' :
  CancellationPlugin.process data w = (o, w') ->
  appointments_seq (w_db w') = appointments_seq (w_db w)
  /\ (appointments (w_db w') = appointments (w_db w)
      \/ exists id,
           appointments (w_db w')
           = CancellationPlugin.delete_by_id id (appointments (w_db w))).
Proof.
  unfold CancellationPlugin.process.
  destruct (cn_customer_name data) as [n |], (cn_phone data) as [p |];
    unfold_monad; try (intros [= _ <-]; auto; fail).
  destruct (negb _); [intros [= _ <-]; auto |].
  destruct (find _ _) as [row |]; intros [= _ <-]; simpl; eauto.
Qed.

Lemma order_appointments data w o w' :
  OrderPlugin.process data w = (o, w') ->
  appointments (w_db w') = appointments (w_db w).
Proof.
  unfold OrderPlugin.process, OrderPlugin._notify_business.
  destruct (negb _); unfold_monad; intros [= _ <-]; reflexivity.
Qed.

Lemma order_appointments_seq data w o w' :
  OrderPlugin.process data w = (o, w') ->
  appointments_seq (w_db w') = appointments_seq (w_db w).
Proof.
  unfold OrderPlugin.process, OrderPlugin._notify_business.
  destruct (negb _); unfold_monad; intros [= _ <-]; reflexivity.
Qed.

Lemma message_appointments_seq data w o w' :
  MessagePlugin.process data w = (o, w') ->
  appointments_seq (w_db w') = appointments_seq (w_db w).
Proof.
  unfold MessagePlugin.process, MessagePlugin._notify_business. unfold_monad.
  intros [= _ <-]. reflexivity.
Qed.

Lemma message_appointments data w o w' :
  MessagePlugin.process data w = (o, w') ->
  appointments (w_db w') = appointments (w_db w).
Proof.
  unfold MessagePlugin.process, MessagePlugin._notify_business. unfold_monad.
  intros [= _ <-]. reflexivity.
Qed.

Lemma booking_preserves config data w o w' :
  pairwise_compatible (appointments (w_db w)) ->
  AppointmentPlugin.process config data w = (o, w') ->
  pairwise_compatible (appointments (w_db w')).
Proof.
  intros HP E.
  destruct (process_appointments _ _ _ _ _ E) as [-> | (x & -> & Hs & Hf & _)];
    [exact HP |].
  apply pairwise_snoc; [exact HP |].
  apply List.Forall_forall. intros a Ha Hb Hsa _.
  apply conflict_row_false_no_overlap with (business_id := a_business_id x);
    auto.
  exact (find_none _ _ Hf a Ha).
Qed.

Lemma cancellation_preserves data w o w' :
  pairwise_compatible (appointments (w_db w)) ->
  CancellationPlugin.process data w = (o, w') ->
  pairwise_compatible (appointments (w_db w')).
Proof.
  intros HP E.
  destruct (cancellation_appointments _ _ _ _ E) as [_ [-> | (id & ->)]];
    [exact HP | apply pairwise_filter, HP].
Qed.

(** C1 (amended).  In every state of the appointment table reached from
    the empty database by bookings, cancellations, orders and messages that
    run one after the other, each handler finishing before the next starts,
    no two distinct confirmed rows of one business have overlapping
    half-open intervals; and each of the four operations, run alone on any
    table with this property, leaves a table with this property. *)
Theorem no_double_booking_invariant :
  (forall d, reachable d -> no_double_booking (appointments d))
  /\ (forall config data w o w',
        no_double_booking (appointments (w_db w)) ->
        AppointmentPlugin.process config data w = (o, w') ->
        no_double_booking (appointments (w_db w')))
  /\ (forall data w o w',
        no_double_booking (appointments (w_db w)) ->
        CancellationPlugin.process data w = (o, w') ->
        no_double_booking (appointments (w_db w')))
  /\ (forall data w o w',
        no_double_booking (appointments (w_db w)) ->
        OrderPlugin.process data w = (o, w') ->
        no_double_booking (appointments (w_db w')))
  /\ (forall data w o w',
        no_double_booking (appointments (w_db w)) ->
        MessagePlugin.process data w = (o, w') ->
        no_double_booking (appointments (w_db w'))).
Proof.
  split; [| split; [| split; [| split]]].
  - intros d H. apply pairwise_no_double_booking.
    induction H as [| config data w o w' _ IH E | data w o w' _ IH E
                    | data w o w' _ IH E | data w o w' _ IH E].
    + exact I.
    + eapply booking_preserves; eauto.
    + eapply cancellation_preserves; eauto.
    + rewrite (order_appointments _ _ _ _ E). exact IH.
    + rewrite (message_appointments _ _ _ _ E). exact IH.
  - intros config data w o w' H E. apply pairwise_no_double_booking.
    apply pairwise_no_double_booking in H. eapply booking_preserves; eauto.
  - intros data w o w' H E. apply pairwise_no_double_booking.
    apply pairwise_no_double_booking in H. eapply cancellation_preserves; eauto.
  - intros data w o w' H E. rewrite (order_appointments _ _ _ _ E). exact H.
  - intros data w o w' H E. rewrite (message_appointments _ _ _ _ E). exact H.
Qed.

Lemma no_double_booking_invariant_witness :
  let w := snd (AppointmentPlugin.process Examples.acme
                  (Examples.booking "2024-11-04" "10:00" "Cleaning")
                  Examples.fresh) in
  reachable (w_db w) /\ no_double_booking (appointments (w_db w)).
Proof.
  assert (R : reachable
                (w_db (snd (AppointmentPlugin.process Examples.acme
                              (Examples.booking "2024-11-04" "10:00" "Cleaning")
                              Examples.fresh)))).
  { eapply reach_booking with (w := Examples.fresh);
      [apply reach_init | apply surjective_pairing]. }
  split; [exact R | exact (proj1 no_double_booking_invariant _ R)].
Defined.

(** C1 as stated fails: the server answers requests in threads and
    nothing is held between the conflict query of a booking and its
    insert.  Two requests for overlapping half hours of one business, the
    second running both its statements between the two statements of the
    first, leave two confirmed rows in the table that overlap. *)
Lemma interleaved_bookings_overlap :
  exists t1' t2' w' a b,
    Race.run [Race.First; Race.Second; Race.Second; Race.First]
      Examples.ann_at_10_00 Examples.ann_at_10_15 Examples.fresh
    = Some (t1', t2', w')
    /\ appointments (w_db w') = [a; b]
    /\ a_business_id a = a_business_id b
    /\ a_status a = confirmed /\ a_status b = confirmed
    /\ intervals_overlap (a_start_time a) (a_end_time a)
         (a_start_time b) (a_end_time b)
    /\ ~ no_double_booking (appointments (w_db w')).
Proof.
  eexists _, _, _, _, _. split; [vm_compute; reflexivity |].
  split; [reflexivity |]. split; [reflexivity |].
  split; [reflexivity |]. split; [reflexivity |].
  split; [unfold intervals_overlap; vm_compute; split; reflexivity |].
  intros H.
  eapply (H 0%nat 1%nat); try reflexivity; [lia |].
  unfold intervals_overlap. vm_compute. split; reflexivity.
Qed.

(** ** The conflict test and half-open intervals *)

(** C4 (amended).  For a confirmed appointment of the business with a
    non-empty interval [s1 < e1] and a request of non-negative duration,
    the conflict query selects the row iff [s1 < e2] and [s2 < e1]; a
    request that starts exactly at the appointment's end is not selected;
    on a table whose confirmed rows of the business are all non-empty, the
    slot is reported taken iff some such row overlaps it; and the
    back-to-back booking is accepted: a request that parses, passes the
    hours gate, ends within the calendar and starts exactly at the end of
    a stored appointment, no confirmed row of the business overlapping it,
    is answered with success and its row is inserted. *)
Theorem conflict_test_half_open
    (business_id : string) (start_time duration : Z) :
  0 <= duration ->
  (forall a,
     a_business_id a = business_id -> a_status a = confirmed ->
     a_start_time a < a_end_time a ->
     (AppointmentPlugin.conflict_row business_id start_time
        (start_time + duration) a = true
      <-> intervals_overlap (a_start_time a) (a_end_time a)
            start_time (start_time + duration))
     /\ (a_end_time a = start_time ->
         AppointmentPlugin.conflict_row business_id start_time
           (start_time + duration) a = false))
  /\ (forall w,
        (forall a, In a (appointments (w_db w)) ->
           a_business_id a = business_id -> a_status a = confirmed ->
           a_start_time a < a_end_time a) ->
        (fst (AppointmentPlugin._check_availability start_time duration
                business_id w) = Ok (true, "")
         <-> ~ exists a, In a (appointments (w_db w))
               /\ a_business_id a = business_id /\ a_status a = confirmed
               /\ intervals_overlap (a_start_time a) (a_end_time a)
                    start_time (start_time + duration)))
  /\ (forall config data parsed w a,
        bk_business_id data = business_id ->
        AppointmentPlugin._parse_datetime (bk_date data) (bk_time data)
        = Some parsed ->
        Py.minutes_of parsed = start_time ->
        start_time + duration < max_minutes ->
        AppointmentPlugin._get_service_duration config (bk_service data)
        = Ok duration ->
        AppointmentPlugin._is_within_business_hours config start_time
          business_id = true ->
        (forall b, In b (appointments (w_db w)) ->
           a_business_id b = business_id -> a_status b = confirmed ->
           a_start_time b < a_end_time b) ->
        In a (appointments (w_db w)) ->
        a_business_id a = business_id -> a_status a = confirmed ->
        a_end_time a = start_time ->
        (forall b, In b (appointments (w_db w)) ->
           a_business_id b = business_id -> a_status b = confirmed ->
           ~ intervals_overlap (a_start_time b) (a_end_time b)
               start_time (start_time + duration)) ->
        exists r w' new_row,
          AppointmentPlugin.process config data w = (Ok r, w')
          /\ success r = true
          /\ appointment_id r
             = Some ("apt_" +:+ Py.str_int (appointments_seq (w_db w) + 1))
          /\ appointments (w_db w') = appointments (w_db w) ++ [new_row]
          /\ a_start_time new_row = a_end_time a
          /\ a_end_time new_row = start_time + duration
          /\ a_business_id new_row = business_id
          /\ a_status new_row = confirmed).
Proof.
  intros Hd.
  assert (Hrow : forall a,
    a_business_id a = business_id -> a_status a = confirmed ->
    a_start_time a < a_end_time a ->
    AppointmentPlugin.conflict_row business_id start_time
      (start_time + duration) a = true ->
    intervals_overlap (a_start_time a) (a_end_time a)
      start_time (start_time + duration)).
  { intros a Hb Hs Hne H. unfold AppointmentPlugin.conflict_row in H.
    rewrite Hs, <- Hb, String.eqb_refl in H. simpl in H.
    unfold intervals_overlap.
    repeat match type of H with
           | (_ || _) = true => apply orb_true_iff in H; destruct H as [H | H]
           end;
      apply andb_true_iff in H as [H1 H2];
      rewrite ?Z.ltb_lt, ?Z.leb_le in H1, H2; lia. }
  split; [| split].
  - intros a Hb Hs Hne. split.
    + split; [apply Hrow; auto | apply overlap_conflict_row; auto].
    + intros He.
      destruct (AppointmentPlugin.conflict_row business_id start_time
                  (start_time + duration) a) eqn:E; [| reflexivity].
      apply Hrow in E; auto. unfold intervals_overlap in E. lia.
  - intros w Hrows. rewrite check_availability_eq. simpl. split.
    + destruct (find _ _) eqn:E; [discriminate |].
      intros _ (a & Ha & Hb & Hs & Ho).
      pose proof (find_none _ _ E a Ha) as F.
      rewrite (overlap_conflict_row _ _ _ _ Hb Hs Ho) in F. discriminate.
    + intros Hno. destruct (find _ _) as [a |] eqn:E; [| reflexivity].
      exfalso. apply Hno. apply find_some in E as [Ha E]. exists a.
      assert (Hb : a_business_id a = business_id).
      { unfold AppointmentPlugin.conflict_row in E.
        apply andb_true_iff in E as [E _]. apply andb_true_iff in E as [E _].
        apply String.eqb_eq in E. exact E. }
      assert (Hs : a_status a = confirmed).
      { unfold AppointmentPlugin.conflict_row in E.
        apply andb_true_iff in E as [E _]. apply andb_true_iff in E as [_ E].
        destruct (a_status a); [reflexivity | discriminate]. }
      repeat split; auto; apply Hrow; auto.
  - intros config data parsed w a Hbid Hp Hst _ Hdur Hw Hrows Ha Hab Has Hend Hfree.
    subst start_time business_id.
    assert (Hf : find (AppointmentPlugin.conflict_row (bk_business_id data)
                         (Py.minutes_of parsed)
                         (Py.minutes_of parsed + duration))
                   (appointments (w_db w)) = None).
    { destruct (find _ _) as [b |] eqn:E; [| reflexivity]. exfalso.
      apply find_some in E as [Hb E].
      assert (Hbb : a_business_id b = bk_business_id data).
      { unfold AppointmentPlugin.conflict_row in E.
        apply andb_true_iff in E as [E _]. apply andb_true_iff in E as [E _].
        apply String.eqb_eq in E. exact E. }
      assert (Hbs : a_status b = confirmed).
      { unfold AppointmentPlugin.conflict_row in E.
        apply andb_true_iff in E as [E _]. apply andb_true_iff in E as [_ E].
        destruct (a_status b); [reflexivity | discriminate]. }
      apply (Hfree b Hb Hbb Hbs). apply Hrow; auto. }
    destruct (process_books config data parsed Hp duration Hdur Hw w Hf)
      as (text & notice & P).
    eexists _, _, _. split; [exact P |]. simpl.
    repeat split; auto.
Qed.

Lemma conflict_test_half_open_witness :
  let a := Examples.row 1 "acme" (Examples.at_ 4 10 0) (Examples.at_ 4 10 30) in
  0 <= 30
  /\ AppointmentPlugin.conflict_row "acme" (Examples.at_ 4 10 30)
       (Examples.at_ 4 10 30 + 30) a = false
  /\ exists r w' new_row,
       AppointmentPlugin.process Examples.acme
         (Examples.booking "2024-11-04" "10:30" "Cleaning")
         (Examples.store [a])
       = (Ok r, w')
       /\ success r = true
       /\ appointment_id r = Some "apt_2"
       /\ appointments (w_db w') = [a; new_row]
       /\ a_start_time new_row = a_end_time a.
Proof.
  intros a. split; [lia |].
  pose proof (conflict_test_half_open "acme" (Examples.at_ 4 10 30) 30
                ltac:(lia)) as (H1 & _ & H3).
  split.
  - apply (H1 a); [reflexivity | reflexivity | vm_compute; reflexivity
                   | reflexivity].
  - destruct (H3 Examples.acme
                (Examples.booking "2024-11-04" "10:30" "Cleaning")
                (Py.mk_datetime (Py.mk_date 2024 11 4) (Py.mk_time 10 30 0 0))
                (Examples.store [a]) a)
      as (r & w' & new_row & P & Hs & Hid & Happ & Hst & _).
    + reflexivity.
    + vm_compute. reflexivity.
    + reflexivity.
    + vm_compute. reflexivity.
    + vm_compute. reflexivity.
    + vm_compute. reflexivity.
    + intros b [<- | []] _ _. vm_compute. reflexivity.
    + left. reflexivity.
    + reflexivity.
    + reflexivity.
    + reflexivity.
    + intros b [<- | []] _ _. unfold intervals_overlap. vm_compute.
      intros [_ H]. discriminate H.
    + exists r, w', new_row. repeat split; assumption.
Defined.

(** C4 as stated fails for an appointment of zero length.  "Quick
    question" is listed with duration 0; once booked on Monday at 10:00 it
    occupies [[10:00, 10:00)].  A 30-minute request for 10:00 starts exactly
    at that appointment's end and does not overlap it, yet the third
    disjunct of the query selects the row and the request is refused. *)
Lemma zero_length_row_conflicts :
  let w1 := snd (AppointmentPlugin.process Examples.acme
                   (Examples.booking "2024-11-04" "10:00" "Quick question")
                   Examples.fresh) in
  let s2 := Examples.at_ 4 10 0 in
  exists a,
    appointments (w_db w1) = [a]
    /\ a_status a = confirmed /\ a_business_id a = "acme"
    /\ a_end_time a = s2
    /\ ~ intervals_overlap (a_start_time a) (a_end_time a) s2 (s2 + 30)
    /\ AppointmentPlugin.conflict_row "acme" s2 (s2 + 30) a = true
    /\ exists r,
         fst (AppointmentPlugin.process Examples.acme
                (Examples.booking "2024-11-04" "10:00" "Cleaning") w1) = Ok r
         /\ success r = false /\ action r = Some "suggest_alternatives".
Proof.
  eexists. split; [vm_compute; reflexivity |].
  split; [reflexivity |]. split; [reflexivity |]. split; [vm_compute; reflexivity |].
  split; [unfold intervals_overlap; vm_compute; intros [_ H]; discriminate H |].
  split; [vm_compute; reflexivity |].
  eexists. split; [vm_compute; reflexivity |]. split; reflexivity.
Qed.
(** ** Booking into a taken slot *)



(** ** Instants and datetimes *)



(** ** The business-hours gate *)



(** ** Hours strings that do not parse *)

(** C7.  When the hours entry of the day is a string that reaches the
    parser (it is neither empty nor ['closed']) and fails to parse, the
    after-hours resolver answers "open" with an empty message and the
    scheduling hours check answers "within hours"; both return these
    values, no exception leaves them. *)
Theorem hours_parse_failure_fails_open (config : BusinessConfig) (h : string) :
  closed_entry (Some h) = false ->
  parse_hours h = None ->
  (forall now,
     business_hours config
       !! Py.lower (Py.day_name (Py.weekday (Py.dt_date now))) = Some h ->
     AfterHoursHandler.is_after_hours config now = (false, ""))
  /\ (forall t business_id,
        business_hours config !! day_key (date_of t) = Some h ->
        AppointmentPlugin._is_within_business_hours config t business_id = true).
Proof.
  intros Hc Hp. split.
  - intros now Hh. unfold AfterHoursHandler.is_after_hours.
    rewrite Hh, Hc, Hp. reflexivity.
  - intros t business_id Hh. unfold AppointmentPlugin._is_within_business_hours.
    rewrite Hh, Hc, Hp. reflexivity.
Qed.

Lemma hours_parse_failure_fails_open_witness :
  closed_entry (Some "9am to 5pm") = false
  /\ parse_hours "9am to 5pm" = None
  /\ AfterHoursHandler.is_after_hours Examples.acme_typo
       (Py.mk_datetime (Py.mk_date 2024 11 4) (Py.mk_time 23 30 15 0))
     = (false, "")
  /\ AppointmentPlugin._is_within_business_hours Examples.acme_typo
       (Examples.at_ 4 3 0) "acme" = true.
Proof.
  split; [reflexivity |]. split; [vm_compute; reflexivity |].
  destruct (hours_parse_failure_fails_open Examples.acme_typo "9am to 5pm")
    as [H1 H2]; [reflexivity | vm_compute; reflexivity |].
  split; [apply H1 | apply H2]; vm_compute; reflexivity.
Defined.

(** ** Cancellation *)

(** With identifiers that are unique, as the PRIMARY KEY makes them,
    deleting by the identifier of the first match removes that row and no
    other. *)
Lemma delete_first_match (p : appointment -> bool) rows row :
  List.NoDup (map a_id rows) ->
  find p rows = Some row ->
  CancellationPlugin.delete_by_id (a_id row) rows = remove_first p rows.
Proof.
  unfold CancellationPlugin.delete_by_id.
  induction rows as [| x rows IH]; simpl; intros ND Hf; [discriminate |].
  apply List.NoDup_cons_iff in ND as [Hx ND].
  assert (Hkeep : forall l, ~ In (a_id x) (map a_id l) ->
            List.filter (fun a => negb (a_id a =? a_id x)) l = l).
  { induction l as [| y l IHl]; simpl; intros Hn; [reflexivity |].
    destruct (Z.eqb_spec (a_id y) (a_id x)) as [E | E]; simpl.
    - exfalso. apply Hn. left. exact E.
    - f_equal. apply IHl. intros H. apply Hn. right. exact H. }
  destruct (p x) eqn:Hp.
  - injection Hf as <-. rewrite Z.eqb_refl. simpl. apply Hkeep, Hx.
  - destruct (Z.eqb_spec (a_id x) (a_id row)) as [E | E]; simpl.
    + exfalso. apply Hx. rewrite E. apply in_map. apply (find_some _ _ Hf).
    + f_equal. apply IH; auto.
Qed.

(** In every reachable table the identifiers are distinct and none is
    above the AUTOINCREMENT counter. *)
Lemma reachable_ids_unique d :
  reachable d ->
  List.NoDup (map a_id (appointments d))
  /\ Forall (fun a => a_id a <= appointments_seq d) (appointments d).
Proof.
  induction 1 as [| config data w o w' _ IH E | data w o w' _ IH E
                  | data w o w' _ IH E | data w o w' _ IH E].
  - split; constructor.
  - destruct (process_appointments _ _ _ _ _ E)
      as [-> | (x & -> & _ & _ & Hid & ->)]; [exact IH |].
    destruct IH as [ND HF]. split.
    + rewrite map_app. simpl. apply List.NoDup_app; [exact ND | |].
      * constructor; [intros [] | constructor].
      * intros i Hi [<- | []]. apply in_map_iff in Hi as (a & Ha & Hin).
        rewrite List.Forall_forall in HF. specialize (HF a Hin). lia.
    + apply List.Forall_app. split; [| constructor; [lia | constructor]].
      eapply List.Forall_impl; [| exact HF]. simpl. intros a Ha. lia.
  - destruct IH as [ND HF].
    destruct (cancellation_appointments _ _ _ _ E) as [-> [-> | (id & ->)]];
      [split; assumption |].
    unfold CancellationPlugin.delete_by_id. split.
    + clear HF. induction (appointments (w_db w)) as [| a l IHl]; simpl;
        [constructor |].
      apply List.NoDup_cons_iff in ND as [Ha ND].
      destruct (negb (a_id a =? id)); simpl; [| auto].
      apply List.NoDup_cons_iff. split; [| auto].
      intros Hin. apply Ha.
      apply in_map_iff in Hin as (b & Hb & Hin). apply filter_In in Hin as [Hin _].
      rewrite <- Hb. apply in_map. exact Hin.
    + apply List.Forall_forall. intros a Ha. apply filter_In in Ha as [Ha _].
      rewrite List.Forall_forall in HF. auto.
  - rewrite (order_appointments _ _ _ _ E), (order_appointments_seq _ _ _ _ E).
    exact IH.
  - rewrite (message_appointments _ _ _ _ E), (message_appointments_seq _ _ _ _ E).
    exact IH.
Qed.

(** The WHERE clause of the lookup selects the rows that hold the name and
    the phone of the request. *)
Lemma customer_row_spec name phone a :
  CancellationPlugin.customer_row name phone a = true
  <-> a_customer_name a = Some name /\ a_phone a = Some phone.
Proof.
  unfold CancellationPlugin.customer_row.
  destruct (a_customer_name a) as [n |], (a_phone a) as [p |];
    try (split; [discriminate | intros [? ?]; discriminate]).
  rewrite andb_true_iff, !String.eqb_eq. split.
  - intros [-> ->]. auto.
  - intros [[= ->] [= ->]]. auto.
Qed.

Lemma find_first {A} (p : A -> bool) before x after :
  (forall b, In b before -> p b = false) -> p x = true ->
  find p (before ++ x :: after) = Some x
  /\ remove_first p (before ++ x :: after) = before ++ after.
Proof.
  induction before as [| b before IH]; simpl; intros Hb Hx.
  - rewrite Hx. auto.
  - rewrite (Hb b (or_introl eq_refl)).
    destruct IH as [-> ->]; auto.
Qed.

(** C9.  A cancellation request without a name or without a phone (absent
    or empty) is answered with [success: false] and the validation message,
    the database untouched.  With both present: when no stored row holds
    that name and that phone the answer is [success: false] with the
    not-found message and every table is as before; when some row holds
    them, the first such row in the table is deleted, the rows before it
    and after it stay as they are, and the answer is [success: true] with
    a confirmation that prints the request's own [start_time] value,
    whatever the deleted row holds. *)
Theorem cancellation_behaviour (data : cancel_data) (w : world) :
  (Py.truthy (cn_customer_name data) && Py.truthy (cn_phone data) = false ->
   CancellationPlugin.process data w = (Ok (reply false missing_details), w))
  /\ (forall name phone,
        cn_customer_name data = Some name -> cn_phone data = Some phone ->
        Py.truthy (cn_customer_name data) && Py.truthy (cn_phone data) = true ->
        ((forall a, In a (appointments (w_db w)) ->
            ~ (a_customer_name a = Some name /\ a_phone a = Some phone)) ->
         exists w',
           CancellationPlugin.process data w = (Ok (reply false no_match), w')
           /\ w_db w' = w_db w
           /\ length (appointments (w_db w')) = length (appointments (w_db w)))
        /\ (forall before row after,
              appointments (w_db w) = before ++ row :: after ->
              a_customer_name row = Some name -> a_phone row = Some phone ->
              (forall b, In b before ->
                 ~ (a_customer_name b = Some name /\ a_phone b = Some phone)) ->
              List.NoDup (map a_id (appointments (w_db w))) ->
              exists w',
                CancellationPlugin.process data w
                = (Ok (reply true
                         ("Your appointment at "
                          +:+ Py.str (cn_start_time data)
                          +:+ " has been canceled successfully.")), w')
                /\ appointments (w_db w') = before ++ after
                /\ appointments_seq (w_db w') = appointments_seq (w_db w)
                /\ orders (w_db w') = orders (w_db w)
                /\ messages (w_db w') = messages (w_db w))).
Proof.
  split.
  - intros H. unfold CancellationPlugin.process.
    destruct (cn_customer_name data) as [n |], (cn_phone data) as [p |];
      try reflexivity.
    rewrite H. reflexivity.
  - intros name phone Hn Hp Ht. unfold CancellationPlugin.process.
    rewrite Hn, Hp in *. rewrite Ht. cbn [negb]. unfold_monad. split.
    + intros Hnone.
      destruct (find _ _) as [row |] eqn:Hf.
      * apply find_some in Hf as [Hin Hrow].
        apply customer_row_spec in Hrow. destruct (Hnone row Hin Hrow).
      * eexists. split; [reflexivity |]. split; reflexivity.
    + intros before row after Hrows Hrn Hrp Hbefore ND.
      destruct (find_first (CancellationPlugin.customer_row name phone)
                  before row after) as [Hfind Hrem].
      { intros b Hb.
        destruct (CancellationPlugin.customer_row name phone b) eqn:E;
          [| reflexivity].
        apply customer_row_spec in E. destruct (Hbefore b Hb E). }
      { apply customer_row_spec. auto. }
      rewrite <- Hrows in Hfind, Hrem. rewrite Hfind.
      eexists. split; [reflexivity |]. simpl.
      split; [| repeat split].
      rewrite <- Hrem. apply delete_first_match; assumption.
Qed.

(** Bob Ray cancels: the appointment of Cara Moss, which comes first in
    the table, stays; of Bob's two appointments the first goes.  Asked on a
    table that holds Cara's appointment only, nothing is found. *)
Lemma cancellation_behaviour_witness :
  let cara := Examples.row_for "Cara Moss" "555-0142" 1 "acme"
                (Examples.at_ 4 9 0) (Examples.at_ 4 9 30) in
  let bob1 := Examples.row 2 "acme" (Examples.at_ 4 10 0) (Examples.at_ 4 10 30) in
  let bob2 := Examples.row 3 "globex" (Examples.at_ 5 9 0) (Examples.at_ 5 9 30) in
  let data := mk_cancel_data (Some "Bob Ray") (Some "555-0199")
                (Some "next Friday") in
  (exists w',
     CancellationPlugin.process data (Examples.store [cara; bob1; bob2])
     = (Ok (reply true
              "Your appointment at next Friday has been canceled successfully."),
        w')
     /\ appointments (w_db w') = [cara; bob2])
  /\ (exists w',
        CancellationPlugin.process data (Examples.store [cara])
        = (Ok (reply false no_match), w')
        /\ appointments (w_db w') = [cara]).
Proof.
  intros cara bob1 bob2 data. split.
  - destruct (proj2 (proj2 (cancellation_behaviour data
                              (Examples.store [cara; bob1; bob2]))
                       "Bob Ray" "555-0199" eq_refl eq_refl eq_refl)
                [cara] bob1 [bob2])
      as (w' & E & Hrows & _).
    + reflexivity.
    + reflexivity.
    + reflexivity.
    + intros b [<- | []] [H _]. discriminate H.
    + simpl. repeat (constructor; [simpl; intros H; intuition discriminate |]).
      constructor.
    + exists w'. split; [exact E | exact Hrows].
  - destruct (proj1 (proj2 (cancellation_behaviour data (Examples.store [cara]))
                       "Bob Ray" "555-0199" eq_refl eq_refl eq_refl))
      as (w' & E & Hdb & _).
    + intros a [<- | []] [H _]. discriminate H.
    + exists w'. split; [exact E |]. rewrite Hdb. reflexivity.
Defined.

(** ** A booking without a service *)

(** C10 (amended).  For a booking request whose date and time parse and
    whose service is absent: when the service catalogue of the business
    has at least one entry, duration lookup raises on [None.lower()], the
    handler returns no result and the database is untouched; when the
    catalogue is empty the loop body never runs and the duration is the
    default of 30 minutes. *)
Theorem booking_without_service
    (config : BusinessConfig) (data : booking_data) (w : world)
    (parsed : Py.datetime) :
  AppointmentPlugin._parse_datetime (bk_date data) (bk_time data) = Some parsed ->
  bk_service data = None ->
  (appointment_types config <> [] ->
   AppointmentPlugin.process config data w = (Raise none_has_no_lower, w))
  /\ (appointment_types config = [] ->
      AppointmentPlugin._get_service_duration config (bk_service data) = Ok 30).
Proof.
  intros Hp Hs. split.
  - intros Hne. apply (process_duration_raises config data parsed Hp).
    rewrite Hs. unfold AppointmentPlugin._get_service_duration.
    destruct (appointment_types config); [congruence | reflexivity].
  - intros He. unfold AppointmentPlugin._get_service_duration.
    rewrite He. reflexivity.
Qed.

Lemma booking_without_service_witness :
  AppointmentPlugin.process Examples.acme
    (Examples.booking_no_service "2024-11-04" "10:00") Examples.fresh
  = (Raise none_has_no_lower, Examples.fresh).
Proof.
  apply (proj1 (booking_without_service Examples.acme
                  (Examples.booking_no_service "2024-11-04" "10:00")
                  Examples.fresh
                  (Py.mk_datetime (Py.mk_date 2024 11 4) (Py.mk_time 10 0 0 0))
                  ltac:(vm_compute; reflexivity) eq_refl)).
  discriminate.
Defined.

(** C10 as stated fails for a business with an empty catalogue: the
    request without a service is booked like any other. *)
Lemma booking_without_service_succeeds :
  exists r w',
    AppointmentPlugin.process Examples.acme_no_catalogue
      (Examples.booking_no_service "2024-11-04" "10:00") Examples.fresh
    = (Ok r, w')
    /\ success r = true
    /\ appointment_id r = Some "apt_1"
    /\ map (fun a => (a_start_time a, a_end_time a)) (appointments (w_db w'))
       = [(Examples.at_ 4 10 0, Examples.at_ 4 10 0 + 30)].
Proof.
  eexists _, _. split; [vm_compute; reflexivity |].
  split; [reflexivity |]. split; [reflexivity |]. vm_compute. reflexivity.
Qed.

(** ** Bookings that race *)

Section Threads.
Variable config : BusinessConfig.
Variable data : booking_data.
Variable parsed : Py.datetime.
Variable duration : Z.
Hypothesis Hparsed :
  AppointmentPlugin._parse_datetime (bk_date data) (bk_time data) = Some parsed.
Hypothesis Hduration :
  AppointmentPlugin._get_service_duration config (bk_service data) = Ok duration.
Hypothesis Hwithin :
  AppointmentPlugin._is_within_business_hours config (Py.minutes_of parsed)
    (bk_business_id data) = true.

(** The thread of a request that passed the gates makes the statements
    [process] makes: run alone, it is rejected when [process] refuses (by
    offering alternatives, or by the error of their search) and it books
    the row [process] books. *)
Lemma thread_matches_process (other : Race.thread) (w : world) :
  let t := Race.mk_thread data (Py.minutes_of parsed) duration Race.AtCheck in
  exists o w',
    AppointmentPlugin.process config data w = (o, w')
    /\ (((forall r, o = Ok r -> success r = false) /\ w_db w' = w_db w
         /\ exists w1,
              Race.run [Race.First] t other w
              = Some (Race.at_pc t Race.Rejected, other, w1)
              /\ w_db w1 = w_db w)
        \/ (exists r id w2,
              o = Ok r /\ success r = true
              /\ appointment_id r = Some id
              /\ Race.run [Race.First; Race.First] t other w
                 = Some (Race.at_pc t (Race.Booked id), other, w2)
              /\ w_db w2 = w_db w')).
Proof.
  intros t.
  destruct (find (AppointmentPlugin.conflict_row (bk_business_id data)
                    (Py.minutes_of parsed) (Py.minutes_of parsed + duration))
              (appointments (w_db w))) as [conflict |] eqn:Hf.
  - destruct (process_conflict config data parsed Hparsed duration Hduration
                Hwithin w conflict Hf) as (found & log' & _ & _ & _ & P).
    assert (R : exists w1,
              Race.run [Race.First] t other w
              = Some (Race.at_pc t Race.Rejected, other, w1)
              /\ w_db w1 = w_db w).
    { simpl. unfold Race.step_thread. simpl.
      rewrite check_availability_eq, Hf. eexists. split; reflexivity. }
    destruct found as [alts | e]; destruct P as [_ P];
      (eexists _, _; split; [exact P |]; left;
       split; [| split; [reflexivity | exact R]]).
    + intros r [= <-]. reflexivity.
    + discriminate.
  - destruct (process_books config data parsed Hparsed duration Hduration
                Hwithin w Hf) as (text & notice & P).
    eexists _, _. split; [exact P |]. right. simpl.
    unfold Race.step_thread. simpl. rewrite check_availability_eq, Hf. simpl.
    eexists _, _, _. split; [reflexivity |]. split; [reflexivity |].
    split; [reflexivity |]. split; reflexivity.
Qed.

End Threads.

(** A thread that is booked has put its row in the table. *)
Lemma step_thread_db t w t' w' :
  Race.step_thread t w = Some (t', w') ->
  Race.th_data t' = Race.th_data t /\ Race.th_start t' = Race.th_start t
  /\ Race.th_duration t' = Race.th_duration t
  /\ match Race.th_pc t, Race.th_pc t' with
     | Race.AtCheck, Race.AtBook =>
         w_db w' = w_db w
         /\ find (AppointmentPlugin.conflict_row
                    (bk_business_id (Race.th_data t)) (Race.th_start t)
                    (Race.th_start t + Race.th_duration t))
              (appointments (w_db w)) = None
     | Race.AtCheck, Race.Rejected => w_db w' = w_db w
     | Race.AtBook, Race.Booked _ =>
         exists a,
           appointments (w_db w') = appointments (w_db w) ++ [a]
           /\ a_business_id a = bk_business_id (Race.th_data t)
           /\ a_status a = confirmed
           /\ a_start_time a = Race.th_start t
           /\ a_end_time a = Race.th_start t + Race.th_duration t
     | _, _ => False
     end.
Proof.
  unfold Race.step_thread. destruct (Race.th_pc t) eqn:Hpc.
  - rewrite check_availability_eq.
    destruct (find _ _) eqn:Hf; intros [= <- <-]; simpl; auto.
  - unfold AppointmentPlugin._book_appointment. unfold_monad.
    intros [= <- <-]. simpl. repeat split; auto.
    eexists. split; [reflexivity |]. simpl. auto.
  - discriminate.
  - discriminate.
Qed.

(** C3 (amended).  The conflict check and the insert of a booking are two
    separate statements with nothing held between them.  When two requests
    for overlapping intervals of one business are served one after the
    other, every statement of the first before any statement of the second,
    they are not both booked.  Nothing is promised for statements that
    interleave. *)
Theorem serial_bookings_exclusive
    (t1 t2 t1' t2' : Race.thread) (w w' : world)
    (schedule1 schedule2 : list Race.who) :
  Race.th_pc t1 = Race.AtCheck -> Race.th_pc t2 = Race.AtCheck ->
  bk_business_id (Race.th_data t1) = bk_business_id (Race.th_data t2) ->
  intervals_overlap (Race.th_start t1) (Race.th_start t1 + Race.th_duration t1)
    (Race.th_start t2) (Race.th_start t2 + Race.th_duration t2) ->
  Forall (fun x => x = Race.First) schedule1 ->
  Forall (fun x => x = Race.Second) schedule2 ->
  Race.run (schedule1 ++ schedule2) t1 t2 w = Some (t1', t2', w') ->
  ~ (Race.is_booked t1' = true /\ Race.is_booked t2' = true).
Proof.
  intros Hpc1 Hpc2 Hb Ho HS1 HS2 Hrun [B1 B2].
  (* the second request does not move during the first schedule, and the
     first does not move during the second *)
  assert (Hfirst : forall s, Forall (fun x => x = Race.First) s ->
            forall a b v a' b' v',
              Race.run s a b v = Some (a', b', v') -> b' = b).
  { induction s as [| x s IH]; intros HF a b v a' b' v' R; simpl in R.
    - congruence.
    - apply List.Forall_cons_iff in HF as [-> HF].
      destruct (Race.step_thread a v) as [[a1 v1] |]; [| discriminate].
      eapply IH; eauto. }
  assert (Hsecond : forall s, Forall (fun x => x = Race.Second) s ->
            forall a b v a' b' v',
              Race.run s a b v = Some (a', b', v') -> a' = a).
  { induction s as [| x s IH]; intros HF a b v a' b' v' R; simpl in R.
    - congruence.
    - apply List.Forall_cons_iff in HF as [-> HF].
      destruct (Race.step_thread b v) as [[b1 v1] |]; [| discriminate].
      eapply IH; eauto. }
  assert (Hsplit : forall s1 s2 a b v,
            Race.run (s1 ++ s2) a b v
            = match Race.run s1 a b v with
              | Some (a1, b1, v1) => Race.run s2 a1 b1 v1
              | None => None
              end).
  { induction s1 as [| x s1 IH]; intros s2 a b v; simpl; [reflexivity |].
    destruct x.
    - destruct (Race.step_thread a v) as [[a1 v1] |]; [apply IH | reflexivity].
    - destruct (Race.step_thread b v) as [[b1 v1] |]; [apply IH | reflexivity]. }
  rewrite Hsplit in Hrun.
  destruct (Race.run schedule1 t1 t2 w) as [[[u1 u2] v] |] eqn:R1;
    [| discriminate].
  pose proof (Hfirst _ HS1 _ _ _ _ _ _ R1) as ->.
  pose proof (Hsecond _ HS2 _ _ _ _ _ _ Hrun) as ->.
  (* the first request is booked after its two statements *)
  assert (Hrow : exists a,
            In a (appointments (w_db v))
            /\ a_business_id a = bk_business_id (Race.th_data t1)
            /\ a_status a = confirmed
            /\ a_start_time a = Race.th_start t1
            /\ a_end_time a = Race.th_start t1 + Race.th_duration t1).
  { clear Hrun HS2 Hsplit Hsecond Hfirst B2.
    destruct schedule1 as [| x1 s]; simpl in R1.
    { assert (u1 = t1) as -> by congruence. unfold Race.is_booked in B1.
      rewrite Hpc1 in B1. discriminate. }
    apply List.Forall_cons_iff in HS1 as [-> HS1].
    destruct (Race.step_thread t1 w) as [[a1 v1] |] eqn:S1; [| discriminate].
    apply step_thread_db in S1 as (Hd1 & Hs1 & Hu1 & S1). rewrite Hpc1 in S1.
    destruct (Race.th_pc a1) eqn:Hpa1; try contradiction.
    2:{ (* rejected: no further statement *)
        destruct s as [| x2 s]; simpl in R1.
        - assert (u1 = a1) as -> by congruence. unfold Race.is_booked in B1.
          rewrite Hpa1 in B1. discriminate.
        - apply List.Forall_cons_iff in HS1 as [-> HS1].
          unfold Race.step_thread in R1. rewrite Hpa1 in R1. discriminate. }
    destruct s as [| x2 s]; simpl in R1.
    { assert (u1 = a1) as -> by congruence. unfold Race.is_booked in B1.
      rewrite Hpa1 in B1. discriminate. }
    apply List.Forall_cons_iff in HS1 as [-> HS1].
    destruct (Race.step_thread a1 v1) as [[a2 v2] |] eqn:S2; [| discriminate].
    apply step_thread_db in S2 as (Hd2 & Hs2 & Hu2 & S2). rewrite Hpa1 in S2.
    destruct (Race.th_pc a2) eqn:Hpa2; try contradiction.
    destruct S2 as (a & Happ & Hab & Has & Hst & Hen).
    destruct s as [| x3 s]; simpl in R1.
    - assert (v = v2) as -> by congruence. exists a. rewrite Happ.
      split; [apply in_or_app; right; left; reflexivity |].
      rewrite Hd1, Hs1, Hu1 in *. auto.
    - apply List.Forall_cons_iff in HS1 as [-> HS1].
      unfold Race.step_thread in R1. rewrite Hpa2 in R1. discriminate. }
  destruct Hrow as (a & Hin & Hab & Has & Hst & Hen).
  (* so the conflict query of the second request finds a row *)
  clear R1 HS1 Hsplit Hsecond Hfirst B1.
  destruct schedule2 as [| x1 s]; simpl in Hrun.
  { assert (t2' = t2) as -> by congruence. unfold Race.is_booked in B2.
    rewrite Hpc2 in B2. discriminate. }
  apply List.Forall_cons_iff in HS2 as [-> HS2].
  unfold Race.step_thread at 1 in Hrun. rewrite Hpc2 in Hrun.
  rewrite check_availability_eq in Hrun.
  destruct (find _ _) as [conflict |] eqn:Hf.
  - destruct s as [| x2 s]; simpl in Hrun.
    + assert (t2' = Race.at_pc t2 Race.Rejected) as -> by congruence.
      discriminate B2.
    + apply List.Forall_cons_iff in HS2 as [-> HS2].
      unfold Race.step_thread in Hrun. simpl in Hrun. discriminate.
  - pose proof (find_none _ _ Hf a Hin) as F.
    rewrite overlap_conflict_row in F; [discriminate | congruence | assumption |].
    rewrite Hst, Hen. exact Ho.
Qed.

Lemma serial_bookings_exclusive_witness :
  exists t1' t2' w',
    Race.run [Race.First; Race.First; Race.Second]
      Examples.ann_at_10_00 Examples.ann_at_10_15 Examples.fresh
    = Some (t1', t2', w')
    /\ ~ (Race.is_booked t1' = true /\ Race.is_booked t2' = true).
Proof.
  eexists _, _, _. split; [vm_compute; reflexivity |].
  eapply (serial_bookings_exclusive Examples.ann_at_10_00 Examples.ann_at_10_15
            _ _ Examples.fresh _ [Race.First; Race.First] [Race.Second]).
  - reflexivity.
  - reflexivity.
  - reflexivity.
  - unfold intervals_overlap. vm_compute. split; reflexivity.
  - repeat constructor.
  - repeat constructor.
  - vm_compute. reflexivity.
Defined.

(** C3 as stated fails: the sequence is not atomic.  When both requests
    run their conflict query before either inserts, both find the slot free
    and both are booked; the table then holds two overlapping confirmed
    rows of the business. *)
Lemma race_double_booking :
  exists t1' t2' w',
    Race.run [Race.First; Race.Second; Race.First; Race.Second]
      Examples.ann_at_10_00 Examples.ann_at_10_15 Examples.fresh
    = Some (t1', t2', w')
    /\ Race.is_booked t1' = true /\ Race.is_booked t2' = true
    /\ bk_business_id (Race.th_data Examples.ann_at_10_00)
       = bk_business_id (Race.th_data Examples.ann_at_10_15)
    /\ intervals_overlap
         (Race.th_start Examples.ann_at_10_00)
         (Race.th_start Examples.ann_at_10_00
          + Race.th_duration Examples.ann_at_10_00)
         (Race.th_start Examples.ann_at_10_15)
         (Race.th_start Examples.ann_at_10_15
          + Race.th_duration Examples.ann_at_10_15)
    /\ ~ no_double_booking (appointments (w_db w')).
Proof.
  eexists _, _, _. split; [vm_compute; reflexivity |].
  split; [reflexivity |]. split; [reflexivity |]. split; [reflexivity |].
  split; [unfold intervals_overlap; vm_compute; split; reflexivity |].
  intros H.
  eapply (H 0%nat 1%nat); try reflexivity; [lia |].
  unfold intervals_overlap. vm_compute. split; reflexivity.
Qed.

(** ** Formatting and re-parsing dates and times

    The date patterns are followed through the matcher token by token,
    with the year kept symbolic; the time patterns are checked on all 1440
    minutes of the day. *)

Lemma try_alts_hit {A} (k : string -> string -> option A) alts s m r x :
  first_hit alts s = Some (m, r) -> k m r = Some x ->
  Py.try_alts k alts s = Some x.
Proof.
  induction alts as [| al alts IH]; simpl; [discriminate |].
  destruct (Py.match_alt al s) as [[m' r'] |].
  - intros [= -> ->] ->. reflexivity.
  - auto.
Qed.

Lemma small_cases (P : Z -> Prop) (lo hi : Z) :
  Forall P (map (fun k => lo + Z.of_nat k) (seq 0 (Z.to_nat (hi - lo + 1)))) ->
  forall v, lo <= v <= hi -> P v.
Proof.
  intros H v Hv. rewrite List.Forall_forall in H. apply H.
  apply in_map_iff. exists (Z.to_nat (v - lo)). split; [lia |].
  apply in_seq. lia.
Qed.

Lemma month_hit m s :
  1 <= m <= 12 ->
  first_hit (Py.dir_alts Py.dm) (Py.zfill 2 m +:+ s) = Some (Py.zfill 2 m, s).
Proof.
  revert m. apply (small_cases _ 1 12). simpl. repeat constructor.
Qed.

Lemma day_hit d s :
  1 <= d <= 31 ->
  first_hit (Py.dir_alts Py.dd) (Py.zfill 2 d +:+ s) = Some (Py.zfill 2 d, s).
Proof.
  revert d. apply (small_cases _ 1 31). simpl. repeat constructor.
Qed.

Lemma Bname_hit m s :
  1 <= m <= 12 ->
  first_hit (Py.dir_alts Py.dB) (Py.month_name m +:+ s) = Some (Py.month_name m, s).
Proof.
  revert m. apply (small_cases _ 1 12). simpl. repeat constructor.
Qed.

Lemma bname_hit m s :
  1 <= m <= 12 ->
  first_hit (Py.dir_alts Py.db) (Py.abbr (Py.month_name m) +:+ s)
  = Some (Py.abbr (Py.month_name m), s).
Proof.
  revert m. apply (small_cases _ 1 12). simpl. repeat constructor.
Qed.

Lemma digit_char_facts k :
  0 <= k <= 9 ->
  Py.is_digit (Py.digit_char k) = true
  /\ Py.is_space (Py.digit_char k) = false
  /\ Py.digit_val (Py.digit_char k) = k.
Proof.
  revert k. apply (small_cases _ 0 9). simpl. repeat constructor.
Qed.

Lemma zfill4_eq y :
  Py.zfill 4 y
  = String (Py.digit_char (y / 10 / 10 / 10 mod 10))
      (String (Py.digit_char (y / 10 / 10 mod 10))
         (String (Py.digit_char (y / 10 mod 10))
            (String (Py.digit_char (y mod 10)) ""))).
Proof. reflexivity. Qed.

Lemma year_hit y s :
  first_hit (Py.dir_alts Py.dY) (Py.zfill 4 y +:+ s) = Some (Py.zfill 4 y, s).
Proof.
  rewrite zfill4_eq. cbv beta iota fix delta [String.append].
  cbn [Py.dir_alts first_hit Py.match_alt Py.cclass_mem].
  repeat match goal with
  | |- context [Py.is_digit (Py.digit_char (?v mod 10))] =>
      rewrite (proj1 (digit_char_facts (v mod 10)
                        ltac:(pose proof (Z.mod_pos_bound v 10); lia)))
  end.
  reflexivity.
Qed.

Lemma int_zfill4 y : 0 <= y <= 9999 -> Py.int (Py.zfill 4 y) = y.
Proof.
  intros Hy. rewrite zfill4_eq. unfold Py.int, Py.strip.
  assert (F : forall v, Py.is_space (Py.digit_char (v mod 10)) = false
                        /\ Py.digit_val (Py.digit_char (v mod 10)) = v mod 10).
  { intros v. apply digit_char_facts. pose proof (Z.mod_pos_bound v 10). lia. }
  cbn [Py.lstrip]. rewrite (proj1 (F _)).
  cbn [Py.rstrip]. rewrite !(proj1 (F _)).
  cbn [Py.int_digits]. rewrite !(proj2 (F _)).
  pose proof (Z.div_mod y 10). pose proof (Z.div_mod (y / 10) 10).
  pose proof (Z.div_mod (y / 10 / 10) 10).
  pose proof (Z.div_mod (y / 10 / 10 / 10) 10).
  pose proof (Z.mod_pos_bound y 10). pose proof (Z.mod_pos_bound (y / 10) 10).
  pose proof (Z.mod_pos_bound (y / 10 / 10) 10).
  pose proof (Z.mod_pos_bound (y / 10 / 10 / 10) 10).
  assert (y / 10 / 10 / 10 / 10 = 0) by (rewrite !Z.div_div by lia; apply Z.div_small; lia).
  lia.
Qed.

Lemma small_cases_b (f : Z -> bool) (lo hi : Z) :
  forallb f (map (fun k => lo + Z.of_nat k) (seq 0 (Z.to_nat (hi - lo + 1))))
  = true ->
  forall v, lo <= v <= hi -> f v = true.
Proof.
  intros H v Hv. rewrite forallb_forall in H. apply H.
  apply in_map_iff. exists (Z.to_nat (v - lo)). split; [lia |].
  apply in_seq. lia.
Qed.

Lemma int_zfill2 v : 0 <= v <= 99 -> Py.int (Py.zfill 2 v) = v.
Proof.
  intros Hv. apply Z.eqb_eq. revert v Hv.
  apply (small_cases_b (fun v => Py.int (Py.zfill 2 v) =? v) 0 99).
  vm_compute. reflexivity.
Qed.

Lemma index_Bname m :
  1 <= m <= 12 ->
  Py.index1 (Py.lower (Py.month_name m)) (map Py.lower Py.month_names) = m.
Proof.
  intros Hm. apply Z.eqb_eq. revert m Hm.
  apply (small_cases_b
           (fun m => Py.index1 (Py.lower (Py.month_name m))
                       (map Py.lower Py.month_names) =? m) 1 12).
  vm_compute. reflexivity.
Qed.

Lemma index_bname m :
  1 <= m <= 12 ->
  Py.index1 (Py.lower (Py.abbr (Py.month_name m)))
    (map (fun n => Py.lower (Py.abbr n)) Py.month_names) = m.
Proof.
  intros Hm. apply Z.eqb_eq. revert m Hm.
  apply (small_cases_b
           (fun m => Py.index1 (Py.lower (Py.abbr (Py.month_name m)))
                       (map (fun n => Py.lower (Py.abbr n)) Py.month_names)
                     =? m) 1 12).
  vm_compute. reflexivity.
Qed.

Lemma re_match_lit c ts s :
  Py.re_match (Py.TLit c :: ts) (String c s) = Py.re_match ts s.
Proof.
  cbn [Py.re_match Py.cclass_mem]. rewrite Ascii.eqb_refl. reflexivity.
Qed.

Lemma re_match_space ts s :
  starts_solid s = true ->
  Py.re_match (Py.TSpace :: ts) (String " " s) = Py.re_match ts s.
Proof.
  destruct s as [| a s]; [discriminate |]. simpl starts_solid. intros H.
  apply negb_true_iff in H. cbn [Py.re_match Py.spaces_then].
  change (Py.is_space " ") with true. cbv iota. rewrite H. reflexivity.
Qed.

Lemma re_match_dir d ts p s g rest :
  first_hit (Py.dir_alts d) (p +:+ s) = Some (p, s) ->
  Py.re_match ts s = Some (g, rest) ->
  Py.re_match (Py.TDir d :: ts) (p +:+ s) = Some ((d, p) :: g, rest).
Proof.
  intros H1 H2. cbn [Py.re_match].
  eapply try_alts_hit; [exact H1 | rewrite H2; reflexivity].
Qed.

Lemma lstrip_solid s : starts_solid s = true -> Py.lstrip s = s.
Proof.
  destruct s as [| a s]; [discriminate |]. simpl. intros H.
  apply negb_true_iff in H. rewrite H. reflexivity.
Qed.

Lemma rfixed_cons a q : rfixed q -> rfixed (String a q).
Proof.
  intros [Hne E]. split; [discriminate |]. cbn [Py.rstrip]. rewrite E.
  destruct q; [congruence | reflexivity].
Qed.

Lemma rfixed_app s q : rfixed q -> rfixed (s +:+ q).
Proof.
  intros H. induction s as [| a s IH]; [exact H |].
  apply (rfixed_cons a _ IH).
Qed.

Lemma rfixed_solid_char a : Py.is_space a = false -> rfixed (String a "").
Proof. intros H. split; [discriminate |]. cbn [Py.rstrip]. rewrite H. reflexivity. Qed.

Lemma zfill_S n v :
  Py.zfill (S n) v = Py.zfill n (v / 10) +:+ String (Py.digit_char (v mod 10)) "".
Proof. reflexivity. Qed.

Lemma rfixed_zfill n v : rfixed (Py.zfill (S n) v +:+ "").
Proof.
  rewrite zfill_S.
  replace ((Py.zfill n (v / 10) +:+ String (Py.digit_char (v mod 10)) "") +:+ "")
    with (Py.zfill n (v / 10) +:+ String (Py.digit_char (v mod 10)) "").
  - apply rfixed_app, rfixed_solid_char.
    apply digit_char_facts. pose proof (Z.mod_pos_bound v 10). lia.
  - generalize (Py.zfill n (v / 10)). intros s.
    induction s as [| a s IH]; [reflexivity |].
    change (String a (s +:+ String (Py.digit_char (v mod 10)) "")
            = String a ((s +:+ String (Py.digit_char (v mod 10)) "") +:+ "")).
    rewrite <- IH. reflexivity.
Qed.

Lemma starts_solid_zfill4 y s : starts_solid (Py.zfill 4 y +:+ s) = true.
Proof.
  rewrite zfill4_eq. cbv beta iota fix delta [String.append]. simpl starts_solid.
  apply negb_true_iff, digit_char_facts.
  pose proof (Z.mod_pos_bound (y / 10 / 10 / 10) 10). lia.
Qed.

Lemma starts_solid_zfill2 v s : starts_solid (Py.zfill 2 v +:+ s) = true.
Proof.
  change (Py.zfill 2 v +:+ s)
    with (String (Py.digit_char (v / 10 mod 10))
            (String (Py.digit_char (v mod 10)) s)).
  simpl starts_solid. apply negb_true_iff, digit_char_facts.
  pose proof (Z.mod_pos_bound (v / 10) 10). lia.
Qed.

Lemma starts_solid_Bname m s :
  1 <= m <= 12 -> starts_solid (Py.month_name m +:+ s) = true.
Proof. revert m. apply (small_cases _ 1 12). simpl. repeat constructor. Qed.

Lemma starts_solid_bname m s :
  1 <= m <= 12 -> starts_solid (Py.abbr (Py.month_name m) +:+ s) = true.
Proof. revert m. apply (small_cases _ 1 12). simpl. repeat constructor. Qed.

Ltac solid :=
  first [ apply starts_solid_zfill4 | apply starts_solid_zfill2
        | apply starts_solid_Bname; lia | apply starts_solid_bname; lia ].

Ltac hit :=
  first [ apply year_hit | apply month_hit; lia | apply day_hit; lia
        | apply Bname_hit; lia | apply bname_hit; lia ].

Ltac chain :=
  repeat first [ rewrite re_match_lit
               | rewrite re_match_space by solid
               | eapply re_match_dir; [hit |] ];
  reflexivity.

Ltac stripped :=
  unfold Py.strip; rewrite lstrip_solid by solid;
  refine (proj2 _);
  repeat first [ apply rfixed_zfill | apply rfixed_cons | apply rfixed_app ].

Lemma strptime_miss s fmt ts :
  Py.compile fmt = Some ts -> Py.re_match ts s = None ->
  Py.strptime s fmt = None.
Proof. unfold Py.strptime. intros -> ->. reflexivity. Qed.

Lemma year_miss_sep ts v sep rest :
  Py.is_digit sep = false ->
  Py.re_match (Py.TDir Py.dY :: ts) (Py.zfill 2 v +:+ String sep rest) = None.
Proof.
  intros H.
  change (Py.zfill 2 v +:+ String sep rest)
    with (String (Py.digit_char (v / 10 mod 10))
            (String (Py.digit_char (v mod 10)) (String sep rest))).
  cbn [Py.re_match Py.try_alts Py.dir_alts Py.match_alt Py.cclass_mem].
  rewrite H. clear H.
  destruct (Py.is_digit _); [| reflexivity].
  destruct (Py.is_digit _); reflexivity.
Qed.

Lemma month_slash_miss_dash ts v rest :
  1 <= v <= 12 ->
  Py.re_match (Py.TDir Py.dm :: Py.TLit "/" :: ts)
    (Py.zfill 2 v +:+ String "-" rest) = None.
Proof. revert v. apply (small_cases _ 1 12). simpl. repeat constructor. Qed.

Lemma year_miss_name ts v rest :
  1 <= v <= 12 ->
  Py.re_match (Py.TDir Py.dY :: ts) (Py.month_name v +:+ rest) = None
  /\ Py.re_match (Py.TDir Py.dm :: ts) (Py.month_name v +:+ rest) = None
  /\ Py.re_match (Py.TDir Py.dY :: ts) (Py.abbr (Py.month_name v) +:+ rest) = None
  /\ Py.re_match (Py.TDir Py.dm :: ts) (Py.abbr (Py.month_name v) +:+ rest) = None.
Proof. revert v. apply (small_cases _ 1 12). simpl. repeat constructor. Qed.

Lemma Bname_miss_abbr ts v rest :
  1 <= v <= 12 -> v <> 5 ->
  Py.re_match (Py.TDir Py.dB :: ts)
    (Py.abbr (Py.month_name v) +:+ String " " rest) = None.
Proof.
  revert v.
  apply (small_cases
           (fun v => v <> 5 ->
              Py.re_match (Py.TDir Py.dB :: ts)
                (Py.abbr (Py.month_name v) +:+ String " " rest) = None) 1 12).
  match goal with
  | |- Forall ?P ?l => let l' := eval vm_compute in l in change (Forall P l')
  end.
  repeat (constructor;
          [first [ intros H; exfalso; apply H; reflexivity
                 | intros _; reflexivity ] |]).
  constructor.
Qed.

Section DateFormats.
Variables y m dd : Z.
Hypothesis Hvalid : Py.valid_date y m dd = true.

Lemma valid_ranges : 1 <= y <= 9999 /\ 1 <= m <= 12 /\ 1 <= dd <= 31.
Proof.
  unfold Py.valid_date in Hvalid.
  repeat (apply andb_true_iff in Hvalid; destruct Hvalid as [Hvalid ?]).
  repeat match goal with H : (_ <=? _) = true |- _ => apply Z.leb_le in H end.
  assert (Py.days_in_month y m <= 31).
  { unfold Py.days_in_month.
    destruct (m =? 2); [destruct (Py.is_leap y); lia |].
    destruct ((m =? 4) || (m =? 6) || (m =? 9) || (m =? 11)); lia. }
  lia.
Qed.

Let Hy := proj1 valid_ranges.
Let Hm := proj1 (proj2 valid_ranges).
Let Hd := proj2 (proj2 valid_ranges).

Ltac finish_parse :=
  cbn [Py.convert Py.dt_date Py.dt_time Py.year Py.month Py.day
       Py.hour Py.minute Py.second Py.microsecond];
  rewrite ?int_zfill4, ?int_zfill2, ?index_Bname, ?index_bname by lia;
  rewrite Hvalid; reflexivity.

Lemma parse1 : Py.strptime (date_text1 y m dd) "%Y-%m-%d" = Some (the_date y m dd).
Proof.
  unfold Py.strptime.
  change (Py.compile "%Y-%m-%d")
    with (Some [Py.TDir Py.dY; Py.TLit "-"; Py.TDir Py.dm; Py.TLit "-";
                Py.TDir Py.dd]).
  cbv beta iota.
  assert (E : Py.re_match
                [Py.TDir Py.dY; Py.TLit "-"; Py.TDir Py.dm; Py.TLit "-";
                 Py.TDir Py.dd] (date_text1 y m dd)
              = Some ([(Py.dY, Py.zfill 4 y); (Py.dm, Py.zfill 2 m);
                       (Py.dd, Py.zfill 2 dd)], ""))
    by (unfold date_text1; chain).
  rewrite E. finish_parse.
Qed.

Lemma parse2 : Py.strptime (date_text2 y m dd) "%m/%d/%Y" = Some (the_date y m dd).
Proof.
  unfold Py.strptime.
  change (Py.compile "%m/%d/%Y")
    with (Some [Py.TDir Py.dm; Py.TLit "/"; Py.TDir Py.dd; Py.TLit "/";
                Py.TDir Py.dY]).
  cbv beta iota.
  assert (E : Py.re_match
                [Py.TDir Py.dm; Py.TLit "/"; Py.TDir Py.dd; Py.TLit "/";
                 Py.TDir Py.dY] (date_text2 y m dd)
              = Some ([(Py.dm, Py.zfill 2 m); (Py.dd, Py.zfill 2 dd);
                       (Py.dY, Py.zfill 4 y)], ""))
    by (unfold date_text2; chain).
  rewrite E. finish_parse.
Qed.

Lemma parse3 : Py.strptime (date_text3 y m dd) "%m-%d-%Y" = Some (the_date y m dd).
Proof.
  unfold Py.strptime.
  change (Py.compile "%m-%d-%Y")
    with (Some [Py.TDir Py.dm; Py.TLit "-"; Py.TDir Py.dd; Py.TLit "-";
                Py.TDir Py.dY]).
  cbv beta iota.
  assert (E : Py.re_match
                [Py.TDir Py.dm; Py.TLit "-"; Py.TDir Py.dd; Py.TLit "-";
                 Py.TDir Py.dY] (date_text3 y m dd)
              = Some ([(Py.dm, Py.zfill 2 m); (Py.dd, Py.zfill 2 dd);
                       (Py.dY, Py.zfill 4 y)], ""))
    by (unfold date_text3; chain).
  rewrite E. finish_parse.
Qed.

Lemma parse4 : Py.strptime (date_text4 y m dd) "%B %d, %Y" = Some (the_date y m dd).
Proof.
  unfold Py.strptime.
  change (Py.compile "%B %d, %Y")
    with (Some [Py.TDir Py.dB; Py.TSpace; Py.TDir Py.dd; Py.TLit ",";
                Py.TSpace; Py.TDir Py.dY]).
  cbv beta iota.
  assert (E : Py.re_match
                [Py.TDir Py.dB; Py.TSpace; Py.TDir Py.dd; Py.TLit ",";
                 Py.TSpace; Py.TDir Py.dY] (date_text4 y m dd)
              = Some ([(Py.dB, Py.month_name m); (Py.dd, Py.zfill 2 dd);
                       (Py.dY, Py.zfill 4 y)], ""))
    by (unfold date_text4; chain).
  rewrite E. finish_parse.
Qed.

Lemma parse5 : Py.strptime (date_text5 y m dd) "%b %d, %Y" = Some (the_date y m dd).
Proof.
  unfold Py.strptime.
  change (Py.compile "%b %d, %Y")
    with (Some [Py.TDir Py.db; Py.TSpace; Py.TDir Py.dd; Py.TLit ",";
                Py.TSpace; Py.TDir Py.dY]).
  cbv beta iota.
  assert (E : Py.re_match
                [Py.TDir Py.db; Py.TSpace; Py.TDir Py.dd; Py.TLit ",";
                 Py.TSpace; Py.TDir Py.dY] (date_text5 y m dd)
              = Some ([(Py.db, Py.abbr (Py.month_name m)); (Py.dd, Py.zfill 2 dd);
                       (Py.dY, Py.zfill 4 y)], ""))
    by (unfold date_text5; chain).
  rewrite E. finish_parse.
Qed.

Lemma strip1 : Py.strip (date_text1 y m dd) = (date_text1 y m dd).
Proof. unfold date_text1. stripped. Qed.
Lemma strip2 : Py.strip (date_text2 y m dd) = (date_text2 y m dd).
Proof. unfold date_text2. stripped. Qed.
Lemma strip3 : Py.strip (date_text3 y m dd) = (date_text3 y m dd).
Proof. unfold date_text3. stripped. Qed.
Lemma strip4 : Py.strip (date_text4 y m dd) = (date_text4 y m dd).
Proof. unfold date_text4. stripped. Qed.
Lemma strip5 : Py.strip (date_text5 y m dd) = (date_text5 y m dd).
Proof. unfold date_text5. stripped. Qed.

Ltac miss :=
  erewrite strptime_miss;
  [ | reflexivity
    | first [ apply year_miss_sep; reflexivity
            | apply month_slash_miss_dash; lia
            | apply (year_miss_name _ m _ Hm)
            | apply Bname_miss_abbr; [lia | assumption] ] ].

Lemma cascade1 :
  AppointmentPlugin.first_format (date_text1 y m dd) AppointmentPlugin.date_formats
  = Some (the_date y m dd).
Proof.
  cbn [AppointmentPlugin.first_format AppointmentPlugin.date_formats].
  rewrite strip1, parse1. reflexivity.
Qed.

Lemma cascade2 :
  AppointmentPlugin.first_format (date_text2 y m dd) AppointmentPlugin.date_formats
  = Some (the_date y m dd).
Proof.
  cbn [AppointmentPlugin.first_format AppointmentPlugin.date_formats].
  rewrite strip2. unfold date_text2 at 1. miss. rewrite parse2. reflexivity.
Qed.

Lemma cascade3 :
  AppointmentPlugin.first_format (date_text3 y m dd) AppointmentPlugin.date_formats
  = Some (the_date y m dd).
Proof.
  cbn [AppointmentPlugin.first_format AppointmentPlugin.date_formats].
  rewrite strip3. unfold date_text3 at 1. miss. unfold date_text3 at 1. miss.
  rewrite parse3. reflexivity.
Qed.

Lemma cascade4 :
  AppointmentPlugin.first_format (date_text4 y m dd) AppointmentPlugin.date_formats
  = Some (the_date y m dd).
Proof.
  cbn [AppointmentPlugin.first_format AppointmentPlugin.date_formats].
  rewrite strip4. unfold date_text4 at 1. miss. unfold date_text4 at 1. miss.
  unfold date_text4 at 1. miss. rewrite parse4. reflexivity.
Qed.

Lemma cascade5 :
  AppointmentPlugin.first_format (date_text5 y m dd) AppointmentPlugin.date_formats
  = Some (the_date y m dd).
Proof.
  cbn [AppointmentPlugin.first_format AppointmentPlugin.date_formats].
  rewrite strip5. unfold date_text5 at 1. miss. unfold date_text5 at 1. miss.
  unfold date_text5 at 1. miss.
  destruct (Z.eq_dec m 5) as [E5 | N5].
  - (* "May" is its own abbreviation: the full-name format parses it *)
    replace (date_text5 y m dd) with (date_text4 y m dd) by (unfold date_text4, date_text5; rewrite E5; reflexivity).
    rewrite parse4. reflexivity.
  - unfold date_text5 at 1. miss. rewrite parse5. reflexivity.
Qed.

End DateFormats.

(** A year of four digits is printed as it is read: no filling is
    needed. *)
Lemma str_int_four_digits y :
  1000 <= y <= 9999 -> Py.str_int y = Py.zfill 4 y.
Proof.
  intros Hy. apply String.eqb_eq. revert y Hy.
  apply (small_cases_b (fun y => String.eqb (Py.str_int y) (Py.zfill 4 y))).
  vm_compute. reflexivity.
Qed.

Lemma strftime_dates y m dd t :
  1000 <= y <= 9999 ->
  let d := Py.mk_datetime (Py.mk_date y m dd) t in
  Py.strftime "%Y-%m-%d" d = date_text1 y m dd
  /\ Py.strftime "%m/%d/%Y" d = date_text2 y m dd
  /\ Py.strftime "%m-%d-%Y" d = date_text3 y m dd
  /\ Py.strftime "%B %d, %Y" d = date_text4 y m dd
  /\ Py.strftime "%b %d, %Y" d = date_text5 y m dd.
Proof.
  intros Hy d. unfold date_text1, date_text2, date_text3, date_text4,
    date_text5. rewrite <- (str_int_four_digits y Hy).
  repeat split.
Qed.

Lemma strftime_time tf dat h mi s us :
  In tf AppointmentPlugin.time_formats ->
  Py.strftime tf (Py.mk_datetime dat (Py.mk_time h mi s us)) = time_text tf h mi.
Proof.
  simpl. intros [<- | [<- | [<- | [<- | [<- | []]]]]]; reflexivity.
Qed.

Lemma time_eqb_eq a b : time_eqb a b = true -> a = b.
Proof.
  unfold time_eqb. destruct a, b. simpl. intros H.
  repeat (apply andb_true_iff in H; destruct H as [H ?]).
  repeat match goal with H : (_ =? _) = true |- _ => apply Z.eqb_eq in H end.
  congruence.
Qed.

Lemma all_times_round_trip :
  forallb (fun tf =>
    forallb (fun h => forallb (time_round_trip_ok tf h) (range 0 59))
      (range 0 23)) AppointmentPlugin.time_formats = true.
Proof. vm_compute. reflexivity. Qed.

Lemma time_cascade tf h mi :
  In tf AppointmentPlugin.time_formats -> 0 <= h <= 23 -> 0 <= mi <= 59 ->
  exists p,
    AppointmentPlugin.first_format (time_text tf h mi)
      AppointmentPlugin.time_formats = Some p
    /\ Py.dt_time p = Py.mk_time h (if prints_minutes tf then mi else 0) 0 0.
Proof.
  intros Htf Hh Hmi.
  pose proof all_times_round_trip as A.
  rewrite forallb_forall in A. specialize (A tf Htf).
  pose proof (small_cases_b _ 0 23 A h Hh) as B. cbv beta in B.
  pose proof (small_cases_b _ 0 59 B mi Hmi) as C.
  unfold time_round_trip_ok in C.
  destruct (AppointmentPlugin.first_format _ _) as [p |]; [| discriminate].
  exists p. split; [reflexivity | apply time_eqb_eq, C].
Qed.

(** C8 (amended).  For every valid calendar date of a year from 1000 on
    and every time of day, every supported date pattern and every
    supported time pattern, formatting the instant in the two patterns and
    re-parsing the two texts yields the instant cut down to what the time
    pattern prints: the date, the hour, and the minute unless the pattern
    is one of the two hour-only ones; seconds are never printed.  So the
    original instant comes back exactly when it has no seconds and, for
    the hour-only patterns, no minutes. *)
Theorem parse_datetime_round_trip (df tf : string) (d : Py.datetime) :
  In df AppointmentPlugin.date_formats ->
  In tf AppointmentPlugin.time_formats ->
  Py.valid_date (Py.year (Py.dt_date d)) (Py.month (Py.dt_date d))
    (Py.day (Py.dt_date d)) = true ->
  1000 <= Py.year (Py.dt_date d) ->
  0 <= Py.hour (Py.dt_time d) <= 23 ->
  0 <= Py.minute (Py.dt_time d) <= 59 ->
  AppointmentPlugin._parse_datetime (Some (Py.strftime df d))
    (Some (Py.strftime tf d))
  = Some (Py.mk_datetime (Py.dt_date d)
            (Py.mk_time (Py.hour (Py.dt_time d))
               (if prints_minutes tf then Py.minute (Py.dt_time d) else 0)
               0 0))
  /\ (Py.second (Py.dt_time d) = 0 -> Py.microsecond (Py.dt_time d) = 0 ->
      (prints_minutes tf = false -> Py.minute (Py.dt_time d) = 0) ->
      AppointmentPlugin._parse_datetime (Some (Py.strftime df d))
        (Some (Py.strftime tf d)) = Some d)
  /\ (AppointmentPlugin._parse_datetime (Some (Py.strftime df d))
        (Some (Py.strftime tf d)) = Some d ->
      Py.second (Py.dt_time d) = 0 /\ Py.microsecond (Py.dt_time d) = 0
      /\ (prints_minutes tf = false -> Py.minute (Py.dt_time d) = 0)).
Proof.
  destruct d as [[y m dd] [h mi s us]].
  cbn [Py.dt_date Py.dt_time Py.year Py.month Py.day Py.hour Py.minute
       Py.second Py.microsecond].
  intros Hdf Htf Hv Hy Hh Hmi.
  assert (Hy' : 1000 <= y <= 9999).
  { split; [exact Hy |]. unfold Py.valid_date in Hv.
    repeat (apply andb_true_iff in Hv; destruct Hv as [Hv ?]).
    repeat match goal with H : (_ <=? _) = true |- _ => apply Z.leb_le in H end.
    assumption. }
  assert (P : AppointmentPlugin._parse_datetime
                (Some (Py.strftime df (Py.mk_datetime (Py.mk_date y m dd)
                                         (Py.mk_time h mi s us))))
                (Some (Py.strftime tf (Py.mk_datetime (Py.mk_date y m dd)
                                         (Py.mk_time h mi s us))))
              = Some (Py.mk_datetime (Py.mk_date y m dd)
                        (Py.mk_time h (if prints_minutes tf then mi else 0)
                           0 0))).
  { unfold AppointmentPlugin._parse_datetime.
    assert (D : AppointmentPlugin.first_format
                  (Py.strftime df (Py.mk_datetime (Py.mk_date y m dd)
                                     (Py.mk_time h mi s us)))
                  AppointmentPlugin.date_formats
                = Some (the_date y m dd)).
    { destruct (strftime_dates y m dd (Py.mk_time h mi s us) Hy')
        as (E1 & E2 & E3 & E4 & E5).
      destruct Hdf as [<- | [<- | [<- | [<- | [<- | []]]]]].
      - rewrite E1. apply cascade1, Hv.
      - rewrite E2. apply cascade2, Hv.
      - rewrite E3. apply cascade3, Hv.
      - rewrite E4. apply cascade4, Hv.
      - rewrite E5. apply cascade5, Hv. }
    rewrite D. rewrite (strftime_time tf _ h mi s us Htf).
    destruct (time_cascade tf h mi Htf Hh Hmi) as (p & -> & Hp).
    unfold Py.combine, the_date. simpl Py.dt_date. rewrite Hp. reflexivity. }
  split; [exact P |]. split.
  - intros -> -> Hkeep. rewrite P.
    destruct (prints_minutes tf); [reflexivity |].
    rewrite Hkeep; reflexivity.
  - rewrite P. intros [= Emi <- <-]. split; [reflexivity |].
    split; [reflexivity |]. intros E. rewrite E in Emi. auto.
Qed.

Lemma parse_datetime_round_trip_witness :
  let d := Py.mk_datetime (Py.mk_date 2024 2 29) (Py.mk_time 14 30 0 0) in
  Py.strftime "%b %d, %Y" d = "Feb 29, 2024"
  /\ Py.strftime "%I:%M%p" d = "02:30PM"
  /\ AppointmentPlugin._parse_datetime (Some "Feb 29, 2024") (Some "02:30PM")
     = Some d.
Proof.
  intros d. split; [reflexivity |]. split; [reflexivity |].
  apply (proj1 (proj2 (parse_datetime_round_trip "%b %d, %Y" "%I:%M%p" d
                  ltac:(simpl; tauto) ltac:(simpl; tauto) eq_refl
                  ltac:(simpl; lia) ltac:(simpl; lia) ltac:(simpl; lia))));
    [reflexivity | reflexivity | discriminate].
Defined.

(** C8 as stated fails in two ways.  The hour-only time patterns print no
    minutes: 14:30 is printed as "02 PM" and comes back as 14:00.  And a
    year below 1000 is printed with fewer than the four digits the parser
    asks for: 5 January 999 is printed as "999-01-05", which no date
    pattern reads. *)
Lemma hour_only_pattern_drops_minutes :
  (let d := Py.mk_datetime (Py.mk_date 2024 11 5) (Py.mk_time 14 30 0 0) in
   In "%Y-%m-%d" AppointmentPlugin.date_formats
   /\ In "%I %p" AppointmentPlugin.time_formats
   /\ Py.strftime "%I %p" d = "02 PM"
   /\ AppointmentPlugin._parse_datetime (Some (Py.strftime "%Y-%m-%d" d))
        (Some (Py.strftime "%I %p" d))
      = Some (Py.mk_datetime (Py.mk_date 2024 11 5) (Py.mk_time 14 0 0 0))
   /\ AppointmentPlugin._parse_datetime (Some (Py.strftime "%Y-%m-%d" d))
        (Some (Py.strftime "%I %p" d)) <> Some d)
  /\ (let d := Py.mk_datetime (Py.mk_date 999 1 5) (Py.mk_time 14 30 0 0) in
      Py.valid_date 999 1 5 = true
      /\ In "%H:%M" AppointmentPlugin.time_formats
      /\ Py.strftime "%Y-%m-%d" d = "999-01-05"
      /\ Py.strftime "%H:%M" d = "14:30"
      /\ AppointmentPlugin._parse_datetime (Some (Py.strftime "%Y-%m-%d" d))
           (Some (Py.strftime "%H:%M" d)) = None).
Proof.
  split.
  - intros d. split; [simpl; tauto |]. split; [simpl; tauto |].
    split; [reflexivity |]. split; [vm_compute; reflexivity |].
    vm_compute. discriminate.
  - intros d. split; [reflexivity |]. split; [simpl; tauto |].
    split; [reflexivity |]. split; [reflexivity |].
    vm_compute. reflexivity.
Qed.

(** ** Minutes and calendar dates

    [_format_datetime] turns the scheduler's minutes back into a calendar
    date.  The conversion is checked on the 400 years of one Gregorian
    cycle and carried to all years by the period of 146097 days. *)

Lemma cycle_dates_back :
  forallb (fun y => forallb (fun m => forallb (date_back_ok y m) (range 1 31))
                      (range 1 12)) (range 1 400) = true.
Proof. vm_compute. reflexivity. Qed.

Lemma is_leap_period y k : Py.is_leap (y + 400 * k) = Py.is_leap y.
Proof.
  unfold Py.is_leap.
  replace (y + 400 * k) with (y + (100 * k) * 4) at 1 by lia.
  replace (y + 400 * k) with (y + (4 * k) * 100) at 1 by lia.
  replace (y + 400 * k) with (y + k * 400) by lia.
  rewrite !Z_mod_plus_full. reflexivity.
Qed.

Lemma days_in_month_period y k m :
  Py.days_in_month (y + 400 * k) m = Py.days_in_month y m.
Proof. unfold Py.days_in_month. rewrite is_leap_period. reflexivity. Qed.

Lemma ymd2ord_period y k m d :
  Py.ymd2ord (y + 400 * k) m d = Py.ymd2ord y m d + 146097 * k.
Proof.
  unfold Py.ymd2ord, Py.days_before_year, Py.days_before_month.
  assert (E : forall n, Py.days_before_month_nat (y + 400 * k) n
                        = Py.days_before_month_nat y n).
  { induction n as [| n IH]; [reflexivity |].
    cbn [Py.days_before_month_nat]. rewrite IH, days_in_month_period.
    reflexivity. }
  rewrite E. cbv zeta.
  replace (y + 400 * k - 1) with (y - 1 + (100 * k) * 4) at 2 by lia.
  replace (y + 400 * k - 1) with (y - 1 + (4 * k) * 100) at 2 by lia.
  replace (y + 400 * k - 1) with (y - 1 + k * 400) at 2 by lia.
  rewrite !Z.div_add by lia. lia.
Qed.

Lemma ord2ymd_period n k :
  Py.ord2ymd (n + 146097 * k)
  = let '(y, m, d) := Py.ord2ymd n in (y + 400 * k, m, d).
Proof.
  unfold Py.ord2ymd. cbv zeta.
  replace (n + 146097 * k - 1) with (n - 1 + k * 146097) by lia.
  rewrite Z.div_add, Z_mod_plus_full by lia.
  set (r := (n - 1) mod 146097).
  destruct ((r mod 36524 mod 1461 / 365 =? 4) || (r / 36524 =? 4));
    [f_equal; f_equal; lia |].
  match goal with
  | |- (if ?c then _ else _) = _ => destruct c
  end; f_equal; f_equal; lia.
Qed.

Lemma ord2ymd_ymd2ord y m d :
  Py.valid_date y m d = true -> Py.ord2ymd (Py.ymd2ord y m d) = (y, m, d).
Proof.
  intros Hv.
  set (k := (y - 1) / 400). set (y0 := (y - 1) mod 400 + 1).
  assert (Ey : y = y0 + 400 * k)
    by (unfold y0, k; pose proof (Z.div_mod (y - 1) 400); lia).
  assert (Hy0 : 1 <= y0 <= 400)
    by (unfold y0; pose proof (Z.mod_pos_bound (y - 1) 400); lia).
  clearbody y0 k.
  assert (Hv0 : Py.valid_date y0 m d = true /\ 1 <= m <= 12 /\ 1 <= d <= 31).
  { unfold Py.valid_date in *. rewrite Ey, days_in_month_period in Hv.
    repeat (apply andb_true_iff in Hv; destruct Hv as [Hv ?]).
    repeat match goal with H : (_ <=? _) = true |- _ => apply Z.leb_le in H end.
    assert (Py.days_in_month y0 m <= 31).
    { unfold Py.days_in_month.
      destruct (m =? 2); [destruct (Py.is_leap y0); lia |].
      destruct ((m =? 4) || (m =? 6) || (m =? 9) || (m =? 11)); lia. }
    split; [| lia].
    repeat (apply andb_true_iff; split); apply Z.leb_le; lia. }
  destruct Hv0 as (Hv0 & Hm & Hd).
  pose proof cycle_dates_back as C.
  pose proof (small_cases_b _ 1 400 C y0 Hy0) as C1. cbv beta in C1.
  pose proof (small_cases_b _ 1 12 C1 m Hm) as C2. cbv beta in C2.
  pose proof (small_cases_b _ 1 31 C2 d Hd) as C3.
  unfold date_back_ok in C3. rewrite Hv0 in C3. simpl in C3.
  rewrite Ey at 1. rewrite ymd2ord_period, ord2ymd_period.
  destruct (Py.ord2ymd (Py.ymd2ord y0 m d)) as [[y' m'] d'].
  repeat (apply andb_true_iff in C3; destruct C3 as [C3 ?]).
  repeat match goal with H : (_ =? _) = true |- _ => apply Z.eqb_eq in H end.
  subst y' m' d'. rewrite <- Ey. reflexivity.
Qed.

(** Rendering the minutes of a datetime renders the datetime. *)
Lemma datetime_of_minutes_of (d : Py.datetime) :
  Py.valid_date (Py.year (Py.dt_date d)) (Py.month (Py.dt_date d))
    (Py.day (Py.dt_date d)) = true ->
  0 <= Py.hour (Py.dt_time d) <= 23 ->
  0 <= Py.minute (Py.dt_time d) <= 59 ->
  Py.second (Py.dt_time d) = 0 ->
  Py.microsecond (Py.dt_time d) = 0 ->
  Py.datetime_of_minutes (Py.minutes_of d) = d.
Proof.
  destruct d as [[y m dd] [h mi s us]].
  cbn [Py.dt_date Py.dt_time Py.year Py.month Py.day Py.hour Py.minute
       Py.second Py.microsecond].
  intros Hv Hh Hmi -> ->.
  unfold Py.datetime_of_minutes, Py.minutes_of, Py.toordinal, Py.time_minutes.
  cbn [Py.dt_date Py.dt_time Py.year Py.month Py.day Py.hour Py.minute].
  set (o := Py.ymd2ord y m dd).
  assert (Eq : ((o - 1) * 1440 + (h * 60 + mi)) / 1440 = o - 1)
    by (symmetry; apply (Z.div_unique _ _ _ (h * 60 + mi)); lia).
  assert (Er : ((o - 1) * 1440 + (h * 60 + mi)) mod 1440 = h * 60 + mi)
    by (symmetry; apply (Z.mod_unique _ _ (o - 1)); lia).
  rewrite Eq, Er. replace (o - 1 + 1) with o by lia.
  unfold o. rewrite (ord2ymd_ymd2ord y m dd Hv).
  assert (Eh : (h * 60 + mi) / 60 = h)
    by (symmetry; apply (Z.div_unique _ _ _ mi); lia).
  assert (Em : (h * 60 + mi) mod 60 = mi)
    by (symmetry; apply (Z.mod_unique _ _ h); lia).
  rewrite Eh, Em. reflexivity.
Qed.

(** So the confirmation of a booking shows the date and time that were
    parsed. *)
Lemma format_datetime_of_parsed (d : Py.datetime) :
  Py.valid_date (Py.year (Py.dt_date d)) (Py.month (Py.dt_date d))
    (Py.day (Py.dt_date d)) = true ->
  0 <= Py.hour (Py.dt_time d) <= 23 ->
  0 <= Py.minute (Py.dt_time d) <= 59 ->
  Py.second (Py.dt_time d) = 0 ->
  Py.microsecond (Py.dt_time d) = 0 ->
  AppointmentPlugin._format_datetime (Py.minutes_of d)
  = Py.strftime "%A, %B %d at %I:%M %p" d.
Proof.
  intros. unfold AppointmentPlugin._format_datetime.
  rewrite datetime_of_minutes_of; auto.
Qed.


(** * Further properties of the code *)

(** ** What the date and time parser returns *)

Lemma re_match_nil_inv s g rest :
  Py.re_match [] s = Some (g, rest) -> g = [] /\ rest = s.
Proof. simpl. intros [= <- <-]. auto. Qed.

Lemma re_match_lit_inv c ts s g rest :
  Py.re_match (Py.TLit c :: ts) s = Some (g, rest) ->
  exists a s', s = String a s' /\ Py.re_match ts s' = Some (g, rest).
Proof.
  cbn [Py.re_match]. destruct s as [| a s']; [discriminate |].
  destruct (Py.cclass_mem _ a); [| discriminate]. eauto.
Qed.

Lemma re_match_space_inv ts s g rest :
  Py.re_match (Py.TSpace :: ts) s = Some (g, rest) ->
  exists s', Py.re_match ts s' = Some (g, rest).
Proof.
  cbn [Py.re_match]. induction s as [| a s IH]; cbn [Py.spaces_then];
    [discriminate |].
  destruct (Py.is_space a); [| discriminate].
  destruct (Py.spaces_then (Py.re_match ts) s) as [x |] eqn:E.
  - intros [= ->]. apply IH. reflexivity.
  - eauto.
Qed.

Lemma re_match_dir_inv d ts s g rest :
  Py.re_match (Py.TDir d :: ts) s = Some (g, rest) ->
  exists al m r g',
    In al (Py.dir_alts d) /\ Py.match_alt al s = Some (m, r)
    /\ Py.re_match ts r = Some (g', rest) /\ g = (d, m) :: g'.
Proof.
  cbn [Py.re_match]. intros H.
  apply try_alts_inv in H as (al & m & r & Hal & Hm & H).
  destruct (Py.re_match ts r) as [[g' rest'] |] eqn:E; [| discriminate].
  injection H as <- <-. exists al, m, r, g'. auto.
Qed.

Lemma char_mem_exact c a :
  Py.cclass_mem (Py.CChar c) a = true -> Py.lower_char a = Py.lower_char c.
Proof.
  cbn [Py.cclass_mem]. intros H. apply Ascii.eqb_eq in H. congruence.
Qed.

Lemma lower_char_digit a c :
  Py.is_digit c = true -> Py.lower_char a = c -> a = c.
Proof.
  intros Hc <-. unfold Py.lower_char in *.
  destruct (((65 <=? N_of_ascii a) && (N_of_ascii a <=? 90))%N) eqn:E;
    [| reflexivity].
  exfalso. apply andb_true_iff in E as [E1 E2]. apply N.leb_le in E1, E2.
  unfold Py.is_digit in Hc. rewrite N_ascii_embedding in Hc by lia.
  apply andb_true_iff in Hc as [H1 H2]. apply N.leb_le in H1, H2. lia.
Qed.

(** The hour a [%I] group stands for, before AM/PM is applied. *)
Lemma hour12_alt_range al s m r :
  In al (Py.dir_alts Py.dI) -> Py.match_alt al s = Some (m, r) ->
  1 <= Py.int m <= 12.
Proof.
  simpl. intros [<- | [<- | [<- | []]]] H.
  - apply match_alt2_inv in H as (a & b & -> & _ & Ha & Hb).
    apply char_mem_exact, lower_char_digit in Ha; [| reflexivity]. subst a.
    apply range_mem_val in Hb.
    rewrite int_two; unfold Py.digit_val in *; simpl in *; lia.
  - apply match_alt2_inv in H as (a & b & -> & _ & Ha & Hb).
    apply char_mem_exact, lower_char_digit in Ha; [| reflexivity]. subst a.
    apply range_mem_val in Hb.
    rewrite int_two; unfold Py.digit_val in *; simpl in *; lia.
  - apply match_alt1_inv in H as (a & -> & _ & Ha).
    apply range_mem_val in Ha.
    rewrite int_one; unfold Py.digit_val in *; simpl in *; lia.
Qed.

(** An AM/PM group is one of the two words, in any case. *)
Lemma ampm_alt al s m r :
  In al (Py.dir_alts Py.dp) -> Py.match_alt al s = Some (m, r) ->
  Py.lower m = "am" \/ Py.lower m = "pm".
Proof.
  simpl. intros [<- | [<- | []]] H;
    apply match_alt2_inv in H as (a & b & -> & _ & Ha & Hb);
    apply char_mem_exact in Ha, Hb; simpl; rewrite Ha, Hb; auto.
Qed.

(** The 24-hour value of a 12-hour clock reading. *)
Lemma hour24_range h ampm :
  1 <= h <= 12 -> ampm = "am" \/ ampm = "pm" ->
  0 <= (if String.eqb ampm "" || String.eqb ampm "am"
        then (if h =? 12 then 0 else h)
        else if String.eqb ampm "pm"
             then (if h =? 12 then h else h + 12)
             else h) <= 23.
Proof.
  intros Hh [-> | ->]; simpl; destruct (Z.eqb_spec h 12); lia.
Qed.

Ltac invert_match E :=
  lazymatch type of E with
  | Py.re_match (Py.TDir _ :: _) _ = _ =>
      let al := fresh "al" in let m := fresh "m" in let r := fresh "r" in
      let g := fresh "g" in let Hal := fresh "Hal" in let Hm := fresh "Hm" in
      apply re_match_dir_inv in E as (al & m & r & g & Hal & Hm & E & ->);
      invert_match E
  | Py.re_match (Py.TLit _ :: _) _ = _ =>
      let a := fresh "a" in let s := fresh "s" in
      apply re_match_lit_inv in E as (a & s & _ & E); invert_match E
  | Py.re_match (Py.TSpace :: _) _ = _ =>
      let s := fresh "s" in
      apply re_match_space_inv in E as (s & E); invert_match E
  | Py.re_match [] _ = _ =>
      apply re_match_nil_inv in E as [-> _]
  end.

Ltac group_ranges :=
  repeat match goal with
  | H1 : In ?al (Py.dir_alts Py.dH), H2 : Py.match_alt ?al _ = Some _ |- _ =>
      pose proof (hour_alt_range _ _ _ _ H1 H2); clear H1
  | H1 : In ?al (Py.dir_alts Py.dM), H2 : Py.match_alt ?al _ = Some _ |- _ =>
      pose proof (minute_alt_range _ _ _ _ H1 H2); clear H1
  | H1 : In ?al (Py.dir_alts Py.dI), H2 : Py.match_alt ?al _ = Some _ |- _ =>
      pose proof (hour12_alt_range _ _ _ _ H1 H2); clear H1
  | H1 : In ?al (Py.dir_alts Py.dp), H2 : Py.match_alt ?al _ = Some _ |- _ =>
      pose proof (ampm_alt _ _ _ _ H1 H2); clear H1
  end.

(** Each time pattern yields an hour below 24, a minute below 60 and no
    seconds. *)
Lemma strptime_time_sound s tf d :
  In tf AppointmentPlugin.time_formats ->
  Py.strptime s tf = Some d -> clock_time (Py.dt_time d).
Proof.
  intros Htf. unfold Py.strptime.
  destruct Htf as [<- | [<- | [<- | [<- | [<- | []]]]]].
  - change (Py.compile "%H:%M")
      with (Some [Py.TDir Py.dH; Py.TLit ":"; Py.TDir Py.dM]).
    cbv beta iota.
    destruct (Py.re_match _ s) as [[g rest] |] eqn:E; [| discriminate].
    destruct rest; [| discriminate]. invert_match E. group_ranges.
    intros [= <-]. unfold clock_time. simpl. lia.
  - change (Py.compile "%I:%M %p")
      with (Some [Py.TDir Py.dI; Py.TLit ":"; Py.TDir Py.dM; Py.TSpace;
                  Py.TDir Py.dp]).
    cbv beta iota.
    destruct (Py.re_match _ s) as [[g rest] |] eqn:E; [| discriminate].
    destruct rest; [| discriminate]. invert_match E. group_ranges.
    intros [= <-]. unfold clock_time. simpl.
    match goal with
    | H : 1 <= ?h <= 12, H' : Py.lower ?p = _ \/ _ |- _ =>
        pose proof (hour24_range h (Py.lower p) H H')
    end.
    lia.
  - change (Py.compile "%I:%M%p")
      with (Some [Py.TDir Py.dI; Py.TLit ":"; Py.TDir Py.dM; Py.TDir Py.dp]).
    cbv beta iota.
    destruct (Py.re_match _ s) as [[g rest] |] eqn:E; [| discriminate].
    destruct rest; [| discriminate]. invert_match E. group_ranges.
    intros [= <-]. unfold clock_time. simpl.
    match goal with
    | H : 1 <= ?h <= 12, H' : Py.lower ?p = _ \/ _ |- _ =>
        pose proof (hour24_range h (Py.lower p) H H')
    end.
    lia.
  - change (Py.compile "%I %p")
      with (Some [Py.TDir Py.dI; Py.TSpace; Py.TDir Py.dp]).
    cbv beta iota.
    destruct (Py.re_match _ s) as [[g rest] |] eqn:E; [| discriminate].
    destruct rest; [| discriminate]. invert_match E. group_ranges.
    intros [= <-]. unfold clock_time. simpl.
    match goal with
    | H : 1 <= ?h <= 12, H' : Py.lower ?p = _ \/ _ |- _ =>
        pose proof (hour24_range h (Py.lower p) H H')
    end.
    lia.
  - change (Py.compile "%I%p") with (Some [Py.TDir Py.dI; Py.TDir Py.dp]).
    cbv beta iota.
    destruct (Py.re_match _ s) as [[g rest] |] eqn:E; [| discriminate].
    destruct rest; [| discriminate]. invert_match E. group_ranges.
    intros [= <-]. unfold clock_time. simpl.
    match goal with
    | H : 1 <= ?h <= 12, H' : Py.lower ?p = _ \/ _ |- _ =>
        pose proof (hour24_range h (Py.lower p) H H')
    end.
    lia.
Qed.

Lemma first_format_inv s fs d :
  AppointmentPlugin.first_format s fs = Some d ->
  exists f, In f fs /\ Py.strptime (Py.strip s) f = Some d.
Proof.
  induction fs as [| f fs IH]; [discriminate |].
  cbn [AppointmentPlugin.first_format].
  destruct (Py.strptime (Py.strip s) f) as [d' |] eqn:E.
  - intros [= ->]. exists f. split; [left; reflexivity | exact E].
  - intros H. destruct (IH H) as (f' & Hin & Hf').
    exists f'. split; [right; exact Hin | exact Hf'].
Qed.

Lemma strptime_valid s f d :
  Py.strptime s f = Some d ->
  Py.valid_date (Py.year (Py.dt_date d)) (Py.month (Py.dt_date d))
    (Py.day (Py.dt_date d)) = true.
Proof.
  unfold Py.strptime. destruct (Py.compile f); [| discriminate].
  destruct (Py.re_match _ s) as [[g rest] |]; [| discriminate].
  destruct rest; [| discriminate].
  destruct (Py.valid_date _ _ _) eqn:E; [| discriminate].
  intros [= <-]. exact E.
Qed.

Lemma parsed_parts ds ts d :
  AppointmentPlugin._parse_datetime ds ts = Some d ->
  exists s t f tf pd pt,
    ds = Some s /\ ts = Some t
    /\ In f AppointmentPlugin.date_formats
    /\ In tf AppointmentPlugin.time_formats
    /\ Py.strptime (Py.strip s) f = Some pd
    /\ Py.strptime (Py.strip t) tf = Some pt
    /\ d = Py.combine (Py.dt_date pd) (Py.dt_time pt).
Proof.
  unfold AppointmentPlugin._parse_datetime.
  destruct ds as [s |]; [| discriminate].
  destruct (AppointmentPlugin.first_format s _) as [pd |] eqn:Ed;
    [| discriminate].
  destruct ts as [t |]; [| discriminate].
  destruct (AppointmentPlugin.first_format t _) as [pt |] eqn:Et;
    [| discriminate].
  intros [= <-].
  apply first_format_inv in Ed as (f & Hf & Ed).
  apply first_format_inv in Et as (tf & Htf & Et).
  exists s, t, f, tf, pd, pt. repeat split; assumption.
Qed.

Lemma parsed_date_valid ds ts d :
  AppointmentPlugin._parse_datetime ds ts = Some d ->
  Py.valid_date (Py.year (Py.dt_date d)) (Py.month (Py.dt_date d))
    (Py.day (Py.dt_date d)) = true.
Proof.
  intros H.
  apply parsed_parts in H as (s & t & f & tf & pd & pt & _ & _ & _ & _ & Hd & _ & ->).
  exact (strptime_valid _ _ _ Hd).
Qed.

Lemma parsed_time_clock ds ts d :
  AppointmentPlugin._parse_datetime ds ts = Some d -> clock_time (Py.dt_time d).
Proof.
  intros H.
  apply parsed_parts in H
    as (s & t & f & tf & pd & pt & _ & _ & _ & Htf & _ & Ht & ->).
  exact (strptime_time_sound _ _ _ Htf Ht).
Qed.

(** The scheduler instant of a parsed datetime loses nothing, and the
    confirmation renders the parsed datetime itself. *)
Lemma parsed_minutes_back ds ts d :
  AppointmentPlugin._parse_datetime ds ts = Some d ->
  Py.datetime_of_minutes (Py.minutes_of d) = d.
Proof.
  intros H. pose proof (parsed_date_valid _ _ _ H) as Hv.
  destruct (parsed_time_clock _ _ _ H) as (Hh & Hm & Hs & Hu).
  apply datetime_of_minutes_of; assumption.
Qed.

Lemma parsed_format ds ts d :
  AppointmentPlugin._parse_datetime ds ts = Some d ->
  AppointmentPlugin._format_datetime (Py.minutes_of d)
  = Py.strftime "%A, %B %d at %I:%M %p" d.
Proof.
  intros H. pose proof (parsed_date_valid _ _ _ H) as Hv.
  destruct (parsed_time_clock _ _ _ H) as (Hh & Hm & Hs & Hu).
  apply format_datetime_of_parsed; assumption.
Qed.

(** X1.  Whatever strings [_parse_datetime] accepts, the datetime it returns
    is a day of the calendar at a whole minute: the date is valid, the hour
    is below 24, the minute below 60, and seconds and microseconds are 0. *)
Theorem parse_datetime_sound (ds ts : option string) (d : Py.datetime) :
  AppointmentPlugin._parse_datetime ds ts = Some d ->
  Py.valid_date (Py.year (Py.dt_date d)) (Py.month (Py.dt_date d))
    (Py.day (Py.dt_date d)) = true
  /\ clock_time (Py.dt_time d).
Proof.
  intros H. split; [exact (parsed_date_valid _ _ _ H) |].
  exact (parsed_time_clock _ _ _ H).
Qed.

Lemma parse_datetime_sound_witness :
  AppointmentPlugin._parse_datetime (Some "Nov 4, 2024") (Some " 2:30 pm ")
  = Some (Py.mk_datetime (Py.mk_date 2024 11 4) (Py.mk_time 14 30 0 0))
  /\ (Py.valid_date 2024 11 4 = true
      /\ clock_time (Py.mk_time 14 30 0 0)).
Proof.
  split; [vm_compute; reflexivity |].
  apply (parse_datetime_sound (Some "Nov 4, 2024") (Some " 2:30 pm ")
           (Py.mk_datetime (Py.mk_date 2024 11 4) (Py.mk_time 14 30 0 0))).
  vm_compute. reflexivity.
Defined.
(** ** What a booking request does *)

Lemma process_books_reply config data parsed duration w :
  AppointmentPlugin._parse_datetime (bk_date data) (bk_time data) = Some parsed ->
  AppointmentPlugin._get_service_duration config (bk_service data) = Ok duration ->
  AppointmentPlugin._is_within_business_hours config (Py.minutes_of parsed)
    (bk_business_id data) = true ->
  find (AppointmentPlugin.conflict_row (bk_business_id data)
          (Py.minutes_of parsed) (Py.minutes_of parsed + duration))
    (appointments (w_db w)) = None ->
  exists log',
    AppointmentPlugin.process config data w
    = (Ok (mk_response true (confirmation (bk_service data) parsed) None None
             (Some ("apt_" +:+ Py.str_int (appointments_seq (w_db w) + 1)))
             None),
       mk_world
         (with_appointments (w_db w)
            (appointments (w_db w)
             ++ [booked_row data (Py.minutes_of parsed) duration
                   (appointments_seq (w_db w) + 1)])
            (appointments_seq (w_db w) + 1))
         (w_log w ++ log')).
Proof.
  intros Hp Hd Hw Hf.
  unfold AppointmentPlugin.process. rewrite Hp. unfold bind at 1, lift.
  rewrite Hd, Hw. cbn [negb].
  unfold bind at 1. rewrite check_availability_eq, Hf. cbn [negb].
  unfold AppointmentPlugin._book_appointment,
    AppointmentPlugin._notify_business.
  unfold_monad. rewrite <- !app_assoc. simpl.
  unfold confirmation. rewrite <- (parsed_format _ _ _ Hp).
  eexists. reflexivity.
Qed.

(** [process] takes one of the six ways. *)
Lemma process_path config data w :
  booking_path config data w (AppointmentPlugin.process config data w).
Proof.
  destruct (AppointmentPlugin._parse_datetime (bk_date data) (bk_time data))
    as [parsed |] eqn:Hp.
  2:{ rewrite process_unparsed by exact Hp. constructor. exact Hp. }
  destruct (AppointmentPlugin._get_service_duration config (bk_service data))
    as [duration | e] eqn:Hd.
  2:{ rewrite (process_duration_raises _ _ _ Hp _ _ Hd).
      econstructor; eassumption. }
  destruct (AppointmentPlugin._is_within_business_hours config
              (Py.minutes_of parsed) (bk_business_id data)) eqn:Hw.
  2:{ rewrite (process_outside_hours _ _ _ Hp _ Hd _ Hw).
      econstructor; eassumption. }
  destruct (find (AppointmentPlugin.conflict_row (bk_business_id data)
                    (Py.minutes_of parsed) (Py.minutes_of parsed + duration))
              (appointments (w_db w))) as [conflict |] eqn:Hf.
  - destruct (process_conflict _ _ _ Hp _ Hd Hw w conflict Hf)
      as ([alts | e] & log' & E & HQ & HS & Ho).
    + destruct Ho as [_ E']. rewrite E'.
      eapply path_conflict; eassumption.
    + destruct Ho as [[what ->] E']. rewrite E'.
      eapply path_overflow; try eassumption.
      * intros F. destruct (HS F) as [alts H]. discriminate H.
      * apply forallb_forall. intros e He.
        rewrite List.Forall_forall in HQ. destruct (HQ e He) as (s & ->).
        reflexivity.
  - destruct (process_books_reply _ _ _ _ w Hp Hd Hw Hf) as (log' & E').
    rewrite E'. econstructor; eassumption.
Qed.

(** What the search of alternatives hands back: slots of the scanned days,
    found by conflict queries alone. *)
Lemma find_alternative_times_slots config requested duration business_id
    w alts w' :
  AppointmentPlugin._find_alternative_times config requested duration
    business_id w = (Ok alts, w') ->
  Forall (fun c => exists k,
            in_day config duration business_id (appointments (w_db w))
              (date_of requested) k c) alts
  /\ w_db w' = w_db w
  /\ exists log', w_log w' = w_log w ++ log'
                  /\ forallb is_select log' = true.
Proof.
  unfold AppointmentPlugin._find_alternative_times.
  destruct (scan_days_spec config duration business_id (date_of requested)
              [0; 1; 2; 3; 4; 5; 6] [] w)
    as (o & log' & E & HQ & _ & Ho); [simpl; lia |].
  rewrite E. intros [= -> <-]. destruct Ho as (new & -> & _ & HF & _).
  change ([] ++ new) with new.
  split; [| split; [reflexivity |]].
  - eapply List.Forall_impl; [| exact HF]. intros c (k & _ & H). eauto.
  - exists log'. split; [reflexivity |].
    apply forallb_forall. intros e He.
    rewrite List.Forall_forall in HQ. destruct (HQ e He) as (s & ->).
    reflexivity.
Qed.

(** X2.  A booking that is answered with success has parsed the date and
    the time and found the service's duration; it has appended exactly one
    confirmed row that carries the request's fields, the parsed start, the
    start plus the duration as its end and the next identifier; the reply
    names that identifier, and its message speaks the parsed datetime. *)
Theorem booking_confirmed (config : BusinessConfig) (data : booking_data)
    (w w' : world) (r : response) :
  AppointmentPlugin.process config data w = (Ok r, w') ->
  success r = true ->
  exists parsed duration,
    AppointmentPlugin._parse_datetime (bk_date data) (bk_time data)
    = Some parsed
    /\ AppointmentPlugin._get_service_duration config (bk_service data)
       = Ok duration
    /\ w_db w'
       = with_appointments (w_db w)
           (appointments (w_db w)
            ++ [booked_row data (Py.minutes_of parsed) duration
                  (appointments_seq (w_db w) + 1)])
           (appointments_seq (w_db w) + 1)
    /\ Py.datetime_of_minutes (Py.minutes_of parsed) = parsed
    /\ message r = confirmation (bk_service data) parsed
    /\ appointment_id r
       = Some ("apt_" +:+ Py.str_int (appointments_seq (w_db w) + 1)).
Proof.
  intros E Hs. pose proof (process_path config data w) as P.
  rewrite E in P. inversion P; subst; try discriminate.
  exists parsed, duration.
  repeat split; try assumption; try reflexivity.
  eapply parsed_minutes_back; eassumption.
Qed.

Lemma booking_confirmed_witness :
  let data := Examples.booking "Nov 4, 2024" "2:30 pm" "Cleaning" in
  let out := AppointmentPlugin.process Examples.acme data Examples.fresh in
  let r := returned (reply false "") (fst out) in
  exists parsed duration,
    AppointmentPlugin._parse_datetime (bk_date data) (bk_time data)
    = Some parsed
    /\ AppointmentPlugin._get_service_duration Examples.acme (bk_service data)
       = Ok duration
    /\ w_db (snd out)
       = with_appointments (w_db Examples.fresh)
           (appointments (w_db Examples.fresh)
            ++ [booked_row data (Py.minutes_of parsed) duration
                  (appointments_seq (w_db Examples.fresh) + 1)])
           (appointments_seq (w_db Examples.fresh) + 1)
    /\ Py.datetime_of_minutes (Py.minutes_of parsed) = parsed
    /\ message r = confirmation (bk_service data) parsed
    /\ appointment_id r
       = Some ("apt_"
               +:+ Py.str_int (appointments_seq (w_db Examples.fresh) + 1)).
Proof.
  intros data out r.
  apply (booking_confirmed Examples.acme data Examples.fresh (snd out) r).
  - vm_compute. reflexivity.
  - vm_compute. reflexivity.
Defined.

(** X3.  A booking request that is not answered with success, or that
    raises, changes no table; whatever it adds to the statement log is
    conflict queries: it makes no INSERT and sends no notification. *)
Theorem refused_booking_writes_nothing (config : BusinessConfig)
    (data : booking_data) (w w' : world) (o : outcome response) :
  AppointmentPlugin.process config data w = (o, w') ->
  (forall r, o = Ok r -> success r = false) ->
  w_db w' = w_db w
  /\ exists log', w_log w' = w_log w ++ log' /\ forallb is_select log' = true.
Proof.
  intros E Hs. pose proof (process_path config data w) as P.
  rewrite E in P. inversion P; subst.
  - split; [reflexivity |]. exists []. rewrite app_nil_r. auto.
  - split; [reflexivity |]. exists []. rewrite app_nil_r. auto.
  - split; [reflexivity |]. exists []. rewrite app_nil_r. auto.
  - split; [reflexivity |].
    match goal with
    | H : AppointmentPlugin._find_alternative_times _ _ _ _ _ = _ |- _ =>
        apply find_alternative_times_slots in H
          as (_ & _ & log2 & Hl & Hq)
    end.
    simpl in Hl. apply app_inv_head in Hl. subst log2.
    eexists. split; [rewrite <- app_assoc; reflexivity |].
    simpl. exact Hq.
  - split; [reflexivity |].
    eexists. split; [simpl; rewrite <- app_assoc; reflexivity |].
    simpl. assumption.
  - specialize (Hs _ eq_refl). discriminate.
Qed.

Lemma refused_booking_writes_nothing_witness :
  let data := Examples.booking "2024-11-04" "10:00" "Cleaning" in
  let w := Examples.store [Examples.row 1 "acme" (Examples.at_ 4 10 0) (Examples.at_ 4 10 30)] in
  let out := AppointmentPlugin.process Examples.acme data w in
  w_db (snd out) = w_db w
  /\ exists log', w_log (snd out) = w_log w ++ log'
                  /\ forallb is_select log' = true.
Proof.
  intros data w out.
  apply (refused_booking_writes_nothing Examples.acme data w (snd out)
           (fst out)).
  - apply surjective_pairing.
  - intros r. vm_compute. intros [= <-]. reflexivity.
Defined.

Lemma booked_row_conflicts data start_time duration id :
  AppointmentPlugin.conflict_row (bk_business_id data) start_time
    (start_time + duration) (booked_row data start_time duration id) = true.
Proof.
  unfold AppointmentPlugin.conflict_row, booked_row. simpl.
  rewrite String.eqb_refl. simpl.
  rewrite (proj2 (Z.leb_le start_time start_time)) by lia.
  rewrite (proj2 (Z.leb_le _ _)) by lia.
  simpl. apply orb_true_r.
Qed.

Lemma find_snoc_hit {A} (p : A -> bool) l x :
  p x = true -> find p (l ++ [x]) <> None.
Proof.
  intros Hp Hn. pose proof (find_none _ _ Hn x) as H.
  rewrite H in Hp; [discriminate |]. apply in_or_app. right. left. reflexivity.
Qed.

(** X4.  The same request sent again right after it was booked is never
    booked a second time, whatever the service's duration: it finds its own
    row in the way and adds no row.  If it is answered, the answer is a
    refusal that offers alternatives; if it is not, the search for them
    raised an OverflowError; and it is answered whenever the request is far
    from the ends of the calendar. *)
Theorem double_submit_refused (config : BusinessConfig) (data : booking_data)
    (w w' : world) (r : response) :
  AppointmentPlugin.process config data w = (Ok r, w') ->
  success r = true ->
  exists o w2,
    AppointmentPlugin.process config data w' = (o, w2)
    /\ w_db w2 = w_db w'
    /\ (forall r2, o = Ok r2 ->
          success r2 = false /\ action r2 = Some "suggest_alternatives"
          /\ appointment_id r2 = None)
    /\ (forall e, o = Raise e -> exists what, e = OverflowError what)
    /\ (forall parsed duration,
          AppointmentPlugin._parse_datetime (bk_date data) (bk_time data)
          = Some parsed ->
          AppointmentPlugin._get_service_duration config (bk_service data)
          = Ok duration ->
          far_from_the_ends (Py.minutes_of parsed) duration ->
          exists r2, o = Ok r2).
Proof.
  intros E Hs. pose proof (process_path config data w) as P.
  rewrite E in P. inversion P; subst; try discriminate.
  match goal with
  | |- context [mk_world ?d ?l] => set (w1 := mk_world d l)
  end.
  pose proof (process_path config data w1) as P2.
  inversion P2; subst; try congruence.
  - eexists _, _. split; [reflexivity |]. split; [reflexivity |].
    split; [intros r2 [= <-]; auto |]. split; [discriminate | eauto].
  - eexists _, _. split; [reflexivity |]. split; [reflexivity |].
    split; [discriminate |]. split; [intros e [= <-]; eauto |].
    intros parsed1 duration1 Hp1 Hd1 F. exfalso.
    assert (parsed1 = parsed0) as -> by congruence.
    assert (duration1 = duration0) as -> by congruence. contradiction.
  - exfalso.
    assert (parsed0 = parsed) as -> by congruence.
    assert (duration0 = duration) as -> by congruence.
    match goal with
    | H : find _ (appointments (w_db w1)) = None |- _ =>
        revert H; apply find_snoc_hit, booked_row_conflicts
    end.
Qed.

Lemma double_submit_refused_witness :
  let data := Examples.booking "2024-11-04" "10:00" "Cleaning" in
  let out := AppointmentPlugin.process Examples.acme data Examples.fresh in
  far_from_the_ends (Examples.at_ 4 10 0) 30
  /\ exists r2 w2,
       AppointmentPlugin.process Examples.acme data (snd out) = (Ok r2, w2)
       /\ success r2 = false
       /\ action r2 = Some "suggest_alternatives"
       /\ w_db w2 = w_db (snd out).
Proof.
  intros data out.
  assert (F : far_from_the_ends (Examples.at_ 4 10 0) 30)
    by (vm_compute; split; discriminate).
  split; [exact F |].
  destruct (double_submit_refused Examples.acme data Examples.fresh (snd out)
              (returned (reply false "") (fst out)))
    as (o & w2 & E & Hdb & Hok & _ & Hret).
  - vm_compute. reflexivity.
  - vm_compute. reflexivity.
  - destruct (Hret (Py.mk_datetime (Py.mk_date 2024 11 4)
                      (Py.mk_time 10 0 0 0)) 30) as [r2 ->].
    + vm_compute. reflexivity.
    + vm_compute. reflexivity.
    + exact F.
    + destruct (Hok r2 eq_refl) as (H1 & H2 & _).
      exists r2, w2. auto.
Defined.

(** A slot of a scanned day opens no earlier than the day does; with a
    duration that is not negative it also starts by closing time, so the
    hours gate lets it through. *)
Lemma in_day_within_hours config duration business_id rows check_date k c :
  0 <= duration ->
  in_day config duration business_id rows check_date k c ->
  AppointmentPlugin._is_within_business_hours config (alt_datetime c)
    business_id = true.
Proof.
  intros Hd (h & o & cl & Hh & Hc & Hp & (j & Hj & Hg) & Hle & _ & _).
  pose proof (parse_hours_range _ _ _ Hp) as [Ho Hcl].
  unfold combine_minutes in *.
  set (day := check_date + k) in *.
  assert (Hdate : date_of (alt_datetime c) = day).
  { unfold date_of. symmetry. apply (Z.div_unique_pos _ 1440 day
      (Py.time_minutes o + 30 * j)); lia. }
  assert (Htime : time_of (alt_datetime c) = Py.time_minutes o + 30 * j).
  { unfold time_of. symmetry. apply (Z.mod_unique_pos _ 1440 day); lia. }
  unfold AppointmentPlugin._is_within_business_hours.
  rewrite Hdate, Hh, Hc, Hp, Htime.
  apply andb_true_intro. split; [apply Z.leb_le | apply Z.leb_le]; lia.
Qed.

(** X5.  When a booking is refused with alternatives and the service's
    duration is not negative, every alternative offered can be booked: a
    follow-up request of the same business and service whose date and time
    parse to an offered slot passes the hours gate and the conflict query
    and is answered with success. *)
Theorem offered_alternative_books (config : BusinessConfig)
    (data data2 : booking_data) (w w' : world) (r : response)
    (alts : list alternative) (c : alternative) (duration : Z)
    (parsed2 : Py.datetime) :
  AppointmentPlugin.process config data w = (Ok r, w') ->
  alternatives r = Some alts -> In c alts ->
  AppointmentPlugin._get_service_duration config (bk_service data)
  = Ok duration ->
  0 <= duration ->
  bk_business_id data2 = bk_business_id data ->
  bk_service data2 = bk_service data ->
  AppointmentPlugin._parse_datetime (bk_date data2) (bk_time data2)
  = Some parsed2 ->
  Py.minutes_of parsed2 = alt_datetime c ->
  exists r2 w2,
    AppointmentPlugin.process config data2 w' = (Ok r2, w2)
    /\ success r2 = true
    /\ appointments (w_db w2)
       = appointments (w_db w')
         ++ [booked_row data2 (alt_datetime c) duration
               (appointments_seq (w_db w') + 1)].
Proof.
  intros E Ha Hin Hd Hpos Hb Hsv Hp2 Hm.
  pose proof (process_path config data w) as P.
  rewrite E in P. inversion P; subst; try discriminate.
  simpl in Ha. injection Ha as <-.
  assert (duration0 = duration) as -> by congruence.
  match goal with
  | H : AppointmentPlugin._find_alternative_times _ _ _ _ _ = _ |- _ =>
      apply find_alternative_times_slots in H as (HF & _ & _)
  end.
  simpl in HF. rewrite List.Forall_forall in HF.
  destruct (HF c Hin) as (k & Hday).
  pose proof (in_day_within_hours _ _ _ _ _ _ _ Hpos Hday) as Hw.
  destruct Hday as (_ & _ & _ & _ & _ & _ & _ & _ & Hfree & _).
  unfold slot_free in Hfree.
  match goal with
  | |- context [mk_world (w_db w) ?l] => set (w1 := mk_world (w_db w) l)
  end.
  destruct (process_books_reply config data2 parsed2 duration w1)
    as (log2 & E2).
  - exact Hp2.
  - rewrite Hsv. exact Hd.
  - rewrite Hm, Hb. exact Hw.
  - rewrite Hm, Hb. exact Hfree.
  - rewrite E2. eexists _, _. split; [reflexivity |].
    split; [reflexivity |]. simpl. rewrite Hm. reflexivity.
Qed.

Lemma offered_alternative_books_witness :
  let data := Examples.booking "2024-11-04" "10:00" "Cleaning" in
  let data2 := Examples.booking "Nov 4, 2024" "9:00 AM" "Cleaning" in
  let w := Examples.store [Examples.row 1 "acme" (Examples.at_ 4 10 0)
                             (Examples.at_ 4 10 30)] in
  let out := AppointmentPlugin.process Examples.acme data w in
  let c := mk_alternative (Examples.at_ 4 9 0)
             (AppointmentPlugin._format_datetime (Examples.at_ 4 9 0)) in
  exists r2 w2,
    AppointmentPlugin.process Examples.acme data2 (snd out) = (Ok r2, w2)
    /\ success r2 = true
    /\ appointments (w_db w2)
       = appointments (w_db (snd out))
         ++ [booked_row data2 (alt_datetime c) 30
               (appointments_seq (w_db (snd out)) + 1)].
Proof.
  intros data data2 w out c.
  apply (offered_alternative_books Examples.acme data data2 w (snd out)
           (returned (reply false "") (fst out))
           (offered (returned (reply false "") (fst out)))
           c 30
           (Py.mk_datetime (Py.mk_date 2024 11 4) (Py.mk_time 9 0 0 0))).
  - vm_compute. reflexivity.
  - vm_compute. reflexivity.
  - vm_compute. left. reflexivity.
  - vm_compute. reflexivity.
  - lia.
  - reflexivity.
  - reflexivity.
  - vm_compute. reflexivity.
  - vm_compute. reflexivity.
Defined.

(** X6.  The slot that was asked for and found taken is never among the
    alternatives offered in return. *)
Theorem requested_slot_not_offered (config : BusinessConfig)
    (data : booking_data) (w w' : world) (r : response)
    (alts : list alternative) (parsed : Py.datetime) :
  AppointmentPlugin.process config data w = (Ok r, w') ->
  alternatives r = Some alts ->
  AppointmentPlugin._parse_datetime (bk_date data) (bk_time data)
  = Some parsed ->
  Forall (fun c => alt_datetime c <> Py.minutes_of parsed) alts.
Proof.
  intros E Ha Hp.
  pose proof (process_path config data w) as P.
  rewrite E in P. inversion P; subst; try discriminate.
  simpl in Ha. injection Ha as <-.
  assert (parsed0 = parsed) as -> by congruence.
  match goal with
  | H : AppointmentPlugin._find_alternative_times _ _ _ _ _ = _ |- _ =>
      apply find_alternative_times_slots in H as (HF & _ & _)
  end.
  simpl in HF. eapply List.Forall_impl; [| exact HF].
  intros c (k & _ & _ & _ & _ & _ & _ & _ & _ & Hfree & _) Heq.
  unfold slot_free in Hfree. rewrite Heq in Hfree. congruence.
Qed.

Lemma requested_slot_not_offered_witness :
  let data := Examples.booking "2024-11-04" "10:00" "Cleaning" in
  let w := Examples.store [Examples.row 1 "acme" (Examples.at_ 4 10 0)
                             (Examples.at_ 4 10 30)] in
  let out := AppointmentPlugin.process Examples.acme data w in
  let alts := offered (returned (reply false "") (fst out)) in
  Forall (fun c => alt_datetime c <> Examples.at_ 4 10 0) alts.
Proof.
  intros data w out alts.
  apply (requested_slot_not_offered Examples.acme data w (snd out)
           (returned (reply false "") (fst out)) alts
           (Py.mk_datetime (Py.mk_date 2024 11 4) (Py.mk_time 10 0 0 0))).
  - vm_compute. reflexivity.
  - vm_compute. reflexivity.
  - vm_compute. reflexivity.
Defined.
(** ** The tables in every reachable state *)

(** Each handler writes to its own table only. *)
Lemma booking_frame config data w o w' :
  AppointmentPlugin.process config data w = (o, w') ->
  orders (w_db w') = orders (w_db w)
  /\ orders_seq (w_db w') = orders_seq (w_db w)
  /\ messages (w_db w') = messages (w_db w)
  /\ messages_seq (w_db w') = messages_seq (w_db w).
Proof.
  intros E. pose proof (process_path config data w) as P.
  rewrite E in P. inversion P; subst; repeat split; reflexivity.
Qed.

Lemma cancellation_frame data w o w' :
  CancellationPlugin.process data w = (o, w') ->
  orders (w_db w') = orders (w_db w)
  /\ orders_seq (w_db w') = orders_seq (w_db w)
  /\ messages (w_db w') = messages (w_db w)
  /\ messages_seq (w_db w') = messages_seq (w_db w).
Proof.
  unfold CancellationPlugin.process.
  destruct (cn_customer_name data) as [n |], (cn_phone data) as [p |];
    unfold_monad; try (intros [= _ <-]; auto; fail).
  destruct (negb _); [intros [= _ <-]; auto |].
  destruct (find _ _) as [row |]; intros [= _ <-]; simpl; auto.
Qed.

Lemma order_effect data w o w' :
  OrderPlugin.process data w = (o, w') ->
  (OrderPlugin.sqlite_integer (od_total data) = false
   /\ o = Raise OrderPlugin.too_large /\ w' = w)
  \/ (OrderPlugin.sqlite_integer (od_total data) = true
      /\ exists row,
           orders (w_db w') = orders (w_db w) ++ [row]
           /\ o_id row = orders_seq (w_db w) + 1
           /\ o_business_id row = od_business_id data
           /\ orders_seq (w_db w') = orders_seq (w_db w) + 1
           /\ messages (w_db w') = messages (w_db w)
           /\ messages_seq (w_db w') = messages_seq (w_db w)).
Proof.
  unfold OrderPlugin.process, OrderPlugin._notify_business.
  destruct (OrderPlugin.sqlite_integer (od_total data)); cbn [negb];
    unfold_monad.
  - intros [= _ <-]. right. split; [reflexivity |].
    eexists. simpl. repeat split; reflexivity.
  - intros [= <- <-]. left. auto.
Qed.

Lemma message_effect data w o w' :
  MessagePlugin.process data w = (o, w') ->
  exists row,
    messages (w_db w') = messages (w_db w) ++ [row]
    /\ m_id row = messages_seq (w_db w) + 1
    /\ m_business_id row = md_business_id data
    /\ messages_seq (w_db w') = messages_seq (w_db w) + 1
    /\ orders (w_db w') = orders (w_db w)
    /\ orders_seq (w_db w') = orders_seq (w_db w).
Proof.
  unfold MessagePlugin.process, MessagePlugin._notify_business. unfold_monad.
  intros [= _ <-]. eexists. simpl. repeat split; reflexivity.
Qed.

Lemma count_up_snoc n : count_up (S n) = count_up n ++ [Z.of_nat n + 1].
Proof.
  unfold count_up. rewrite seq_S, map_app. simpl. f_equal. f_equal. lia.
Qed.

Lemma sorted_snoc l x :
  StronglySorted Z.lt l -> Forall (fun y => y < x) l ->
  StronglySorted Z.lt (l ++ [x]).
Proof.
  induction 1 as [| a l HS IH HF]; intros Hx; simpl.
  - repeat constructor.
  - apply List.Forall_cons_iff in Hx as [Hax Hx].
    constructor; [apply IH, Hx |].
    apply List.Forall_app. split; [exact HF | repeat constructor; exact Hax].
Qed.

Lemma sorted_filter p l :
  StronglySorted Z.lt (map a_id l) ->
  StronglySorted Z.lt (map a_id (List.filter p l)).
Proof.
  induction l as [| a l IH]; simpl; intros HS; [constructor |].
  apply StronglySorted_inv in HS as [HS HF].
  destruct (p a); simpl; [| auto].
  constructor; [auto |].
  apply List.Forall_forall. intros y Hy.
  apply in_map_iff in Hy as (b & <- & Hb). apply filter_In in Hb as [Hb _].
  rewrite List.Forall_forall in HF. apply HF. apply in_map. exact Hb.
Qed.


(** X7.  In every state the handlers can reach from the empty database,
    the appointment identifiers grow strictly along the table and lie
    between 1 and the counter, so an identifier is never used twice, also
    not after a cancellation; the order and message tables hold exactly
    the identifiers 1, 2, ..., n in insert order. *)
Theorem reachable_identifiers (d : db) :
  reachable d ->
  StronglySorted Z.lt (map a_id (appointments d))
  /\ 0 <= appointments_seq d
  /\ Forall (fun a => 1 <= a_id a <= appointments_seq d) (appointments d)
  /\ map o_id (orders d) = count_up (length (orders d))
  /\ orders_seq d = Z.of_nat (length (orders d))
  /\ map m_id (messages d) = count_up (length (messages d))
  /\ messages_seq d = Z.of_nat (length (messages d)).
Proof.
  induction 1 as [| config data w o w' _ IH E | data w o w' _ IH E
                  | data w o w' _ IH E | data w o w' _ IH E].
  - simpl. repeat split; try constructor; lia.
  - destruct IH as (HS & H0 & HF & IHo).
    destruct (booking_frame _ _ _ _ _ E) as (-> & -> & -> & ->).
    destruct (process_appointments _ _ _ _ _ E)
      as [-> | (x & -> & _ & _ & Hid & ->)]; [auto |].
    split; [| split; [lia | split; [| exact IHo]]].
    + rewrite map_app. apply sorted_snoc; [exact HS |].
      apply List.Forall_forall. intros y Hy.
      apply in_map_iff in Hy as (b & <- & Hb).
      rewrite List.Forall_forall in HF. specialize (HF b Hb). simpl. lia.
    + apply List.Forall_app. split; [| constructor; [lia | constructor]].
      eapply List.Forall_impl; [| exact HF]. simpl. intros a Ha. lia.
  - destruct IH as (HS & H0 & HF & IHo).
    destruct (cancellation_frame _ _ _ _ E) as (-> & -> & -> & ->).
    destruct (cancellation_appointments _ _ _ _ E) as [-> [-> | (id & ->)]];
      [auto |].
    split; [apply sorted_filter, HS |]. split; [exact H0 |].
    split; [| exact IHo].
    apply List.Forall_forall. intros a Ha. apply filter_In in Ha as [Ha _].
    rewrite List.Forall_forall in HF. auto.
  - destruct IH as (HS & H0 & HF & Ho & Hos & Hm & Hms).
    rewrite (order_appointments _ _ _ _ E), (order_appointments_seq _ _ _ _ E).
    destruct (order_effect _ _ _ _ E)
      as [(_ & _ & ->) | (_ & row & -> & Hid & _ & -> & -> & ->)];
      [repeat split; assumption |].
    repeat split; try assumption.
    + rewrite map_app, length_app, Ho. simpl.
      rewrite Nat.add_1_r, count_up_snoc. rewrite Hid, Hos. reflexivity.
    + rewrite length_app. simpl. lia.
  - destruct IH as (HS & H0 & HF & Ho & Hos & Hm & Hms).
    rewrite (message_appointments _ _ _ _ E),
      (message_appointments_seq _ _ _ _ E).
    destruct (message_effect _ _ _ _ E) as (row & -> & Hid & _ & -> & -> & ->).
    repeat split; try assumption.
    + rewrite map_app, length_app, Hm. simpl.
      rewrite Nat.add_1_r, count_up_snoc. rewrite Hid, Hms. reflexivity.
    + rewrite length_app. simpl. lia.
Qed.

Lemma reachable_identifiers_witness :
  let w1 := snd (OrderPlugin.process
                   (mk_order_data (Some "Ann Lee") (Some "555-0100")
                      (Some "2 bagels") 7 (Some "noon") (Some "") (Some "")
                      "acme") Examples.fresh) in
  let w2 := snd (AppointmentPlugin.process Examples.acme
                   (Examples.booking "2024-11-04" "10:00" "Cleaning") w1) in
  let d := w_db w2 in
  StronglySorted Z.lt (map a_id (appointments d))
  /\ 0 <= appointments_seq d
  /\ Forall (fun a => 1 <= a_id a <= appointments_seq d) (appointments d)
  /\ map o_id (orders d) = count_up (length (orders d))
  /\ orders_seq d = Z.of_nat (length (orders d))
  /\ map m_id (messages d) = count_up (length (messages d))
  /\ messages_seq d = Z.of_nat (length (messages d)).
Proof.
  intros w1 w2 d. apply (reachable_identifiers d).
  eapply reach_booking with (w := w1); [| apply surjective_pairing].
  eapply reach_order with (w := Examples.fresh);
    [apply reach_init | apply surjective_pairing].
Defined.

(** X8.  No handler ever stores a status other than ['confirmed']: a
    cancellation deletes the row.  So in every reachable state the status
    test of the conflict query excludes nothing. *)
Theorem reachable_all_confirmed (d : db) :
  reachable d ->
  Forall (fun a => a_status a = confirmed) (appointments d).
Proof.
  induction 1 as [| config data w o w' _ IH E | data w o w' _ IH E
                  | data w o w' _ IH E | data w o w' _ IH E].
  - constructor.
  - destruct (process_appointments _ _ _ _ _ E)
      as [-> | (x & -> & Hs & _)]; [exact IH |].
    apply List.Forall_app. split; [exact IH | repeat constructor; exact Hs].
  - destruct (cancellation_appointments _ _ _ _ E) as [_ [-> | (id & ->)]];
      [exact IH |].
    apply List.Forall_forall. intros a Ha. apply filter_In in Ha as [Ha _].
    rewrite List.Forall_forall in IH. auto.
  - rewrite (order_appointments _ _ _ _ E). exact IH.
  - rewrite (message_appointments _ _ _ _ E). exact IH.
Qed.

Lemma reachable_all_confirmed_witness :
  let w1 := snd (AppointmentPlugin.process Examples.acme
                   (Examples.booking "2024-11-04" "10:00" "Cleaning")
                   Examples.fresh) in
  let w2 := snd (AppointmentPlugin.process Examples.acme
                   (Examples.booking "2024-11-05" "11:00" "Root canal") w1) in
  Forall (fun a => a_status a = confirmed) (appointments (w_db w2)).
Proof.
  intros w1 w2. apply (reachable_all_confirmed (w_db w2)).
  eapply reach_booking with (w := w1); [| apply surjective_pairing].
  eapply reach_booking with (w := Examples.fresh);
    [apply reach_init | apply surjective_pairing].
Defined.

(** ** Booking, then cancelling *)

Lemma find_app_none {A} (p : A -> bool) l1 l2 :
  find p l1 = None -> find p (l1 ++ l2) = find p l2.
Proof.
  induction l1 as [| a l1 IH]; simpl; [reflexivity |].
  destruct (p a); [discriminate | exact IH].
Qed.

Lemma find_app_some {A} (p : A -> bool) l1 l2 x :
  find p l1 = Some x -> find p (l1 ++ l2) = Some x.
Proof.
  induction l1 as [| a l1 IH]; simpl; [discriminate |].
  destruct (p a); [auto | exact IH].
Qed.

Lemma delete_fresh_id id rows :
  Forall (fun a => a_id a < id) rows ->
  CancellationPlugin.delete_by_id id rows = rows.
Proof.
  unfold CancellationPlugin.delete_by_id.
  induction 1 as [| a l Ha _ IH]; simpl; [reflexivity |].
  destruct (Z.eqb_spec (a_id a) id); [lia |]. simpl. f_equal. exact IH.
Qed.

Lemma delete_app id l1 l2 :
  CancellationPlugin.delete_by_id id (l1 ++ l2)
  = CancellationPlugin.delete_by_id id l1
    ++ CancellationPlugin.delete_by_id id l2.
Proof. unfold CancellationPlugin.delete_by_id. apply List.filter_app. Qed.

(** What a cancellation with a name and a phone does. *)
Lemma cancellation_found name phone start_time w row :
  name <> "" -> phone <> "" ->
  find (CancellationPlugin.customer_row name phone) (appointments (w_db w))
  = Some row ->
  exists log',
    CancellationPlugin.process
      (mk_cancel_data (Some name) (Some phone) start_time) w
    = (Ok (reply true ("Your appointment at " +:+ Py.str start_time
                       +:+ " has been canceled successfully.")),
       mk_world
         (with_appointments (w_db w)
            (CancellationPlugin.delete_by_id (a_id row) (appointments (w_db w)))
            (appointments_seq (w_db w)))
         (w_log w ++ log')).
Proof.
  intros Hn Hp Hf. unfold CancellationPlugin.process. simpl.
  destruct name as [| a n]; [congruence |].
  destruct phone as [| b p]; [congruence |].
  cbn [Py.truthy andb negb]. unfold_monad. rewrite Hf.
  eexists [_; _]. cbn [w_log]. rewrite <- app_assoc. reflexivity.
Qed.

(** X9.  Booking and then cancelling under the same name and phone gives
    the appointment table back as it was, when no earlier row has that name
    and phone: the cancellation finds the new row and deletes it alone.
    The counter is not given back. *)
Theorem book_then_cancel (config : BusinessConfig) (data : booking_data)
    (name phone : string) (start_time : option string)
    (w w1 : world) (r : response) :
  reachable (w_db w) ->
  AppointmentPlugin.process config data w = (Ok r, w1) ->
  success r = true ->
  bk_customer_name data = Some name -> bk_phone data = Some phone ->
  name <> "" -> phone <> "" ->
  find (CancellationPlugin.customer_row name phone) (appointments (w_db w))
  = None ->
  exists r2 w2,
    CancellationPlugin.process
      (mk_cancel_data (Some name) (Some phone) start_time) w1 = (Ok r2, w2)
    /\ success r2 = true
    /\ appointments (w_db w2) = appointments (w_db w)
    /\ appointments_seq (w_db w2) = appointments_seq (w_db w) + 1.
Proof.
  intros HR E Hs Hn Hp Hne Hpe Hnone.
  pose proof (process_path config data w) as P.
  rewrite E in P. inversion P; subst; try discriminate.
  match goal with
  | |- context [mk_world ?d ?l] => set (w1 := mk_world d l)
  end.
  set (new := booked_row data (Py.minutes_of parsed) duration
                (appointments_seq (w_db w) + 1)).
  assert (Hnew : CancellationPlugin.customer_row name phone new = true).
  { unfold CancellationPlugin.customer_row, new, booked_row. simpl.
    rewrite Hn, Hp, !String.eqb_refl. reflexivity. }
  assert (Hf : find (CancellationPlugin.customer_row name phone)
                 (appointments (w_db w1)) = Some new).
  { change (appointments (w_db w1)) with (appointments (w_db w) ++ [new]).
    rewrite find_app_none by exact Hnone. cbn [find]. rewrite Hnew.
    reflexivity. }
  destruct (cancellation_found name phone start_time w1 new Hne Hpe Hf)
    as (log2 & E2).
  rewrite E2. eexists _, _. split; [reflexivity |].
  split; [reflexivity |]. split; [| reflexivity].
  cbn [w_db with_appointments appointments].
  change (appointments (w_db w1)) with (appointments (w_db w) ++ [new]).
  rewrite delete_app.
  destruct (reachable_ids_unique _ HR) as [_ HF].
  rewrite delete_fresh_id.
  - unfold CancellationPlugin.delete_by_id, new, booked_row. simpl.
    rewrite Z.eqb_refl. simpl. apply app_nil_r.
  - eapply List.Forall_impl; [| exact HF]. simpl. intros a Ha. lia.
Qed.

Lemma book_then_cancel_witness :
  let data := Examples.booking "2024-11-04" "10:00" "Cleaning" in
  let w := Examples.fresh in
  let out := AppointmentPlugin.process Examples.acme data w in
  exists r2 w2,
    CancellationPlugin.process
      (mk_cancel_data (Some "Ann Lee") (Some "555-0100") None) (snd out)
    = (Ok r2, w2)
    /\ success r2 = true
    /\ appointments (w_db w2) = appointments (w_db w)
    /\ appointments_seq (w_db w2) = appointments_seq (w_db w) + 1.
Proof.
  intros data w out.
  apply (book_then_cancel Examples.acme data "Ann Lee" "555-0100" None w
           (snd out) (returned (reply false "") (fst out))).
  - apply reach_init.
  - vm_compute. reflexivity.
  - vm_compute. reflexivity.
  - reflexivity.
  - reflexivity.
  - discriminate.
  - discriminate.
  - reflexivity.
Defined.

(** X10.  A customer who already has an appointment, books another and then
    cancels loses the older one: the cancellation deletes the first row
    with the name and the phone, and the row just booked stays. *)
Theorem cancel_after_rebooking_removes_older (config : BusinessConfig)
    (data : booking_data) (name phone : string) (start_time : option string)
    (w w1 : world) (r : response) (older : appointment) :
  reachable (w_db w) ->
  AppointmentPlugin.process config data w = (Ok r, w1) ->
  success r = true ->
  bk_customer_name data = Some name -> bk_phone data = Some phone ->
  name <> "" -> phone <> "" ->
  find (CancellationPlugin.customer_row name phone) (appointments (w_db w))
  = Some older ->
  exists r2 w2 new,
    CancellationPlugin.process
      (mk_cancel_data (Some name) (Some phone) start_time) w1 = (Ok r2, w2)
    /\ success r2 = true
    /\ appointments (w_db w1) = appointments (w_db w) ++ [new]
    /\ CancellationPlugin.customer_row name phone new = true
    /\ appointments (w_db w2)
       = remove_first (CancellationPlugin.customer_row name phone)
           (appointments (w_db w)) ++ [new].
Proof.
  intros HR E Hs Hn Hp Hne Hpe Hold.
  pose proof (process_path config data w) as P.
  rewrite E in P. inversion P; subst; try discriminate.
  match goal with
  | |- context [mk_world ?d ?l] => set (w1 := mk_world d l)
  end.
  set (new := booked_row data (Py.minutes_of parsed) duration
                (appointments_seq (w_db w) + 1)).
  assert (Hf : find (CancellationPlugin.customer_row name phone)
                 (appointments (w_db w1)) = Some older).
  { change (appointments (w_db w1)) with (appointments (w_db w) ++ [new]).
    apply find_app_some. exact Hold. }
  destruct (cancellation_found name phone start_time w1 older Hne Hpe Hf)
    as (log2 & E2).
  rewrite E2. exists (reply true ("Your appointment at " +:+ Py.str start_time
                       +:+ " has been canceled successfully.")).
  eexists. exists new. split; [reflexivity |].
  split; [reflexivity |]. split; [reflexivity |].
  split.
  { unfold CancellationPlugin.customer_row, new, booked_row. simpl.
    rewrite Hn, Hp, !String.eqb_refl. reflexivity. }
  cbn [w_db with_appointments appointments].
  change (appointments (w_db w1)) with (appointments (w_db w) ++ [new]).
  rewrite delete_app.
  destruct (reachable_ids_unique _ HR) as [ND HF].
  rewrite (delete_first_match _ _ _ ND Hold). f_equal.
  unfold CancellationPlugin.delete_by_id, new, booked_row. simpl.
  destruct (Z.eqb_spec (appointments_seq (w_db w) + 1) (a_id older)) as [Heq |];
    [| reflexivity].
  exfalso. apply find_some in Hold as [Hin _].
  rewrite List.Forall_forall in HF. specialize (HF older Hin). simpl in HF. lia.
Qed.

Lemma cancel_after_rebooking_removes_older_witness :
  let first := Examples.booking "2024-11-04" "10:00" "Cleaning" in
  let second := Examples.booking "2024-11-05" "11:00" "Root canal" in
  let w := snd (AppointmentPlugin.process Examples.acme first Examples.fresh) in
  let out := AppointmentPlugin.process Examples.acme second w in
  exists r2 w2 new,
    CancellationPlugin.process
      (mk_cancel_data (Some "Ann Lee") (Some "555-0100") (Some "Tuesday"))
      (snd out) = (Ok r2, w2)
    /\ success r2 = true
    /\ appointments (w_db (snd out)) = appointments (w_db w) ++ [new]
    /\ CancellationPlugin.customer_row "Ann Lee" "555-0100" new = true
    /\ appointments (w_db w2)
       = remove_first (CancellationPlugin.customer_row "Ann Lee" "555-0100")
           (appointments (w_db w)) ++ [new].
Proof.
  intros first second w out.
  apply (cancel_after_rebooking_removes_older Examples.acme second "Ann Lee"
           "555-0100" (Some "Tuesday") w (snd out)
           (returned (reply false "") (fst out))
           (booked_row first (Examples.at_ 4 10 0) 30 1)).
  - eapply reach_booking with (w := Examples.fresh);
      [apply reach_init | apply surjective_pairing].
  - vm_compute. reflexivity.
  - vm_compute. reflexivity.
  - reflexivity.
  - reflexivity.
  - discriminate.
  - discriminate.
  - vm_compute. reflexivity.
Defined.


(** ** The after-hours detector *)




Lemma append_empty_r s : s +:+ "" = s.
Proof.
  induction s as [| a s IH]; [reflexivity |].
  change (String a (s +:+ "") = String a s). f_equal. exact IH.
Qed.

Lemma next_open_day_loop_skip config now wd l1 l2 :
  Forall (fun i => closed_entry (business_hours config !! day_after wd i) = true)
    l1 ->
  AfterHoursHandler.next_open_day_loop config now (l1 ++ l2) wd
  = AfterHoursHandler.next_open_day_loop config now l2 wd.
Proof.
  induction 1 as [| i l1 Hi _ IH]; [reflexivity |].
  cbn [app AfterHoursHandler.next_open_day_loop]. unfold day_after in Hi.
  destruct (business_hours config !! _) as [h |]; [| exact IH].
  rewrite Hi. exact IH.
Qed.

Lemma next_open_day_loop_hit config now wd i l h :
  business_hours config !! day_after wd i = Some h ->
  closed_entry (Some h) = false ->
  AfterHoursHandler.next_open_day_loop config now (i :: l) wd
  = Py.title (day_after wd i) +:+ opening_clause now h.
Proof.
  intros Hh Hc. cbn [AfterHoursHandler.next_open_day_loop].
  unfold day_after in Hh. rewrite Hh, Hc. unfold opening_clause, day_after.
  destruct (Py.split "-" h) as [| open_time ?];
    [symmetry; apply append_empty_r |].
  destruct (Py.strptime _ _); [reflexivity | symmetry; apply append_empty_r].
Qed.

(** X13.  [_get_next_open_day] names the first day after today, in the
    order of the week and wrapping around to today itself a week on, whose
    hours entry is present and neither empty nor ['closed'], followed by
    its opening time when that parses; it falls back to "during our
    business hours" exactly when all seven entries are closed. *)
Theorem next_open_day_first_open (config : BusinessConfig) (now : Py.datetime) :
  let wd := Py.weekday (Py.dt_date now) in
  ((forall k, 1 <= k <= 7 ->
      closed_entry (business_hours config !! day_after wd k) = true) ->
   AfterHoursHandler._get_next_open_day config now
   = "during our business hours")
  /\ (forall k h,
        1 <= k <= 7 ->
        business_hours config !! day_after wd k = Some h ->
        closed_entry (Some h) = false ->
        (forall j, 1 <= j < k ->
           closed_entry (business_hours config !! day_after wd j) = true) ->
        AfterHoursHandler._get_next_open_day config now
        = Py.title (day_after wd k) +:+ opening_clause now h).
Proof.
  intros wd. unfold AfterHoursHandler._get_next_open_day. fold wd. split.
  - intros H.
    rewrite <- (app_nil_r [1; 2; 3; 4; 5; 6; 7]).
    rewrite next_open_day_loop_skip; [reflexivity |].
    repeat (constructor; [apply H; lia |]). constructor.
  - intros k h Hk Hh Hc Hbefore.
    assert (Hcases : k = 1 \/ k = 2 \/ k = 3 \/ k = 4 \/ k = 5 \/ k = 6 \/ k = 7)
      by lia.
    destruct Hcases as [-> | [-> | [-> | [-> | [-> | [-> | ->]]]]]].
    + apply (next_open_day_loop_hit _ _ _ 1 _ h Hh Hc).
    + change [1; 2; 3; 4; 5; 6; 7] with ([1] ++ [2; 3; 4; 5; 6; 7]).
      rewrite next_open_day_loop_skip
        by (repeat (constructor; [apply Hbefore; lia |]); constructor).
      apply (next_open_day_loop_hit _ _ _ 2 _ h Hh Hc).
    + change [1; 2; 3; 4; 5; 6; 7] with ([1; 2] ++ [3; 4; 5; 6; 7]).
      rewrite next_open_day_loop_skip
        by (repeat (constructor; [apply Hbefore; lia |]); constructor).
      apply (next_open_day_loop_hit _ _ _ 3 _ h Hh Hc).
    + change [1; 2; 3; 4; 5; 6; 7] with ([1; 2; 3] ++ [4; 5; 6; 7]).
      rewrite next_open_day_loop_skip
        by (repeat (constructor; [apply Hbefore; lia |]); constructor).
      apply (next_open_day_loop_hit _ _ _ 4 _ h Hh Hc).
    + change [1; 2; 3; 4; 5; 6; 7] with ([1; 2; 3; 4] ++ [5; 6; 7]).
      rewrite next_open_day_loop_skip
        by (repeat (constructor; [apply Hbefore; lia |]); constructor).
      apply (next_open_day_loop_hit _ _ _ 5 _ h Hh Hc).
    + change [1; 2; 3; 4; 5; 6; 7] with ([1; 2; 3; 4; 5] ++ [6; 7]).
      rewrite next_open_day_loop_skip
        by (repeat (constructor; [apply Hbefore; lia |]); constructor).
      apply (next_open_day_loop_hit _ _ _ 6 _ h Hh Hc).
    + change [1; 2; 3; 4; 5; 6; 7] with ([1; 2; 3; 4; 5; 6] ++ [7]).
      rewrite next_open_day_loop_skip
        by (repeat (constructor; [apply Hbefore; lia |]); constructor).
      apply (next_open_day_loop_hit _ _ _ 7 _ h Hh Hc).
Qed.

Lemma next_open_day_first_open_witness :
  let friday_evening :=
    Py.mk_datetime (Py.mk_date 2024 11 8) (Py.mk_time 18 0 0 0) in
  AfterHoursHandler._get_next_open_day Examples.acme friday_evening
  = "Monday at 9:00 AM".
Proof.
  intros friday_evening.
  rewrite (proj2 (next_open_day_first_open Examples.acme friday_evening)
             3 "09:00-17:00").
  - vm_compute. reflexivity.
  - lia.
  - vm_compute. reflexivity.
  - reflexivity.
  - intros j Hj. assert (Hc : j = 1 \/ j = 2) by lia.
    destruct Hc as [-> | ->]; vm_compute; reflexivity.
Defined.
(** ** Routing *)

Ltac intent_cases H :=
  cbn [existsb] in H;
  repeat (apply orb_true_iff in H as [H | H]);
  try discriminate H; apply String.eqb_eq in H; subst.

(** No intent is claimed by two handlers. *)
Lemma can_handle_unique p q intent :
  PluginManager.can_handle p intent = true ->
  PluginManager.can_handle q intent = true -> p = q.
Proof.
  intros Hp Hq.
  destruct p, q; try reflexivity; exfalso;
    unfold PluginManager.can_handle, AppointmentPlugin.can_handle,
      AppointmentPlugin.intents, OrderPlugin.can_handle, FAQPlugin.can_handle,
      MessagePlugin.can_handle, CancellationPlugin.can_handle in Hp, Hq;
    intent_cases Hp; vm_compute in Hq; discriminate Hq.
Qed.

Lemma route_hit s plugins intent data p :
  In p plugins -> PluginManager.can_handle p intent = true ->
  PluginManager.route s plugins intent data = PluginManager.process s p data.
Proof.
  induction plugins as [| q plugins IH]; intros Hin Hp; [destruct Hin |].
  cbn [PluginManager.route].
  destruct (PluginManager.can_handle q intent) eqn:Hq.
  - rewrite (can_handle_unique _ _ _ Hq Hp). reflexivity.
  - destruct Hin as [-> | Hin]; [congruence | auto].
Qed.

Lemma route_miss s plugins intent data :
  (forall p, In p plugins -> PluginManager.can_handle p intent = false) ->
  PluginManager.route s plugins intent data
  = ret (Handled PluginManager.not_sure).
Proof.
  induction plugins as [| q plugins IH]; intros H; [reflexivity |].
  cbn [PluginManager.route]. rewrite (H q) by (left; reflexivity).
  apply IH. intros p Hp. apply H. right. exact Hp.
Qed.

(** X14.  Routing is unambiguous: no intent is accepted by two handlers, so
    a request goes to the one loaded handler that accepts its intent,
    whatever the order the handlers were loaded in; and when no loaded
    handler accepts it, the answer is the "not sure" reply and the database
    and its log are left as they were. *)
Theorem route_request_dispatch (s : site) (intent : string)
    (data : call_data) :
  (forall p q,
     PluginManager.can_handle p intent = true ->
     PluginManager.can_handle q intent = true -> p = q)
  /\ (forall p plugins,
        Permutation (PluginManager._load_plugins s) plugins ->
        In p plugins -> PluginManager.can_handle p intent = true ->
        PluginManager.route s plugins intent data
        = PluginManager.process s p data
        /\ PluginManager.route_request s intent data
           = PluginManager.process s p data)
  /\ ((forall p, In p (PluginManager._load_plugins s) ->
         PluginManager.can_handle p intent = false) ->
      forall w,
        PluginManager.route_request s intent data w
        = (Ok (Handled PluginManager.not_sure), w)).
Proof.
  split; [| split].
  - intros p q. apply can_handle_unique.
  - intros p plugins HP Hin Hp. split.
    + apply route_hit; assumption.
    + apply route_hit; [| assumption].
      apply (Permutation_in _ (Permutation_sym HP)). exact Hin.
  - intros H w. unfold PluginManager.route_request.
    rewrite route_miss by exact H. reflexivity.
Qed.

Lemma route_request_dispatch_witness :
  PluginManager.route_request Sites.acme_site "cancel" Sites.from_bob
  = PluginManager.process Sites.acme_site Cancellations Sites.from_bob.
Proof.
  apply (proj1 (proj2 (route_request_dispatch Sites.acme_site "cancel"
                         Sites.from_bob))
           Cancellations [Cancellations; Appointments]).
  - vm_compute. apply perm_swap.
  - left. reflexivity.
  - reflexivity.
Defined.

(** ** The webhook *)

Lemma old_or_refl {A} (p : A -> Prop) l : old_or p l l.
Proof. intros x Hx. left. exact Hx. Qed.

Lemma old_or_snoc {A} (p : A -> Prop) l x : p x -> old_or p l (l ++ [x]).
Proof.
  intros Hp y Hy. apply in_app_or in Hy as [Hy | [<- | []]]; auto.
Qed.

(** What one handler does to the three tables, for a request stamped with
    [cd_business_id data]. *)
Lemma plugin_rows s p data w o w' :
  PluginManager.process s p data w = (o, w') ->
  old_or (fun a => a_business_id a = cd_business_id data)
    (appointments (w_db w)) (appointments (w_db w'))
  /\ old_or (fun r => o_business_id r = cd_business_id data)
       (orders (w_db w)) (orders (w_db w'))
  /\ old_or (fun m => m_business_id m = cd_business_id data)
       (messages (w_db w)) (messages (w_db w')).
Proof.
  destruct p; cbn [PluginManager.process]; unfold PluginManager.handled, bind.
  - destruct (AppointmentPlugin.process _ _ w) as [o1 w1] eqn:E.
    intros H.
    assert (w' = w1) as -> by (destruct o1; unfold ret in H; congruence).
    clear H. destruct (booking_frame _ _ _ _ _ E) as (-> & _ & -> & _).
    split; [| split; apply old_or_refl].
    pose proof (process_path (site_config s) (booking_of data) w) as P.
    rewrite E in P. inversion P; subst; try apply old_or_refl.
    cbn [w_db with_appointments appointments]. apply old_or_snoc. reflexivity.
  - destruct (OrderPlugin.process _ w) as [o1 w1] eqn:E.
    intros H.
    assert (w' = w1) as -> by (destruct o1; unfold ret in H; congruence).
    clear H. rewrite (order_appointments _ _ _ _ E).
    destruct (order_effect _ _ _ _ E)
      as [(_ & _ & ->) | (_ & row & -> & _ & Hb & _ & -> & _)];
      [repeat split; apply old_or_refl |].
    split; [apply old_or_refl |]. split; [| apply old_or_refl].
    apply old_or_snoc. exact Hb.
  - unfold lift. destruct (FAQPlugin.process _ _); unfold ret;
      intros [= _ <-]; repeat split; apply old_or_refl.
  - destruct (MessagePlugin.process _ w) as [o1 w1] eqn:E.
    intros H.
    assert (w' = w1) as -> by (destruct o1; unfold ret in H; congruence).
    clear H. rewrite (message_appointments _ _ _ _ E).
    destruct (message_effect _ _ _ _ E) as (row & -> & _ & Hb & _ & -> & _).
    split; [apply old_or_refl |]. split; [apply old_or_refl |].
    apply old_or_snoc. exact Hb.
  - destruct (CancellationPlugin.process _ w) as [o1 w1] eqn:E.
    intros H.
    assert (w' = w1) as -> by (destruct o1; unfold ret in H; congruence).
    clear H. destruct (cancellation_frame _ _ _ _ E) as (-> & _ & -> & _).
    split; [| split; apply old_or_refl].
    destruct (cancellation_appointments _ _ _ _ E) as [_ [-> | (id & ->)]];
      [apply old_or_refl |].
    intros a Ha. left. apply filter_In in Ha as [Ha _]. exact Ha.
Qed.

Lemma route_rows s plugins intent data w o w' :
  PluginManager.route s plugins intent data w = (o, w') ->
  old_or (fun a => a_business_id a = cd_business_id data)
    (appointments (w_db w)) (appointments (w_db w'))
  /\ old_or (fun r => o_business_id r = cd_business_id data)
       (orders (w_db w)) (orders (w_db w'))
  /\ old_or (fun m => m_business_id m = cd_business_id data)
       (messages (w_db w)) (messages (w_db w')).
Proof.
  induction plugins as [| q plugins IH]; cbn [PluginManager.route].
  - unfold ret. intros [= _ <-]. repeat split; apply old_or_refl.
  - destruct (PluginManager.can_handle q intent); [apply plugin_rows | exact IH].
Qed.

(** The world a call leaves and the routed run it came from. *)
Lemma webhook_world configs now request w resp w' :
  Webhook.vapi_webhook configs now request w = (resp, w') ->
  w' = w
  \/ exists business_id s intent o,
       Webhook.business_id_of request = Some business_id
       /\ configs business_id = Some s
       /\ rq_intent request = Some intent
       /\ PluginManager.route_request s intent
            (Webhook.with_business_id (rq_data request) business_id) w
          = (o, w').
Proof.
  unfold Webhook.vapi_webhook.
  destruct (Webhook.business_id_of request) as [bid |]; [| intros [= _ <-]; auto].
  destruct (negb _); [intros [= _ <-]; auto |].
  destruct (configs bid) as [s |] eqn:Hc; [| intros [= _ <-]; auto].
  destruct (AfterHoursHandler.is_after_hours _ _) as [after msg].
  destruct (rq_intent request) as [intent |].
  2:{ destruct after; intros [= _ <-]; auto. }
  destruct (PluginManager.route_request s intent _ w) as [o w1] eqn:E.
  intros H. right. exists bid, s, intent, o.
  repeat split; try assumption; try reflexivity.
  rewrite E. f_equal.
  destruct o as [r | e]; [| congruence].
  destruct after; [| congruence].
  destruct (_ && _); [destruct r |]; congruence.
Qed.

(** X15.  Whatever a call's [data] says about [business_id], every row the
    webhook adds to a table carries the business id of the call's envelope,
    the one whose configuration was loaded: no call can insert a row under
    another business's id. *)
Theorem webhook_rows_carry_business_id (configs : string -> option site)
    (now : Py.datetime) (request : webhook_request) (w w' : world)
    (resp : webhook_response) :
  Webhook.vapi_webhook configs now request w = (resp, w') ->
  old_or (fun a => Webhook.business_id_of request = Some (a_business_id a))
    (appointments (w_db w)) (appointments (w_db w'))
  /\ old_or (fun r => Webhook.business_id_of request = Some (o_business_id r))
       (orders (w_db w)) (orders (w_db w'))
  /\ old_or (fun m => Webhook.business_id_of request = Some (m_business_id m))
       (messages (w_db w)) (messages (w_db w')).
Proof.
  intros H.
  destruct (webhook_world _ _ _ _ _ _ H)
    as [-> | (bid & s & intent & o & Hb & _ & _ & E)];
    [repeat split; apply old_or_refl |].
  apply route_rows in E as (Ha & Ho & Hm). cbn [Webhook.with_business_id
    cd_business_id] in Ha, Ho, Hm. rewrite Hb.
  repeat split; intros x Hx;
    [destruct (Ha x Hx) | destruct (Ho x Hx) | destruct (Hm x Hx)];
    auto; right; congruence.
Qed.

Lemma webhook_rows_carry_business_id_witness :
  let data :=
    mk_call_data (Some "Ann Lee") (Some "555-0100") (Some "") None None None
      (Some "") None (Some "2 bagels") 7 (Some "noon") (Some "") (Some "")
      (Some "") None None (Some "normal") "acme" in
  let out := Webhook.vapi_webhook Sites.directory Sites.monday_noon
               (Sites.call "globex" "place_order" data) Examples.fresh in
  map o_business_id (orders (w_db (snd out))) = ["globex"]
  /\ old_or (fun r => Some "globex" = Some (o_business_id r))
       [] (orders (w_db (snd out))).
Proof.
  intros data out. split; [vm_compute; reflexivity |].
  apply (webhook_rows_carry_business_id Sites.directory Sites.monday_noon
           (Sites.call "globex" "place_order" data) Examples.fresh (snd out)
           (fst out)).
  apply surjective_pairing.
Defined.

Lemma cancellations_loaded s :
  PluginManager.enabled s "cancellations" = true ->
  In Cancellations (PluginManager._load_plugins s).
Proof.
  intros H. unfold PluginManager._load_plugins. rewrite H.
  repeat (apply in_or_app; right). left. reflexivity.
Qed.

(** X16.  A cancellation is not confined to the caller's business: a call
    for any business with cancellations enabled deletes the first stored
    appointment that has the given name and phone, whichever business the
    row belongs to, and is answered with 200. *)
Theorem webhook_cancellation_any_business (configs : string -> option site)
    (now : Py.datetime) (request : webhook_request) (w : world)
    (business_id intent name phone : string) (s : site) (row : appointment) :
  Webhook.business_id_of request = Some business_id ->
  business_id <> "" ->
  configs business_id = Some s ->
  PluginManager.enabled s "cancellations" = true ->
  rq_intent request = Some intent ->
  CancellationPlugin.can_handle intent = true ->
  cd_customer_name (rq_data request) = Some name ->
  cd_phone (rq_data request) = Some phone ->
  name <> "" -> phone <> "" ->
  find (CancellationPlugin.customer_row name phone) (appointments (w_db w))
  = Some row ->
  exists resp w',
    Webhook.vapi_webhook configs now request w = (resp, w')
    /\ status_code resp = 200
    /\ appointments (w_db w')
       = CancellationPlugin.delete_by_id (a_id row) (appointments (w_db w)).
Proof.
  intros Hb Hne Hc Hen Hi Hcan Hn Hp Hnn Hpn Hf.
  unfold Webhook.vapi_webhook. rewrite Hb.
  destruct business_id as [| c0 bid]; [congruence |].
  cbn [Py.truthy negb]. rewrite Hc, Hi.
  destruct (AfterHoursHandler.is_after_hours _ _) as [after msg].
  unfold PluginManager.route_request.
  rewrite (route_hit s _ intent _ Cancellations (cancellations_loaded s Hen) Hcan).
  cbn [PluginManager.process]. unfold PluginManager.handled, bind.
  unfold cancel_of. cbn [Webhook.with_business_id cd_customer_name cd_phone
    cd_start_time]. rewrite Hn, Hp.
  destruct (cancellation_found name phone (cd_start_time (rq_data request))
              w row Hnn Hpn Hf) as (log' & ->).
  unfold ret.
  assert (Hnot : existsb (String.eqb intent)
                   ["schedule_appointment"; "book_appointment"] = false).
  { unfold CancellationPlugin.can_handle in Hcan. intent_cases Hcan;
      reflexivity. }
  rewrite Hnot. cbn [andb].
  destruct after; eexists _, _; (split; [reflexivity |]); split; reflexivity.
Qed.

Lemma webhook_cancellation_any_business_witness :
  let theirs := Examples.row 1 "globex" (Examples.at_ 5 9 0)
                  (Examples.at_ 5 9 30) in
  let w := Examples.store [theirs] in
  exists resp w',
    Webhook.vapi_webhook Sites.directory Sites.monday_noon
      (Sites.call "acme" "cancel" Sites.from_bob) w = (resp, w')
    /\ status_code resp = 200
    /\ appointments (w_db w')
       = CancellationPlugin.delete_by_id (a_id theirs) (appointments (w_db w)).
Proof.
  intros theirs w.
  apply (webhook_cancellation_any_business Sites.directory Sites.monday_noon
           (Sites.call "acme" "cancel" Sites.from_bob) w "acme" "cancel"
           "Bob Ray" "555-0199" Sites.acme_site theirs).
  - reflexivity.
  - discriminate.
  - reflexivity.
  - reflexivity.
  - reflexivity.
  - reflexivity.
  - reflexivity.
  - reflexivity.
  - discriminate.
  - discriminate.
  - reflexivity.
Defined.



Lemma plugin_answers s p data w a w' :
  PluginManager.process s p data w = (Ok (Answered a), w') -> p = Faq.
Proof.
  destruct p; cbn [PluginManager.process]; unfold PluginManager.handled, bind;
    try reflexivity.
  - destruct (AppointmentPlugin.process _ _ w) as [[r |] w1]; unfold ret;
      discriminate.
  - destruct (OrderPlugin.process _ w) as [[r |] w1]; unfold ret; discriminate.
  - destruct (MessagePlugin.process _ w) as [[r |] w1]; unfold ret;
      discriminate.
  - destruct (CancellationPlugin.process _ w) as [[r |] w1]; unfold ret;
      discriminate.
Qed.

(** The run of [route] is the run of the handler it picked, if any. *)
Lemma route_picks s plugins intent data w :
  PluginManager.route s plugins intent data w
  = (Ok (Handled PluginManager.not_sure), w)
  \/ exists p,
       In p plugins /\ PluginManager.can_handle p intent = true
       /\ PluginManager.route s plugins intent data w
          = PluginManager.process s p data w.
Proof.
  induction plugins as [| q plugins IH]; cbn [PluginManager.route];
    [left; reflexivity |].
  destruct (PluginManager.can_handle q intent) eqn:Hq.
  - right. exists q. split; [left; reflexivity |]. split; [exact Hq | reflexivity].
  - destruct IH as [IH | (p & Hin & Hp & E)]; [left; exact IH |].
    right. exists p. split; [right; exact Hin |]. split; assumption.
Qed.



(** The handler picked for an intent answers a question only when the
    intent is a question. *)
Lemma route_answered s plugins intent data w a w' :
  PluginManager.route s plugins intent data w = (Ok (Answered a), w') ->
  FAQPlugin.can_handle intent = true.
Proof.
  intros E.
  destruct (route_picks s plugins intent data w) as [E' | (p & _ & Hp & E')];
    rewrite E' in E; [discriminate |].
  apply plugin_answers in E. subst p. exact Hp.
Qed.

(** X18.  The after-hours detector only decorates the answer: which
    handler runs, the statements it sends to the database, the status code
    and whether the answer reports success do not depend on the time of
    the call, for calls taken before the last day of the calendar. *)
Theorem webhook_effect_independent_of_clock (configs : string -> option site)
    (now now' : Py.datetime) (request : webhook_request) (w : world) :
  Py.toordinal (Py.dt_date now) <= max_date ->
  Py.toordinal (Py.dt_date now') <= max_date ->
  let out := Webhook.vapi_webhook configs now request w in
  let out' := Webhook.vapi_webhook configs now' request w in
  w_log (snd out) = w_log (snd out')
  /\ status_code (fst out) = status_code (fst out')
  /\ match body (fst out), body (fst out') with
     | Failure e, Failure e' => e = e'
     | Result r _, Result r' _ =>
         result_success r = result_success r'
         /\ match r, r' with
            | Handled x, Handled x' =>
                alternatives x = alternatives x'
                /\ action x = action x'
                /\ appointment_id x = appointment_id x'
                /\ order_id x = order_id x'
            | Answered x, Answered x' => x = x'
            | _, _ => False
            end
     | _, _ => False
     end.
Proof.
  intros _ _. cbv zeta. unfold Webhook.vapi_webhook.
  destruct (Webhook.business_id_of request) as [bid |];
    [| cbn; repeat split; reflexivity].
  destruct (negb _); [cbn; repeat split; reflexivity |].
  destruct (configs bid) as [s |]; [| cbn; repeat split; reflexivity].
  destruct (AfterHoursHandler.is_after_hours (site_config s) now)
    as [after msg].
  destruct (AfterHoursHandler.is_after_hours (site_config s) now')
    as [after' msg'].
  destruct (rq_intent request) as [intent |].
  2:{ destruct after, after'; cbn; repeat split; reflexivity. }
  destruct (PluginManager.route_request s intent
              (Webhook.with_business_id (rq_data request) bid) w)
    as [[r | e] w1] eqn:E; [| cbn; repeat split; reflexivity].
  assert (Hnote : forall x, r = Answered x ->
            existsb (String.eqb intent)
              ["schedule_appointment"; "book_appointment"]
            && result_success r = false).
  { intros x ->. apply route_answered in E.
    destruct (existsb _ _) eqn:Hi; [| reflexivity].
    exfalso. unfold FAQPlugin.can_handle in E. intent_cases Hi; discriminate E. }
  destruct r as [x | x].
  - destruct after, after';
      try destruct (existsb _ _ && _); cbn; repeat split; reflexivity.
  - rewrite (Hnote x eq_refl).
    destruct after, after'; cbn; repeat split; reflexivity.
Qed.

(** The same booking at Monday noon and on the Sunday before, when the
    office is closed. *)
Lemma webhook_effect_independent_of_clock_witness :
  let sunday := Py.mk_datetime (Py.mk_date 2024 11 3) (Py.mk_time 12 0 0 0) in
  let data :=
    mk_call_data (Some "Ann Lee") (Some "555-0100") (Some "")
      (Some "2024-11-05") (Some "09:00") (Some "Cleaning") (Some "") None
      (Some "") 0 None (Some "") (Some "") (Some "") None None (Some "normal")
      "" in
  let request := Sites.call "acme" "book_appointment" data in
  let out := Webhook.vapi_webhook Sites.directory Sites.monday_noon request
               Examples.fresh in
  let out' := Webhook.vapi_webhook Sites.directory sunday request
                Examples.fresh in
  body (fst out) <> body (fst out')
  /\ w_log (snd out) = w_log (snd out')
  /\ status_code (fst out) = status_code (fst out').
Proof.
  intros sunday data request out out'.
  split; [vm_compute; discriminate |].
  destruct (webhook_effect_independent_of_clock Sites.directory
              Sites.monday_noon sunday request Examples.fresh)
    as (Hlog & Hcode & _).
  - vm_compute. discriminate.
  - vm_compute. discriminate.
  - split; [exact Hlog | exact Hcode].
Defined.

(** X19.  A booking made after hours is stored like any other; its
    confirmation gets the sentence about the office opening appended when
    the intent is [schedule_appointment] or [book_appointment], but not
    when the same booking arrives as [make_reservation]. *)
Theorem after_hours_note_skips_reservations (configs : string -> option site)
    (now : Py.datetime) (request : webhook_request) (w w1 : world)
    (business_id intent note : string) (s : site) (r : response) :
  Webhook.business_id_of request = Some business_id ->
  business_id <> "" ->
  configs business_id = Some s ->
  In Appointments (PluginManager._load_plugins s) ->
  rq_intent request = Some intent ->
  AppointmentPlugin.can_handle intent = true ->
  AfterHoursHandler.is_after_hours (site_config s) now = (true, note) ->
  AppointmentPlugin.process (site_config s)
    (booking_of (Webhook.with_business_id (rq_data request) business_id)) w
  = (Ok r, w1) ->
  success r = true ->
  Webhook.vapi_webhook configs now request w
  = (mk_webhook_response 200
       (Result (Handled (if String.eqb intent "make_reservation" then r
                         else Webhook.append_note r))
          (Some note)), w1).
Proof.
  intros Hb Hne Hc Hin Hi Hcan Hafter E Hs.
  unfold Webhook.vapi_webhook. rewrite Hb.
  destruct business_id as [| c0 bid]; [congruence |].
  cbn [Py.truthy negb]. rewrite Hc, Hi, Hafter.
  unfold PluginManager.route_request.
  rewrite (route_hit s _ intent _ Appointments Hin Hcan).
  cbn [PluginManager.process]. unfold PluginManager.handled, bind.
  rewrite E. unfold ret. cbn [result_success]. rewrite Hs, andb_true_r.
  unfold AppointmentPlugin.can_handle, AppointmentPlugin.intents in Hcan.
  intent_cases Hcan; reflexivity.
Qed.

Lemma after_hours_note_skips_reservations_witness :
  let data :=
    mk_call_data (Some "Ann Lee") (Some "555-0100") (Some "")
      (Some "2024-11-05") (Some "09:00") (Some "Consultation") (Some "") None
      (Some "") 0 None (Some "") (Some "") (Some "") None None (Some "normal")
      "" in
  let request := Sites.call "globex" "make_reservation" data in
  let booked_by := AppointmentPlugin.process Sites.globex
                     (booking_of (Webhook.with_business_id data "globex"))
                     Examples.fresh in
  let r := returned (reply false "") (fst booked_by) in
  success r = true
  /\ Webhook.vapi_webhook Sites.directory Sites.monday_noon request
       Examples.fresh
     = (mk_webhook_response 200
          (Result (Handled r)
             (Some (snd (AfterHoursHandler.is_after_hours Sites.globex
                           Sites.monday_noon)))),
        snd booked_by).
Proof.
  intros data request booked_by r.
  assert (Hs : success r = true) by (vm_compute; reflexivity).
  split; [exact Hs |].
  apply (after_hours_note_skips_reservations Sites.directory Sites.monday_noon
           request Examples.fresh (snd booked_by) "globex" "make_reservation"
           (snd (AfterHoursHandler.is_after_hours Sites.globex
                   Sites.monday_noon))
           Sites.globex_site r).
  - reflexivity.
  - discriminate.
  - reflexivity.
  - left. reflexivity.
  - reflexivity.
  - reflexivity.
  - vm_compute. reflexivity.
  - vm_compute. reflexivity.
  - exact Hs.
Defined.
(** ** Questions *)

Lemma starts_with_chars p s c :
  Str.starts_with p s = true ->
  In c (list_ascii_of_string p) -> In c (list_ascii_of_string s).
Proof.
  revert s. induction p as [| a p IH]; intros s H Hc; [destruct Hc |].
  destruct s as [| b s]; [discriminate |].
  cbn [Str.starts_with] in H. apply andb_true_iff in H as [Hab H].
  apply Ascii.eqb_eq in Hab. subst b.
  destruct Hc as [<- | Hc]; [left; reflexivity | right; eauto].
Qed.

Lemma contains_chars n h c :
  Str.contains n h = true ->
  In c (list_ascii_of_string n) -> In c (list_ascii_of_string h).
Proof.
  induction h as [| b h IH]; cbn [Str.contains]; intros H Hc.
  - rewrite orb_false_r in H. eapply starts_with_chars; eassumption.
  - apply orb_true_iff in H as [H | H];
      [eapply starts_with_chars; eassumption | right; auto].
Qed.

Lemma lower_char_not_upper c : is_upper (Py.lower_char c) = false.
Proof. destruct c as [[] [] [] [] [] [] [] []]; reflexivity. Qed.

Lemma lower_no_upper q c :
  In c (list_ascii_of_string (Py.lower q)) -> is_upper c = false.
Proof.
  induction q as [| a q IH]; simpl; [intros [] |].
  intros [<- | H]; [apply lower_char_not_upper | auto].
Qed.

(** X20.  The question is lower-cased before the keywords are looked for in
    it, but the keywords are not: an FAQ entry all of whose keywords
    contain an upper-case letter is never used, whatever is asked. *)
Theorem faq_capital_keywords_never_match (keywords answer : string)
    (faqs : list (string * string)) (question : string) :
  (forall k, In k (Py.split "|" keywords) -> has_upper (Py.strip k) = true) ->
  FAQPlugin.process ((keywords, answer) :: faqs) (Some question)
  = FAQPlugin.process faqs (Some question).
Proof.
  intros H. unfold FAQPlugin.process. cbn [FAQPlugin._find_answer].
  replace (FAQPlugin.entry_matches (Py.lower question) keywords) with false;
    [reflexivity |].
  symmetry. unfold FAQPlugin.entry_matches.
  apply not_true_is_false. intros Hex.
  apply existsb_exists in Hex as (k & Hk & Hc).
  specialize (H k Hk). unfold has_upper in H.
  apply existsb_exists in H as (c & Hin & Hup).
  pose proof (contains_chars _ _ c Hc Hin) as Hq.
  rewrite (lower_no_upper _ _ Hq) in Hup. discriminate.
Qed.

Lemma faq_capital_keywords_never_match_witness :
  FAQPlugin.process (site_faqs Sites.acme_site)
    (Some "Is there parking? And when do you close?")
  = Ok (mk_faq_response true "We are open Monday to Friday, 9 to 5.")
  /\ FAQPlugin.process
       [("Parking", "There is a car park behind the building.")]
       (Some "Is there Parking?")
     = FAQPlugin.process [] (Some "Is there Parking?").
Proof.
  split; [vm_compute; reflexivity |].
  apply (faq_capital_keywords_never_match "Parking"
           "There is a car park behind the building." [] "Is there Parking?").
  intros k [<- | []]. vm_compute. reflexivity.
Defined.

(** X21.  An empty alternative among the keywords of an FAQ entry, as a
    trailing [|] leaves one, is contained in every question: such an entry
    answers whatever is asked, and no entry after it is ever reached. *)
Theorem faq_blank_keyword_matches_all (keywords answer : string)
    (faqs : list (string * string)) (question k : string) :
  In k (Py.split "|" keywords) -> Py.strip k = "" -> answer <> "" ->
  FAQPlugin.process ((keywords, answer) :: faqs) (Some question)
  = Ok (mk_faq_response true answer).
Proof.
  intros Hk Hs Ha. unfold FAQPlugin.process. cbn [FAQPlugin._find_answer].
  replace (FAQPlugin.entry_matches (Py.lower question) keywords) with true.
  - destruct answer; [congruence | reflexivity].
  - symmetry. unfold FAQPlugin.entry_matches. apply existsb_exists.
    exists k. split; [exact Hk |]. rewrite Hs.
    destruct (Py.lower question); reflexivity.
Qed.

Lemma faq_blank_keyword_matches_all_witness :
  FAQPlugin.process
    [("price|cost|", "A cleaning is 80 dollars.");
     ("hours", "We are open 9 to 5.")]
    (Some "What are your hours?")
  = Ok (mk_faq_response true "A cleaning is 80 dollars.").
Proof.
  apply (faq_blank_keyword_matches_all "price|cost|"
           "A cleaning is 80 dollars." [("hours", "We are open 9 to 5.")]
           "What are your hours?" "").
  - vm_compute. right. right. left. reflexivity.
  - reflexivity.
  - discriminate.
Defined.
(** ** When two requests race *)

(** One statement of a request, by what it does to the appointment
    table. *)
Lemma step_thread_rows t w t' w' :
  Race.step_thread t w = Some (t', w') ->
  (Race.th_pc t = Race.AtCheck /\ t' = Race.at_pc t Race.AtBook
   /\ appointments (w_db w') = appointments (w_db w)
   /\ passes_check t (appointments (w_db w)))
  \/ (Race.th_pc t = Race.AtCheck /\ t' = Race.at_pc t Race.Rejected)
  \/ (Race.th_pc t = Race.AtBook
      /\ exists id a,
           t' = Race.at_pc t (Race.Booked id)
           /\ appointments (w_db w') = appointments (w_db w) ++ [a]
           /\ row_of t a).
Proof.
  unfold Race.step_thread. destruct (Race.th_pc t) eqn:Hpc; try discriminate.
  - rewrite check_availability_eq.
    destruct (find _ _) eqn:Hf; intros [= <- <-]; [right; left; auto |].
    left. repeat split; auto.
  - unfold AppointmentPlugin._book_appointment. unfold_monad.
    intros [= <- <-]. right. right. split; [reflexivity |].
    eexists _, _. split; [reflexivity |]. split; [reflexivity |].
    repeat split.
Qed.

(** A request whose interval overlaps a stored row of its business does
    not pass the conflict query. *)
Lemma overlapping_row_blocks t u a rows :
  bk_business_id (Race.th_data t) = bk_business_id (Race.th_data u) ->
  intervals_overlap (Race.th_start t) (Race.th_start t + Race.th_duration t)
    (Race.th_start u) (Race.th_start u + Race.th_duration u) ->
  row_of t a -> passes_check u (rows ++ [a]) -> False.
Proof.
  intros Hb Ho (Hab & Has & Hst & Hen) Hf.
  pose proof (find_none _ _ Hf a) as F.
  rewrite overlap_conflict_row in F.
  - discriminate F. apply in_or_app. right. left. reflexivity.
  - congruence.
  - exact Has.
  - rewrite Hst, Hen. exact Ho.
Qed.

Ltac next_statement R :=
  match type of R with
  | Race.run ?s _ _ _ = Some _ =>
      is_var s; destruct s as [| [] s]; cbn [Race.run] in R
  end.

Ltac run_statement R :=
  match type of R with
  | match Race.step_thread ?t ?v with _ => _ end = Some _ =>
      let S := fresh "S" in
      let Hpc := fresh "Hpc" in
      let Hrows := fresh "Hrows" in
      let Hpass := fresh "Hpass" in
      let Hrow := fresh "Hrow" in
      let id := fresh "id" in
      let a := fresh "a" in
      destruct (Race.step_thread t v) as [[? ?] |] eqn:S; [| discriminate R];
      apply step_thread_rows in S
        as [(Hpc & -> & Hrows & Hpass)
           | [(Hpc & ->) | (Hpc & id & a & -> & Hrows & Hrow)]];
      cbn [Race.th_pc Race.at_pc] in Hpc;
      try discriminate Hpc; try congruence
  end.

Ltac blocked :=
  exfalso;
  match goal with
  | Hp : passes_check ?u (appointments (w_db ?v)),
    Hr : appointments (w_db ?v) = _ ++ [?a],
    Ha : row_of ?t ?a |- _ =>
      rewrite Hr in Hp;
      apply (overlapping_row_blocks t u a _ ltac:(assumption)
               ltac:(assumption) Ha Hp)
  end.

(** X22.  Two requests of one business for overlapping intervals are both
    booked only when their statements interleave so that each conflict
    query runs before the other request's insert; and in each of those
    four schedules both are booked whenever both queries pass on the table
    they start from. *)
Theorem double_booking_iff_checks_first
    (t1 t2 : Race.thread) (w : world) :
  Race.th_pc t1 = Race.AtCheck -> Race.th_pc t2 = Race.AtCheck ->
  bk_business_id (Race.th_data t1) = bk_business_id (Race.th_data t2) ->
  intervals_overlap (Race.th_start t1) (Race.th_start t1 + Race.th_duration t1)
    (Race.th_start t2) (Race.th_start t2 + Race.th_duration t2) ->
  (forall schedule t1' t2' w',
     Race.run schedule t1 t2 w = Some (t1', t2', w') ->
     Race.is_booked t1' = true -> Race.is_booked t2' = true ->
     checks_first schedule)
  /\ (forall schedule,
        checks_first schedule ->
        passes_check t1 (appointments (w_db w)) ->
        passes_check t2 (appointments (w_db w)) ->
        exists t1' t2' w' a b,
          Race.run schedule t1 t2 w = Some (t1', t2', w')
          /\ Race.is_booked t1' = true /\ Race.is_booked t2' = true
          /\ row_of t1 a /\ row_of t2 b
          /\ (appointments (w_db w') = appointments (w_db w) ++ [a; b]
              \/ appointments (w_db w') = appointments (w_db w) ++ [b; a])).
Proof.
  intros Hpc1 Hpc2 Hb Ho.
  assert (Hb' : bk_business_id (Race.th_data t2)
                = bk_business_id (Race.th_data t1)) by congruence.
  assert (Ho' : intervals_overlap (Race.th_start t2)
                  (Race.th_start t2 + Race.th_duration t2)
                  (Race.th_start t1) (Race.th_start t1 + Race.th_duration t1))
    by (destruct Ho; split; assumption).
  split.
  - intros schedule t1' t2' w' R B1 B2.
    repeat first [next_statement R | run_statement R].
    all: try (injection R as <- <- <-; unfold Race.is_booked in B1, B2;
              cbn [Race.th_pc Race.at_pc] in B1, B2;
              try rewrite Hpc1 in B1; try rewrite Hpc2 in B2;
              try discriminate).
    all: try (unfold checks_first; tauto).
    all: blocked.
  - intros schedule Hs P1 P2. unfold passes_check in P1, P2.
    assert (S1 : forall v, appointments (w_db v) = appointments (w_db w) ->
              Race.step_thread t1 v
              = Some (Race.at_pc t1 Race.AtBook,
                      mk_world (w_db v)
                        (w_log v ++ [SelectConflict
                                       (bk_business_id (Race.th_data t1))
                                       (Race.th_start t1)
                                       (Race.th_start t1 + Race.th_duration t1)]))).
    { intros v Hv. unfold Race.step_thread. rewrite Hpc1.
      rewrite check_availability_eq, Hv, P1. reflexivity. }
    assert (S2 : forall v, appointments (w_db v) = appointments (w_db w) ->
              Race.step_thread t2 v
              = Some (Race.at_pc t2 Race.AtBook,
                      mk_world (w_db v)
                        (w_log v ++ [SelectConflict
                                       (bk_business_id (Race.th_data t2))
                                       (Race.th_start t2)
                                       (Race.th_start t2 + Race.th_duration t2)]))).
    { intros v Hv. unfold Race.step_thread. rewrite Hpc2.
      rewrite check_availability_eq, Hv, P2. reflexivity. }
    destruct Hs as [-> | [-> | [-> | ->]]]; cbn [Race.run].
    + rewrite S1 by reflexivity. rewrite S2 by reflexivity.
      eexists _, _, _, _, _. split; [reflexivity |].
      split; [reflexivity |]. split; [reflexivity |].
      split; [| split].
      3: left; cbn; rewrite <- app_assoc; reflexivity.
      all: repeat split.
    + rewrite S1 by reflexivity. rewrite S2 by reflexivity.
      eexists _, _, _, _, _. split; [reflexivity |].
      split; [reflexivity |]. split; [reflexivity |].
      split; [| split].
      3: right; cbn; rewrite <- app_assoc; reflexivity.
      all: repeat split.
    + rewrite S2 by reflexivity. rewrite S1 by reflexivity.
      eexists _, _, _, _, _. split; [reflexivity |].
      split; [reflexivity |]. split; [reflexivity |].
      split; [| split].
      3: left; cbn; rewrite <- app_assoc; reflexivity.
      all: repeat split.
    + rewrite S2 by reflexivity. rewrite S1 by reflexivity.
      eexists _, _, _, _, _. split; [reflexivity |].
      split; [reflexivity |]. split; [reflexivity |].
      split; [| split].
      3: right; cbn; rewrite <- app_assoc; reflexivity.
      all: repeat split.
Qed.

Lemma double_booking_iff_checks_first_witness :
  exists t1' t2' w' a b,
    Race.run [Race.First; Race.Second; Race.Second; Race.First]
      Examples.ann_at_10_00 Examples.ann_at_10_15 Examples.fresh
    = Some (t1', t2', w')
    /\ Race.is_booked t1' = true /\ Race.is_booked t2' = true
    /\ row_of Examples.ann_at_10_00 a /\ row_of Examples.ann_at_10_15 b
    /\ (appointments (w_db w') = appointments (w_db Examples.fresh) ++ [a; b]
        \/ appointments (w_db w') = appointments (w_db Examples.fresh) ++ [b; a]).
Proof.
  apply (proj2 (double_booking_iff_checks_first Examples.ann_at_10_00
                  Examples.ann_at_10_15 Examples.fresh eq_refl eq_refl eq_refl
                  ltac:(split; vm_compute; reflexivity))).
  - right. left. reflexivity.
  - reflexivity.
  - reflexivity.
Defined.
(** ** The hours gate and the duration *)


(** ** The order of the patterns *)

Lemma kind_of_lower c : kind_of (Py.lower_char c) = kind_of c.
Proof. destruct c as [[] [] [] [] [] [] [] []]; reflexivity. Qed.

Lemma space_kind a : Py.is_space a = true -> kind_of a = KBlank.
Proof.
  destruct a as [[] [] [] [] [] [] [] []]; intros H;
    first [reflexivity | discriminate H].
Qed.

Lemma range_kind lo hi a :
  Py.is_digit lo && Py.is_digit hi = true ->
  Py.cclass_mem (Py.CRange lo hi) a = true -> kind_of a = KDigit.
Proof.
  intros Hr H. apply andb_true_iff in Hr as [Hlo Hhi].
  unfold Py.cclass_mem in H. apply andb_true_iff in H as [H1 H2].
  unfold Py.is_digit in Hlo, Hhi.
  apply andb_true_iff in Hlo as [L1 _]. apply andb_true_iff in Hhi as [_ L2].
  apply N.leb_le in H1, H2, L1, L2.
  assert (Hd : Py.is_digit a = true).
  { unfold Py.is_digit. apply andb_true_iff. split; apply N.leb_le; lia. }
  unfold kind_of. rewrite Hd. reflexivity.
Qed.

Lemma class_kind_ok k a :
  digit_range k = true -> Py.cclass_mem k a = true -> kind_of a = class_kind k.
Proof.
  destruct k as [c | lo hi |]; cbn [digit_range class_kind]; intros Hg H.
  - apply char_mem_exact in H.
    rewrite <- (kind_of_lower a), H. apply kind_of_lower.
  - eapply range_kind; eassumption.
  - unfold Py.cclass_mem in H. unfold kind_of. rewrite H. reflexivity.
Qed.

Lemma kinds_append m r : kinds (m +:+ r) = kinds m ++ kinds r.
Proof.
  induction m as [| a m IH]; [reflexivity |].
  change (kind_of a :: kinds (m +:+ r) = kind_of a :: (kinds m ++ kinds r)).
  f_equal. exact IH.
Qed.

Lemma match_alt_kinds al s m r :
  forallb digit_range al = true ->
  Py.match_alt al s = Some (m, r) ->
  kinds s = map class_kind al ++ kinds r.
Proof.
  revert s m. induction al as [| k al IH]; intros s m Hg H.
  - simpl in H. injection H as _ <-. reflexivity.
  - cbn [forallb] in Hg. apply andb_true_iff in Hg as [Hk Hg].
    cbn [Py.match_alt] in H. destruct s as [| a s]; [discriminate |].
    destruct (Py.cclass_mem k a) eqn:Ha; [| discriminate].
    destruct (Py.match_alt al s) as [[m' r'] |] eqn:E; [| discriminate].
    injection H as _ <-.
    change (kind_of a :: kinds s
            = class_kind k :: (map class_kind al ++ kinds r')).
    rewrite (class_kind_ok k a Hk Ha). f_equal. eapply IH; eassumption.
Qed.

Lemma spaces_then_kinds {A} (k : string -> option A) s x :
  Py.spaces_then k s = Some x ->
  exists n s', kinds s = repeat KBlank (S n) ++ kinds s' /\ k s' = Some x.
Proof.
  induction s as [| a s IH]; cbn [Py.spaces_then]; [discriminate |].
  destruct (Py.is_space a) eqn:Ha; [| discriminate].
  destruct (Py.spaces_then k s) as [y |] eqn:E.
  - intros [= ->]. destruct (IH eq_refl) as (n & s' & Hk & Hs).
    exists (S n), s'. split; [| exact Hs].
    change (kind_of a :: kinds s = KBlank :: repeat KBlank (S n) ++ kinds s').
    rewrite (space_kind a Ha), Hk. reflexivity.
  - intros H. exists 0%nat, s. split; [| exact H].
    change (kind_of a :: kinds s = KBlank :: kinds s).
    rewrite (space_kind a Ha). reflexivity.
Qed.

(** Squashing looks at the first element and at what the rest squashes
    to. *)
Lemma squash_head x : hd_error (squash x) = hd_error x.
Proof.
  induction x as [| k x IH]; [reflexivity |].
  cbn [squash]. destruct k; try reflexivity.
  destruct x as [| k' x]; [reflexivity |].
  destruct k'; try reflexivity. rewrite IH. reflexivity.
Qed.

Lemma squash_cons k x y :
  squash x = squash y -> squash (k :: x) = squash (k :: y).
Proof.
  intros H. pose proof (squash_head x) as Hx. pose proof (squash_head y) as Hy.
  rewrite H in Hx. rewrite Hx in Hy.
  cbn [squash]. destruct k; try (f_equal; exact H).
  destruct x as [| a x], y as [| b y]; try discriminate Hy;
    [reflexivity |].
  injection Hy as ->. destruct b; try (f_equal; exact H). exact H.
Qed.

Lemma squash_app p x y :
  squash x = squash y -> squash (p ++ x) = squash (p ++ y).
Proof.
  intros H. induction p as [| k p IH]; [exact H |].
  apply squash_cons. exact IH.
Qed.

Lemma squash_blanks n x :
  squash (repeat KBlank (S n) ++ x) = squash (KBlank :: x).
Proof.
  induction n as [| n IH]; [reflexivity |].
  change (repeat KBlank (S (S n)) ++ x)
    with (KBlank :: KBlank :: (repeat KBlank n ++ x)).
  cbn [squash]. exact IH.
Qed.

Lemma dir_alts_digit_ranges d :
  forallb (forallb digit_range) (Py.dir_alts d) = true.
Proof. destruct d; reflexivity. Qed.

(** A string matched to its end has one of the shapes of the tokens. *)
Lemma re_match_shape ts :
  forall s g,
    Py.re_match ts s = Some (g, "") ->
    exists p, In p (shapes ts) /\ squash (kinds s) = squash p.
Proof.
  induction ts as [| t ts IH]; intros s g H.
  - apply re_match_nil_inv in H as [_ <-]. exists []. split; [left |]; reflexivity.
  - destruct t as [c | | d].
    + cbn [Py.re_match] in H. destruct s as [| a s]; [discriminate |].
      destruct (Py.cclass_mem (Py.CChar c) a) eqn:Ha; [| discriminate].
      destruct (IH s g H) as (p & Hp & Hs).
      exists (kind_of c :: p). split; [apply in_map; exact Hp |].
      change (squash (kind_of a :: kinds s) = squash (kind_of c :: p)).
      rewrite (class_kind_ok (Py.CChar c) a eq_refl Ha).
      apply squash_cons. exact Hs.
    + cbn [Py.re_match] in H.
      apply spaces_then_kinds in H as (n & s' & Hk & H).
      destruct (IH s' g H) as (p & Hp & Hs).
      exists (KBlank :: p). split; [apply in_map; exact Hp |].
      rewrite Hk, squash_blanks. apply squash_cons. exact Hs.
    + apply re_match_dir_inv in H as (al & m & r & g' & Hal & Hm & H & _).
      destruct (IH r g' H) as (p & Hp & Hs).
      pose proof (dir_alts_digit_ranges d) as Ht.
      rewrite forallb_forall in Ht. specialize (Ht al Hal).
      exists (map class_kind al ++ p). split.
      * cbn [shapes]. apply in_flat_map. exists (map class_kind al).
        split; [apply in_map; exact Hal | apply in_map; exact Hp].
      * rewrite (match_alt_kinds al s m r Ht Hm). apply squash_app. exact Hs.
Qed.

Lemma strptime_shape s f d :
  Py.strptime s f = Some d -> In (squash (kinds s)) (shape_set f).
Proof.
  unfold Py.strptime, shape_set.
  destruct (Py.compile f) as [ts |]; [| discriminate].
  destruct (Py.re_match ts s) as [[g rest] |] eqn:E; [| discriminate].
  destruct rest; [| discriminate]. intros _.
  destruct (re_match_shape ts s g E) as (p & Hp & ->).
  apply in_map. exact Hp.
Qed.

Lemma kind_eqb_refl k : kind_eqb k k = true.
Proof. destruct k; reflexivity. Qed.

Lemma kinds_eqb_refl x : kinds_eqb x x = true.
Proof.
  induction x as [| k x IH]; [reflexivity |].
  cbn [kinds_eqb]. rewrite kind_eqb_refl. exact IH.
Qed.

(** Patterns with no shape in common accept no string in common. *)
Lemma disjoint_shapes_exclusive f g s d d' :
  disjoint_shapes f g = true ->
  Py.strptime s f = Some d -> Py.strptime s g = Some d' -> False.
Proof.
  intros Hd Hf Hg. apply strptime_shape in Hf, Hg.
  unfold disjoint_shapes in Hd. apply negb_true_iff in Hd.
  assert (H : existsb (fun x => existsb (kinds_eqb x) (shape_set g))
                (shape_set f) = true).
  { apply existsb_exists. exists (squash (kinds s)). split; [exact Hf |].
    apply existsb_exists. exists (squash (kinds s)). split; [exact Hg |].
    apply kinds_eqb_refl. }
  congruence.
Qed.

(** The time patterns accept no string in common. *)
Lemma time_formats_exclusive f g s d d' :
  In f AppointmentPlugin.time_formats -> In g AppointmentPlugin.time_formats ->
  Py.strptime s f = Some d -> Py.strptime s g = Some d' -> f = g.
Proof.
  intros Hf Hg Ef Eg.
  destruct Hf as [<- | [<- | [<- | [<- | [<- | []]]]]];
    destruct Hg as [<- | [<- | [<- | [<- | [<- | []]]]]];
    try reflexivity; exfalso;
    refine (disjoint_shapes_exclusive _ _ _ _ _ _ Ef Eg);
    vm_compute; reflexivity.
Qed.

(** The numeric date patterns and the month-name patterns accept no
    string in common, nor do two numeric ones. *)
Lemma date_formats_exclusive f g s d d' :
  In f AppointmentPlugin.date_formats -> In g AppointmentPlugin.date_formats ->
  Py.strptime s f = Some d -> Py.strptime s g = Some d' ->
  f = g
  \/ (f = "%B %d, %Y" /\ g = "%b %d, %Y")
  \/ (f = "%b %d, %Y" /\ g = "%B %d, %Y").
Proof.
  intros Hf Hg Ef Eg.
  destruct Hf as [<- | [<- | [<- | [<- | [<- | []]]]]];
    destruct Hg as [<- | [<- | [<- | [<- | [<- | []]]]]];
    try (left; reflexivity);
    try (right; left; split; reflexivity);
    try (right; right; split; reflexivity);
    exfalso;
    refine (disjoint_shapes_exclusive _ _ _ _ _ _ Ef Eg);
    vm_compute; reflexivity.
Qed.

Lemma match_alt_split al s m r :
  Py.match_alt al s = Some (m, r) ->
  s = m +:+ r /\ String.length m = length al.
Proof.
  revert s m. induction al as [| k al IH]; intros s m H.
  - simpl in H. injection H as <- <-. split; reflexivity.
  - cbn [Py.match_alt] in H. destruct s as [| a s]; [discriminate |].
    destruct (Py.cclass_mem k a); [| discriminate].
    destruct (Py.match_alt al s) as [[m' r'] |] eqn:E; [| discriminate].
    injection H as <- <-. destruct (IH s m' E) as [-> Hl].
    split; [reflexivity |]. simpl. rewrite Hl. reflexivity.
Qed.

Lemma append_same_length m1 r1 m2 r2 :
  m1 +:+ r1 = m2 +:+ r2 -> String.length m1 = String.length m2 ->
  m1 = m2 /\ r1 = r2.
Proof.
  revert m2. induction m1 as [| a m1 IH]; intros [| b m2] H L;
    try discriminate L.
  - split; [reflexivity | exact H].
  - change (String a (m1 +:+ r1) = String b (m2 +:+ r2)) in H.
    injection H as -> H. injection L as L.
    destruct (IH m2 H L) as [-> ->]. split; reflexivity.
Qed.

(** A word of the pattern matches its own letters, in either case. *)
Lemma word_match w s m r :
  Py.match_alt (Py.word w) s = Some (m, r) -> Py.lower m = Py.lower w.
Proof.
  revert s m r. induction w as [| c w IH]; intros s m r H.
  - simpl in H. injection H as <- _. reflexivity.
  - change (Py.word (String c w)) with (Py.CChar c :: Py.word w) in H.
    cbn [Py.match_alt] in H. destruct s as [| a s]; [discriminate |].
    destruct (Py.cclass_mem (Py.CChar c) a) eqn:Ha; [| discriminate].
    destruct (Py.match_alt (Py.word w) s) as [[m' r'] |] eqn:E;
      [| discriminate].
    injection H as <- _. simpl. rewrite (IH s m' r' E).
    rewrite (char_mem_exact c a Ha). reflexivity.
Qed.

(** The groups of a match are those of the pattern's directives. *)
Lemma re_match_directives ts :
  forall s g rest,
    Py.re_match ts s = Some (g, rest) -> map fst g = directives ts.
Proof.
  induction ts as [| t ts IH]; intros s g rest H.
  - apply re_match_nil_inv in H as [-> _]. reflexivity.
  - destruct t as [c | | d].
    + apply re_match_lit_inv in H as (a & s' & _ & H). exact (IH _ _ _ H).
    + apply re_match_space_inv in H as (s' & H). exact (IH _ _ _ H).
    + apply re_match_dir_inv in H as (al & m & r & g' & _ & _ & H & ->).
      simpl. f_equal. exact (IH _ _ _ H).
Qed.

(** Only a [%I] group looks at the other groups. *)
Lemma convert_without_hour12 all1 all2 g :
  ~ In Py.dI (map fst g) ->
  forall d, Py.convert all1 g d = Py.convert all2 g d.
Proof.
  induction g as [| [k m] g IH]; intros Hn d; [reflexivity |].
  cbn [Py.convert].
  assert (Hk : k <> Py.dI) by (intros ->; apply Hn; left; reflexivity).
  assert (Hg : ~ In Py.dI (map fst g))
    by (intros H; apply Hn; right; exact H).
  destruct k; try congruence; apply IH; exact Hg.
Qed.

(** A string both month-name patterns accept is read alike by both: its
    month is May. *)
Lemma month_name_patterns_agree s d d' :
  Py.strptime s "%B %d, %Y" = Some d -> Py.strptime s "%b %d, %Y" = Some d' ->
  d = d'.
Proof.
  unfold Py.strptime.
  change (Py.compile "%B %d, %Y")
    with (Some [Py.TDir Py.dB; Py.TSpace; Py.TDir Py.dd; Py.TLit ",";
                Py.TSpace; Py.TDir Py.dY]).
  change (Py.compile "%b %d, %Y")
    with (Some [Py.TDir Py.db; Py.TSpace; Py.TDir Py.dd; Py.TLit ",";
                Py.TSpace; Py.TDir Py.dY]).
  cbv beta iota.
  destruct (Py.re_match (Py.TDir Py.dB :: _) s) as [[g1 rest1] |] eqn:E1;
    [| discriminate].
  destruct rest1; [| discriminate].
  destruct (Py.re_match (Py.TDir Py.db :: _) s) as [[g2 rest2] |] eqn:E2;
    [| discriminate].
  destruct rest2; [| discriminate].
  apply re_match_dir_inv in E1 as (al1 & m1 & r1 & g1' & Hal1 & Hm1 & E1 & ->).
  apply re_match_dir_inv in E2 as (al2 & m2 & r2 & g2' & Hal2 & Hm2 & E2 & ->).
  (* what follows the month is a blank *)
  assert (B1 : exists k, kinds r1 = KBlank :: k).
  { cbn [Py.re_match] in E1. apply spaces_then_kinds in E1 as (n & s' & -> & _).
    eexists. reflexivity. }
  assert (B2 : exists k, kinds r2 = KBlank :: k).
  { cbn [Py.re_match] in E2. apply spaces_then_kinds in E2 as (n & s' & -> & _).
    eexists. reflexivity. }
  destruct B1 as (k1 & B1). destruct B2 as (k2 & B2).
  pose proof (dir_alts_digit_ranges Py.dB) as G1.
  pose proof (dir_alts_digit_ranges Py.db) as G2.
  rewrite forallb_forall in G1, G2.
  pose proof (match_alt_kinds _ _ _ _ (G1 al1 Hal1) Hm1) as K1.
  pose proof (match_alt_kinds _ _ _ _ (G2 al2 Hal2) Hm2) as K2.
  rewrite B1 in K1. rewrite B2 in K2. rewrite K1 in K2.
  assert (L2 : length al2 = 3%nat).
  { clear - Hal2. simpl in Hal2.
    repeat (destruct Hal2 as [<- | Hal2]; [reflexivity |]). destruct Hal2. }
  assert (M1 : al1 = Py.word "may").
  { clear - Hal1 Hal2 K2. 
    assert (S2 : map class_kind al2 = [KLetter; KLetter; KLetter]).
    { clear - Hal2. simpl in Hal2.
      repeat (destruct Hal2 as [<- | Hal2]; [reflexivity |]). destruct Hal2. }
    rewrite S2 in K2. clear S2 Hal2. simpl in Hal1.
    repeat (destruct Hal1 as [<- | Hal1];
            [first [reflexivity | exfalso; vm_compute in K2; discriminate K2] |]).
    destruct Hal1. }
  subst al1.
  destruct (match_alt_split _ _ _ _ Hm1) as [S1 Len1].
  destruct (match_alt_split _ _ _ _ Hm2) as [S2 Len2].
  rewrite S1 in S2.
  destruct (append_same_length _ _ _ _ S2) as [<- <-];
    [rewrite Len1, Len2, L2; reflexivity |].
  assert (g2' = g1') as -> by congruence.
  pose proof (word_match _ _ _ _ Hm1) as W1.
  pose proof (re_match_directives _ _ _ _ E1) as D1. cbn [directives] in D1.
  assert (Hn : ~ In Py.dI (map fst g1')).
  { rewrite D1. intros [H | [H | []]]; discriminate H. }
  cbn [Py.convert]. rewrite W1.
  change (Py.index1 (Py.lower "may") (map Py.lower Py.month_names)) with 5.
  change (Py.index1 (Py.lower "may")
            (map (fun n => Py.lower (Py.abbr n)) Py.month_names)) with 5.
  rewrite (convert_without_hour12 ((Py.dB, m1) :: g1') ((Py.db, m1) :: g1')
             g1' Hn).
  destruct (Py.valid_date _ _ _); congruence.
Qed.

(** Two patterns of one list that accept a string read it alike. *)
Lemma date_formats_agree f g s d d' :
  In f AppointmentPlugin.date_formats -> In g AppointmentPlugin.date_formats ->
  Py.strptime s f = Some d -> Py.strptime s g = Some d' -> d = d'.
Proof.
  intros Hf Hg Ef Eg.
  destruct (date_formats_exclusive f g s d d' Hf Hg Ef Eg)
    as [-> | [[-> ->] | [-> ->]]].
  - congruence.
  - exact (month_name_patterns_agree s d d' Ef Eg).
  - symmetry. exact (month_name_patterns_agree s d' d Eg Ef).
Qed.

Lemma time_formats_agree f g s d d' :
  In f AppointmentPlugin.time_formats -> In g AppointmentPlugin.time_formats ->
  Py.strptime s f = Some d -> Py.strptime s g = Some d' -> d = d'.
Proof.
  intros Hf Hg Ef Eg.
  pose proof (time_formats_exclusive f g s d d' Hf Hg Ef Eg) as ->.
  congruence.
Qed.

Lemma first_format_hit s fs f d :
  (forall f g d d', In f fs -> In g fs ->
     Py.strptime (Py.strip s) f = Some d ->
     Py.strptime (Py.strip s) g = Some d' -> d = d') ->
  In f fs -> Py.strptime (Py.strip s) f = Some d ->
  AppointmentPlugin.first_format s fs = Some d.
Proof.
  intros Hagree Hin Hf.
  destruct (AppointmentPlugin.first_format s fs) as [d' |] eqn:E.
  - apply first_format_inv in E as (g & Hg & Eg).
    f_equal. exact (Hagree g f d' d Hg Hin Eg Hf).
  - exfalso. clear Hagree. induction fs as [| g fs IH]; [destruct Hin |].
    cbn [AppointmentPlugin.first_format] in E.
    destruct (Py.strptime (Py.strip s) g) eqn:Eg; [discriminate |].
    destruct Hin as [-> | Hin]; [congruence | auto].
Qed.

(** When the patterns of a list agree on a string, the order in which they
    are tried does not matter. *)
Lemma first_format_permutation s fs fs' :
  (forall f g d d', In f fs -> In g fs ->
     Py.strptime (Py.strip s) f = Some d ->
     Py.strptime (Py.strip s) g = Some d' -> d = d') ->
  Permutation fs fs' ->
  AppointmentPlugin.first_format s fs' = AppointmentPlugin.first_format s fs.
Proof.
  intros Hagree HP.
  destruct (AppointmentPlugin.first_format s fs') as [d |] eqn:E'.
  - apply first_format_inv in E' as (f & Hf & Ef). symmetry.
    apply (first_format_hit s fs f d Hagree); [| exact Ef].
    apply (Permutation_in _ (Permutation_sym HP)). exact Hf.
  - destruct (AppointmentPlugin.first_format s fs) as [d |] eqn:E;
      [| reflexivity].
    exfalso. apply first_format_inv in E as (f & Hf & Ef).
    assert (Hagree' : forall f g d d', In f fs' -> In g fs' ->
              Py.strptime (Py.strip s) f = Some d ->
              Py.strptime (Py.strip s) g = Some d' -> d = d').
    { intros f0 g0 d0 d0' H1 H2. apply Hagree;
        apply (Permutation_in _ (Permutation_sym HP)); assumption. }
    rewrite (first_format_hit s fs' f d Hagree' (Permutation_in _ HP Hf) Ef)
      in E'.
    discriminate E'.
Qed.

(** X24.  No string is read differently by two patterns of
    [_parse_datetime]: two time patterns never accept the same string, two
    date patterns neither, but for the full and the abbreviated month name,
    which both accept May and read it alike.  So the result of
    [_parse_datetime] does not depend on the order in which the patterns
    are listed. *)
Theorem parse_order_irrelevant (date_formats time_formats : list string)
    (date_str time_str : option string) :
  Permutation AppointmentPlugin.date_formats date_formats ->
  Permutation AppointmentPlugin.time_formats time_formats ->
  parse_with date_formats time_formats date_str time_str
  = AppointmentPlugin._parse_datetime date_str time_str.
Proof.
  intros Hd Ht. unfold parse_with, AppointmentPlugin._parse_datetime.
  destruct date_str as [ds |]; [| reflexivity].
  rewrite (first_format_permutation ds _ _
             (fun f g d d' => date_formats_agree f g _ d d') Hd).
  destruct (AppointmentPlugin.first_format ds _); [| reflexivity].
  destruct time_str as [ts |]; [| reflexivity].
  rewrite (first_format_permutation ts _ _
             (fun f g d d' => time_formats_agree f g _ d d') Ht).
  reflexivity.
Qed.

Lemma parse_order_irrelevant_witness :
  parse_with (rev AppointmentPlugin.date_formats)
    (rev AppointmentPlugin.time_formats) (Some "May 4, 2024") (Some "2:30 pm")
  = AppointmentPlugin._parse_datetime (Some "May 4, 2024") (Some "2:30 pm").
Proof.
  apply (parse_order_irrelevant (rev AppointmentPlugin.date_formats)
           (rev AppointmentPlugin.time_formats)).
  - apply Permutation_rev.
  - apply Permutation_rev.
Defined.
